(** * Azure DevOps report scripts: a shallow embedding and its properties

  The development embeds the data-processing core of the two scripts
  [devops-pr-report.py] and [time-report.py]:

  - the key-label heuristics ([extract_user_from_keyname]) together with
    the small fragment of Python's [re] it relies on;
  - the pricing table and the cost formula ([_get_pricing], [_calc_cost]);
  - the PR de-duplication loop of [main];
  - the per-person roll-up of [build_consumption_chart];
  - the collection of the PRs ([fetch_project_prs]), their enrichment,
    the timeline and the comparison of users;
  - in [time-report.py]: the gatherers ([get_devops_activity],
    [get_claude_activity], [get_calendar_activity], [get_git_activity]),
    [merge_daily], [format_text] and [main].

  Conventions of the embedding.
  - Python [str] values are [string]s of the bytes of their UTF-8
    encoding; [str.lower], [str.upper] and [str.strip] are modelled on
    the ASCII range (bytes above 127 are left alone and are never white
    space).  On ASCII text ([is_ascii]) this is what Python does;
    statements about letter case are made for such text.
  - Token counts are integers ([Z]).  The pricing table and the cost
    formula are given both on binary64 floats ([Binary64], as Python
    computes them) and on rationals ([Q]).  The loop that adds the costs
    up ([accumulate_usage]) is written once for any number type
    ([numbers]); its properties hold for the floats as they do for the
    rationals.  The figures of the chart that are derived from the sums
    (rounding to cents, percentages, cost per PR) are modelled by exact
    rational arithmetic.
  - A [datetime.date] is its proleptic Gregorian ordinal
    ([date.toordinal()]).  In [time-report.py] date arithmetic is
    checked as in CPython: a result outside 0001-01-01 .. 9999-12-31 is
    an [OverflowError] ([add_days_checked]); the axis of the chart in
    [devops-pr-report.py] is modelled without these bounds.  A
    [datetime] is a date plus the number of microseconds since midnight.
    A timestamp read by [fromisoformat] is a [stamp]: aware, with its
    own offset from UTC, or naive.  ["%Y-%m-%d"] prints the year with
    four digits (some builds of CPython print years below 1000 without
    the leading zeros; later years are not affected).
  - Parsing of timestamps ([fromisoformat]) and of command-line dates
    ([strptime]) is a parameter: a function from the text to the parsed
    value, [None] when Python raises [ValueError].
  - Exceptions that matter are values: a call that can raise returns a
    [run] (in [time-report.py]) or an [option].
  - Calls that leave the program (the [az] tool, HTTP, the file system)
    are parameters of the embedding.
  - A Python [dict] is an association list in insertion order with unique
    keys. *)

From Stdlib Require Import ZArith QArith Qround Qabs Lia Lqa Bool List Ascii String.
From Stdlib Require Import Permutation Sorted.
From Stdlib Require Floats.
Import ListNotations.

Open Scope string_scope.
Open Scope Z_scope.
Open Scope list_scope.

(** ** Text helpers *)

Module Text.

(** Characters of a Python [str] as a list. *)
Definition text := list ascii.

Definition of_string : string -> text := list_ascii_of_string.
Definition to_string : text -> string := string_of_list_ascii.

Definition code (c : ascii) : N := N_of_ascii c.

Definition is_lower (c : ascii) : bool :=
  ((97 <=? code c) && (code c <=? 122))%N.

Definition is_upper (c : ascii) : bool :=
  ((65 <=? code c) && (code c <=? 90))%N.

(** [str.isspace] on the ASCII range: TAB..CR, FS..US and SPACE. *)
Definition is_space (c : ascii) : bool :=
  (((9 <=? code c) && (code c <=? 13))
   || ((28 <=? code c) && (code c <=? 32)))%N.

Definition lower_char (c : ascii) : ascii :=
  if is_upper c then ascii_of_N (code c + 32) else c.

Definition upper_char (c : ascii) : ascii :=
  if is_lower c then ascii_of_N (code c - 32) else c.

(** [s.lower()] *)
Definition lower (s : text) : text := map lower_char s.

(** [s.upper()] *)
Definition upper (s : text) : text := map upper_char s.

Fixpoint drop_while (p : ascii -> bool) (s : text) : text :=
  match s with
  | c :: r => if p c then drop_while p r else s
  | [] => []
  end.

Fixpoint take_while (p : ascii -> bool) (s : text) : text :=
  match s with
  | c :: r => if p c then c :: take_while p r else []
  | [] => []
  end.

Definition lstrip (s : text) : text := drop_while is_space s.
Definition rstrip (s : text) : text := rev (drop_while is_space (rev s)).

(** [s.strip()] *)
Definition strip (s : text) : text := rstrip (lstrip s).

Definition ascii_eqb (a b : ascii) : bool := Ascii.eqb a b.

(** [s.isascii()]: every character is below 128.  On such text the
    functions above are [str.lower], [str.upper], [str.isspace] and
    [str.strip] themselves; beyond it Python follows the Unicode tables. *)
Definition is_ascii (s : text) : bool :=
  forallb (fun c => (code c <? 128)%N) s.

(** [s.startswith(p)], returning what follows the prefix. *)
Fixpoint strip_prefix (p s : text) : option text :=
  match p, s with
  | [], _ => Some s
  | a :: p', b :: s' => if ascii_eqb a b then strip_prefix p' s' else None
  | _ :: _, [] => None
  end.

Definition startswith (s p : text) : bool :=
  match strip_prefix p s with Some _ => true | None => false end.

(** [t] occurs in [s] as a contiguous run of characters. *)
Definition is_infix (t s : text) : Prop :=
  exists pre post, s = pre ++ t ++ post.

End Text.
Import Text.

(** ** The fragment of Python's [re] used by the scripts

  A backtracking matcher in continuation-passing style.  Repetition is
  greedy, as in [re]: the longest run is tried first and shorter runs are
  tried only when the rest of the pattern fails. *)

Module Re.

Inductive regex : Type :=
| Lit (l : text)                                   (* literal characters *)
| Class (p : ascii -> bool)                        (* [...] *)
| Repeat (p : ascii -> bool) (lo : nat) (hi : option nat)
                                                   (* [...]{lo,hi}, greedy *)
| Group (r : regex)                                (* ( ... ) *)
| Cat (r1 r2 : regex)
| Bol                                              (* ^ *)
| Eol.                                             (* $ *)

Definition newline : ascii := ascii_of_N 10.

Definition room (hi : option nat) : bool :=
  match hi with Some O => false | _ => true end.

Fixpoint rep {A} (p : ascii -> bool) (lo : nat) (hi : option nat)
         (pos : nat) (s : text) (k : nat -> text -> option A) : option A :=
  let stop := match lo with O => k pos s | S _ => None end in
  match s with
  | c :: rest =>
      if p c && room hi
      then match rep p (pred lo) (option_map pred hi) (S pos) rest k with
           | Some a => Some a
           | None => stop
           end
      else stop
  | [] => stop
  end.

(** [rmatch r pos s g k]: match [r] at offset [pos], where [s] is the
    input from [pos] on and [g] the text captured by group 1 so far. *)
Fixpoint rmatch {A} (r : regex) (pos : nat) (s : text) (g : text)
         (k : nat -> text -> text -> option A) : option A :=
  match r with
  | Lit l =>
      match strip_prefix l s with
      | Some rest => k (pos + List.length l)%nat rest g
      | None => None
      end
  | Class p =>
      match s with
      | c :: rest => if p c then k (S pos) rest g else None
      | [] => None
      end
  | Repeat p lo hi => rep p lo hi pos s (fun pos' rest => k pos' rest g)
  | Group r1 =>
      rmatch r1 pos s g
             (fun pos' rest _ => k pos' rest (firstn (pos' - pos) s))
  | Cat r1 r2 =>
      rmatch r1 pos s g (fun pos' rest g' => rmatch r2 pos' rest g' k)
  | Bol => if (pos =? 0)%nat then k pos s g else None
  | Eol =>
      match s with
      | [] => k pos s g
      | [c] => if ascii_eqb c newline then k pos s g else None
      | _ => None
      end
  end.

(** [re.match(r, s)]: [None] when there is no match at the start of [s],
    otherwise [m.group(1)] (empty when the pattern has no group). *)
Definition re_match (r : regex) (s : text) : option text :=
  rmatch r 0 s [] (fun _ _ g => Some g).

End Re.
Import Re.

Definition within (hi : option nat) (n : nat) : bool :=
match hi with None => true | Some h => (n <=? h)%nat end.

(** ** Python dictionaries

    Insertion-ordered association lists with unique keys. *)

Module Dict.

Section Dict.

Context {V : Type}.

Definition dict := list (string * V).

(** [d.get(k)] *)
Fixpoint get (d : dict) (k : string) : option V :=
  match d with
  | [] => None
  | (k', v) :: rest => if String.eqb k' k then Some v else get rest k
  end.

(** [d.get(k, dflt)] *)
Definition get_or (d : dict) (k : string) (dflt : V) : V :=
  match get d k with Some v => v | None => dflt end.

(** [k in d] *)
Definition mem (d : dict) (k : string) : bool :=
  match get d k with Some _ => true | None => false end.

(** [d[k] = v]: an existing key keeps its position *)
Fixpoint set (d : dict) (k : string) (v : V) : dict :=
  match d with
  | [] => [(k, v)]
  | (k', v') :: rest =>
      if String.eqb k' k then (k', v) :: rest else (k', v') :: set rest k v
  end.

Definition keys (d : dict) : list string := map fst d.

Definition values (d : dict) : list V := map snd d.

End Dict.

Arguments dict V : clear implicits.

End Dict.

(** [x.get(field, dflt)] for an optional field of a JSON object *)
Definition field_or {A} (x : option A) (dflt : A) : A :=
  match x with Some a => a | None => dflt end.

(** ** Dates and times ([datetime])

    The arithmetic of CPython's [datetime] module on proleptic Gregorian
    ordinals. *)

Module Calendar.

(** [date.toordinal()]: 1 is 0001-01-01. *)
Definition date : Type := Z.

Definition _is_leap (year : Z) : bool :=
  (year mod 4 =? 0) && (negb (year mod 100 =? 0) || (year mod 400 =? 0)).

Definition _days_before_year (year : Z) : Z :=
  let y := year - 1 in
  y * 365 + y / 4 - y / 100 + y / 400.

Definition _DAYS_IN_MONTH : list Z :=
  [-1; 31; 28; 31; 30; 31; 30; 31; 31; 30; 31; 30; 31].

Definition _DAYS_BEFORE_MONTH : list Z :=
  [-1; 0; 31; 59; 90; 120; 151; 181; 212; 243; 273; 304; 334].

Definition b2z (b : bool) : Z := if b then 1 else 0.

Definition _days_before_month (year month : Z) : Z :=
  nth (Z.to_nat month) _DAYS_BEFORE_MONTH 0
  + b2z ((2 <? month) && _is_leap year).

Definition _ymd2ord (year month day : Z) : date :=
  _days_before_year year + _days_before_month year month + day.

Definition _DI400Y : Z := _days_before_year 401.
Definition _DI100Y : Z := _days_before_year 101.
Definition _DI4Y : Z := _days_before_year 5.

(** The end of [_ord2ymd]: month and day from the 0-based day [n] of the
    year. *)
Definition _month_day (n : Z) (leapyear : bool) : Z * Z :=
  let month := Z.shiftr (n + 50) 5 in
  let preceding :=
    nth (Z.to_nat month) _DAYS_BEFORE_MONTH 0
    + b2z ((2 <? month) && leapyear) in
  if n <? preceding
  then
    let month := month - 1 in
    let preceding :=
      preceding
      - (nth (Z.to_nat month) _DAYS_IN_MONTH 0
         + b2z ((month =? 2) && leapyear)) in
    (month, n - preceding + 1)
  else (month, n - preceding + 1).

Definition _ord2ymd (ordinal : date) : Z * Z * Z :=
  let n := ordinal - 1 in
  let n400 := n / _DI400Y in
  let n := n mod _DI400Y in
  let year := n400 * 400 + 1 in
  let n100 := n / _DI100Y in
  let n := n mod _DI100Y in
  let n4 := n / _DI4Y in
  let n := n mod _DI4Y in
  let n1 := n / 365 in
  let n := n mod 365 in
  let year := year + n100 * 100 + n4 * 4 + n1 in
  if (n1 =? 4) || (n100 =? 4) then (year - 1, 12, 31)
  else
    let leapyear := (n1 =? 3) && (negb (n4 =? 24) || (n100 =? 3)) in
    let '(month, day) := _month_day n leapyear in
    (year, month, day).

(** The dates Python can represent: 0001-01-01 to 9999-12-31. *)
Definition valid_date (d : date) : Prop := 1 <= d <= 3652059.

Definition digit (n : Z) : ascii := ascii_of_N (48 + Z.to_N (n mod 10)).

(** ["%02d"] *)
Definition pad2 (n : Z) : text := [digit (n / 10); digit n].

(** ["%04d"] *)
Definition pad4 (n : Z) : text :=
  [digit (n / 1000); digit (n / 100); digit (n / 10); digit n].

(** [d.strftime("%Y-%m-%d")] *)
Definition strftime_ymd (d : date) : string :=
  let '(y, m, dd) := _ord2ymd d in
  to_string (pad4 y ++ of_string "-" ++ pad2 m ++ of_string "-" ++ pad2 dd).

(** [d.weekday()]: Monday is 0. *)
Definition weekday (d : date) : Z := (d + 6) mod 7.

(** [d + timedelta(days=n)] *)
Definition add_days (d : date) (n : Z) : date := d + n.

(** The loop [while d <= end_d: ...; d += timedelta(days=1)], listing the
    values of [d] for which the body runs. *)
Fixpoint days_loop (fuel : nat) (d end_d : date) : list date :=
  match fuel with
  | O => []
  | S fuel' =>
      if d <=? end_d then d :: days_loop fuel' (add_days d 1) end_d else []
  end.

(** The number of iterations is known beforehand; [days_loop_fuel] shows
    that more fuel changes nothing. *)
Definition day_range (d end_d : date) : list date :=
  days_loop (Z.to_nat (end_d - d + 1)) d end_d.

(** [(d2 - d1).days] for two dates *)
Definition days_between (d1 d2 : date) : Z := d2 - d1.

(** The fields of a [datetime]: its date and the microseconds since
    midnight.  Where nothing else is said the value is an aware one in
    UTC ([tzinfo=timezone.utc]). *)
Record datetime : Type := {
  dt_date : date;
  dt_us : Z
}.

Definition us_per_day : Z := 86400000000.

Definition time_us (hour minute second microsecond : Z) : Z :=
  ((hour * 60 + minute) * 60 + second) * 1000000 + microsecond.

(** Position on the time line, in microseconds. *)
Definition instant (t : datetime) : Z := dt_date t * us_per_day + dt_us t.

(** [a <= b] *)
Definition dt_leb (a b : datetime) : bool := instant a <=? instant b.

(** [a < b] *)
Definition dt_ltb (a b : datetime) : bool := instant a <? instant b.

(** [date.max.toordinal()]: 9999-12-31 *)
Definition max_ordinal : Z := 3652059.

(** [d + timedelta(days=n)] where Python checks the result: [None] is the
    [OverflowError] raised when the result is not a date from 0001-01-01
    to 9999-12-31 (or when [n] is more than a [timedelta] can hold, which
    for such a [d] gives a result outside that range as well). *)
Definition add_days_checked (d : date) (n : Z) : option date :=
  let r := d + n in
  if (1 <=? r) && (r <=? max_ordinal) then Some r else None.

(** [t - timedelta(days=n)], [None] when it raises [OverflowError] *)
Definition sub_days (t : datetime) (n : Z) : option datetime :=
  match add_days_checked (dt_date t) (- n) with
  | Some d => Some {| dt_date := d; dt_us := dt_us t |}
  | None => None
  end.

(** [(b - a).days]: a [timedelta] is normalised with
    [0 <= seconds < 86400], so [days] is the floor of the difference. *)
Definition timedelta_days (a b : datetime) : Z :=
  (instant b - instant a) / us_per_day.

(** [datetime.strptime(s, "%Y-%m-%d").replace(tzinfo=timezone.utc)] for a
    well-formed [s] naming the date [d] *)
Definition midnight (d : date) : datetime := {| dt_date := d; dt_us := 0 |}.

(** [t.replace(hour=23, minute=59, second=59)]: the microsecond field
    is kept. *)
Definition replace_end_of_day (t : datetime) : datetime :=
  {| dt_date := dt_date t;
     dt_us := time_us 23 59 59 (dt_us t mod 1000000) |}.

(** A well-formed time of day. *)
Definition valid_time (t : datetime) : Prop := 0 <= dt_us t < us_per_day.

(** [datetime(year, month, day, hour, minute, tzinfo=utc)] *)
Definition mk_datetime (year month day hour minute : Z) : datetime :=
  {| dt_date := _ymd2ord year month day;
     dt_us := time_us hour minute 0 0 |}.

(** What [datetime.fromisoformat] returns: for a text with a zone an
    aware [datetime], which keeps the fields as they are written and the
    offset from UTC (in microseconds, east positive); for a text without
    a zone a naive one. *)
Inductive stamp : Type :=
| Aware (local : datetime) (utcoffset : Z)
| Naive (local : datetime).

(** The fields as written: [strftime] prints these, whatever the
    offset. *)
Definition local_time (s : stamp) : datetime :=
  match s with
  | Aware local _ => local
  | Naive local => local
  end.

(** Position of an aware [datetime] on the time line. *)
Definition utc_instant (local : datetime) (utcoffset : Z) : Z :=
  instant local - utcoffset.

(** [a <= s] for an aware [a] in UTC: aware values are compared as
    instants; [None] is the [TypeError] of comparing an aware with a naive
    [datetime]. *)
Definition leb_stamp (a : datetime) (s : stamp) : option bool :=
  match s with
  | Aware local utcoffset => Some (instant a <=? utc_instant local utcoffset)
  | Naive _ => None
  end.

(** [s <= b] for an aware [b] in UTC *)
Definition stamp_leb (s : stamp) (b : datetime) : option bool :=
  match s with
  | Aware local utcoffset => Some (utc_instant local utcoffset <=? instant b)
  | Naive _ => None
  end.

(** A timestamp written with ["Z"] or ["+00:00"]. *)
Definition utc (t : datetime) : stamp := Aware t 0.

(** Month and day of every day of a year, leap or not, checked one by
    one. *)
Definition month_day_ok (leapyear : bool) (n : Z) : bool :=
  let '(month, day) := _month_day n leapyear in
  (1 <=? month) && (month <=? 12) && (1 <=? day) && (day <=? 31)
  && (nth (Z.to_nat month) _DAYS_BEFORE_MONTH 0
      + b2z ((2 <? month) && leapyear) + day =? n + 1).

End Calendar.

(** * [devops-pr-report.py] *)

Module PrReport.

(** ** [extract_user_from_keyname] *)

Definition dash_or_underscore (c : ascii) : bool :=
ascii_eqb c "-"%char || ascii_eqb c "_"%char.

(** [r"claude_code_key_([a-z]+)_"] *)
Definition pat_claude_code_key : regex :=
Cat (Lit (of_string "claude_code_key_"))
    (Cat (Group (Repeat is_lower 1 None)) (Lit (of_string "_"))).

(** [r"([a-z]{2,6})[-_]"] *)
Definition pat_user_sep : regex :=
Cat (Group (Repeat is_lower 2 (Some 6%nat))) (Class dash_or_underscore).

(** [r"^[a-z]{2,6}$"] *)
Definition pat_short_name : regex :=
Cat Bol (Cat (Repeat is_lower 2 (Some 6%nat)) Eol).

Definition extract_user_text (name : text) : text :=
let name_lower := strip (lower name) in
match re_match pat_claude_code_key name_lower with
| Some g => g
| None =>
    match re_match pat_user_sep name_lower with
    | Some g => g
    | None =>
        match re_match pat_short_name name_lower with
        | Some _ => name_lower
        | None => firstn 10 name_lower
        end
    end
end.

Definition extract_user_from_keyname (name : string) : string :=
to_string (extract_user_text (of_string name)).

(** The ordered rule list of the identity resolver, written directly on
  runs of lower-case letters.  [extract_user_text] is compared with it in
  [extract_user_text_cascade] below. *)

Definition rule := text -> option text.

Definition key_prefix : text := of_string "claude_code_key_".

(** "<fixed-prefix>_<initials>_<random-suffix>" *)
Definition rule_prefixed : rule := fun s =>
match strip_prefix key_prefix s with
| Some rest =>
    let u := take_while is_lower rest in
    if (1 <=? List.length u)%nat
       && startswith (skipn (List.length u) rest) (of_string "_")
    then Some u else None
| None => None
end.

(** "<initials>[-_]<anything>", initials being 2-6 lower-case letters *)
Definition rule_separator : rule := fun s =>
let u := take_while is_lower s in
if (2 <=? List.length u)%nat && (List.length u <=? 6)%nat
   && match skipn (List.length u) s with
      | c :: _ => dash_or_underscore c
      | [] => false
      end
then Some u else None.

(** the whole label is 2-6 lower-case letters *)
Definition rule_whole : rule := fun s =>
let u := take_while is_lower s in
if (2 <=? List.length u)%nat && (List.length u <=? 6)%nat
   && match skipn (List.length u) s with [] => true | _ => false end
then Some s else None.

(** the first 10 characters *)
Definition rule_fallback : rule := fun s => Some (firstn 10 s).

Fixpoint first_match_wins (rules : list rule) (s : text) : text :=
match rules with
| [] => s
| r :: rest =>
    match r s with
    | Some t => t
    | None => first_match_wins rest s
    end
end.

Definition cascade_spec (name : string) : string :=
to_string
  (first_match_wins
     [rule_prefixed; rule_separator; rule_whole; rule_fallback]
     (strip (lower (of_string name)))).

(** The invariant of C10 as it is written: the initials are a contiguous
    run of the lower-cased, stripped label, hold no upper-case letter and
    have no white space at either end. *)
Definition initials_wellformed (name : string) : Prop :=
  let s := strip (lower (of_string name)) in
  let r := of_string (extract_user_from_keyname name) in
  is_infix r s
  /\ forallb (fun c => negb (is_upper c)) r = true
  /\ strip r = r.

(** ** Usage records and the cost calculator *)

(** The [cache_creation] object of a usage result *)
Record cache_creation_t : Type := {
  ephemeral_5m_input_tokens : option Z;
  ephemeral_1h_input_tokens : option Z
}.

(** One entry of a bucket's [results]; [None] is an absent field. *)
Record usage_result : Type := {
  model : option string;
  api_key_id : option string;
  uncached_input_tokens : option Z;
  cache_read_input_tokens : option Z;
  output_tokens : option Z;
  cache_creation : option cache_creation_t
}.

(** (input_per_M, cache_read_per_M, cache_write_per_M, output_per_M) *)
Definition pricing : Type := (Q * Q * Q * Q)%type.

Definition _MODEL_PRICING : Dict.dict pricing :=
  [ ("claude-opus-4",   (15.00, 1.50, 18.75, 75.00)%Q);
    ("claude-sonnet-4", ( 3.00, 0.30,  3.75, 15.00)%Q);
    ("claude-haiku-4",  ( 0.80, 0.08,  1.00,  4.00)%Q);
    ("_default",        ( 3.00, 0.30,  3.75, 15.00)%Q) ].

(** The loop of [_get_pricing]: the first entry, in table order, whose key
    is not "_default" and is a prefix of the lower-cased model name. *)
Fixpoint find_pricing {P : Type} (table : Dict.dict P) (model_lower : text)
  : option (string * P) :=
  match table with
  | [] => None
  | (prefix, price) :: rest =>
      if negb (String.eqb prefix "_default")
         && startswith model_lower (of_string prefix)
      then Some (prefix, price)
      else find_pricing rest model_lower
  end.

(** [_MODEL_PRICING["_default"]] *)
Definition default_pricing : pricing :=
  Dict.get_or _MODEL_PRICING "_default" (0, 0, 0, 0)%Q.

Definition _get_pricing (model : string) : pricing :=
  let model_lower := lower (of_string model) in
  match find_pricing _MODEL_PRICING model_lower with
  | Some (_, price) => price
  | None => default_pricing
  end.

Definition tok_uncached (r : usage_result) : Z :=
  field_or (uncached_input_tokens r) 0.

Definition tok_cache_read (r : usage_result) : Z :=
  field_or (cache_read_input_tokens r) 0.

Definition tok_output (r : usage_result) : Z :=
  field_or (output_tokens r) 0.

Definition cc_or_empty (r : usage_result) : cache_creation_t :=
  field_or (cache_creation r)
           {| ephemeral_5m_input_tokens := None;
              ephemeral_1h_input_tokens := None |}.

Definition tok_cache_5m (r : usage_result) : Z :=
  field_or (ephemeral_5m_input_tokens (cc_or_empty r)) 0.

Definition tok_cache_1h (r : usage_result) : Z :=
  field_or (ephemeral_1h_input_tokens (cc_or_empty r)) 0.

Definition _calc_cost (result : usage_result) : Q :=
  let model := field_or (model result) "" in
  let '(inp_price, cache_read_price, cache_write_price, out_price) :=
    _get_pricing model in
  let uncached_input := tok_uncached result in
  let cache_read := tok_cache_read result in
  let output := tok_output result in
  let cache_write := tok_cache_5m result + tok_cache_1h result in
  (inject_Z uncached_input * inp_price / 1000000
   + inject_Z cache_read * cache_read_price / 1000000
   + inject_Z cache_write * cache_write_price / 1000000
   + inject_Z output * out_price / 1000000)%Q.

(** Record updates, used to vary one token field at a time. *)

Definition with_uncached (r : usage_result) (n : Z) : usage_result :=
  {| model := model r; api_key_id := api_key_id r;
     uncached_input_tokens := Some n;
     cache_read_input_tokens := cache_read_input_tokens r;
     output_tokens := output_tokens r;
     cache_creation := cache_creation r |}.

Definition with_cache_read (r : usage_result) (n : Z) : usage_result :=
  {| model := model r; api_key_id := api_key_id r;
     uncached_input_tokens := uncached_input_tokens r;
     cache_read_input_tokens := Some n;
     output_tokens := output_tokens r;
     cache_creation := cache_creation r |}.

Definition with_output (r : usage_result) (n : Z) : usage_result :=
  {| model := model r; api_key_id := api_key_id r;
     uncached_input_tokens := uncached_input_tokens r;
     cache_read_input_tokens := cache_read_input_tokens r;
     output_tokens := Some n;
     cache_creation := cache_creation r |}.

Definition with_cache_5m (r : usage_result) (n : Z) : usage_result :=
  {| model := model r; api_key_id := api_key_id r;
     uncached_input_tokens := uncached_input_tokens r;
     cache_read_input_tokens := cache_read_input_tokens r;
     output_tokens := output_tokens r;
     cache_creation :=
       Some {| ephemeral_5m_input_tokens := Some n;
               ephemeral_1h_input_tokens :=
                 ephemeral_1h_input_tokens (cc_or_empty r) |} |}.

Definition with_cache_1h (r : usage_result) (n : Z) : usage_result :=
  {| model := model r; api_key_id := api_key_id r;
     uncached_input_tokens := uncached_input_tokens r;
     cache_read_input_tokens := cache_read_input_tokens r;
     output_tokens := output_tokens r;
     cache_creation :=
       Some {| ephemeral_5m_input_tokens :=
                 ephemeral_5m_input_tokens (cc_or_empty r);
               ephemeral_1h_input_tokens := Some n |} |}.

(** A result that only names its model and its uncached input tokens. *)
Definition usage_of (m : string) (key : string) (uncached : Z)
  : usage_result :=
  {| model := Some m; api_key_id := Some key;
     uncached_input_tokens := Some uncached;
     cache_read_input_tokens := None;
     output_tokens := None;
     cache_creation := None |}.

Definition rates_nonneg (p : pricing) : Prop :=
  let '(a, b, c, d) := p in (0 <= a /\ 0 <= b /\ 0 <= c /\ 0 <= d)%Q.

(** The cost as the spec writes it: each count is divided by one million
    and then multiplied by its rate. *)
Definition cost_formula (r : usage_result) : Q :=
  let '(rate_in, rate_cache_read, rate_cache_write, rate_out) :=
    _get_pricing (field_or (model r) "") in
  (inject_Z (tok_uncached r) / 1000000 * rate_in
   + inject_Z (tok_cache_read r) / 1000000 * rate_cache_read
   + inject_Z (tok_cache_5m r + tok_cache_1h r) / 1000000 * rate_cache_write
   + inject_Z (tok_output r) / 1000000 * rate_out)%Q.

Definition sonnet_record : usage_result :=
  {| model := Some "claude-sonnet-4-x"; api_key_id := None;
     uncached_input_tokens := Some 1000000;
     cache_read_input_tokens := None;
     output_tokens := None;
     cache_creation := None |}.

(** The numbers of the usage roll-up.  The loop that accumulates the costs
    only adds them up and compares them with zero, so it is written once
    for any number type: Python's is binary64 ([Binary64.binary64] below);
    the per-user breakdown is worked out on the rationals ([exact]). *)
Record numbers : Type := {
  num : Type;
  num_zero : num;                       (* [0.0] *)
  num_add : num -> num -> num;          (* [x + y] *)
  num_cost : usage_result -> num;       (* [_calc_cost(result)] *)
  num_skips : num -> bool               (* [cost <= 0] *)
}.

Definition exact : numbers :=
  {| num := Q;
     num_zero := 0%Q;
     num_add := Qplus;
     num_cost := _calc_cost;
     num_skips := fun cost => Qle_bool cost 0 |}.

(** The scenario of C6: the model "claude-sonnet-4-x", one million
    uncached input tokens, every other count zero or absent. *)
Definition sonnet_scenario (r : usage_result) : Prop :=
  model r = Some "claude-sonnet-4-x"
  /\ uncached_input_tokens r = Some 1000000
  /\ field_or (cache_read_input_tokens r) 0 = 0
  /\ field_or (output_tokens r) 0 = 0
  /\ match cache_creation r with
     | Some cc =>
         field_or (ephemeral_5m_input_tokens cc) 0 = 0
         /\ field_or (ephemeral_1h_input_tokens cc) 0 = 0
     | None => True
     end.

(** *** The cost on binary64 floats

    The table and the formula once more, on Python's own number type:
    every operation rounds to the nearest binary64 value. *)

Module Binary64.

Import Floats.

Set Warnings "-inexact-float".

(** [float(n)] for an [int] below 2^63 in absolute value *)
Definition float_of_int (n : Z) : float :=
  if n <? 0 then PrimFloat.opp (PrimFloat.of_uint63 (Uint63.of_Z (- n)))
  else PrimFloat.of_uint63 (Uint63.of_Z n).

Definition pricing64 : Type := (float * float * float * float)%type.

Definition _MODEL_PRICING : Dict.dict pricing64 :=
  [ ("claude-opus-4",   (15.00, 1.50, 18.75, 75.00)%float);
    ("claude-sonnet-4", ( 3.00, 0.30,  3.75, 15.00)%float);
    ("claude-haiku-4",  ( 0.80, 0.08,  1.00,  4.00)%float);
    ("_default",        ( 3.00, 0.30,  3.75, 15.00)%float) ].

Definition _get_pricing (model : string) : pricing64 :=
  let model_lower := lower (of_string model) in
  match find_pricing _MODEL_PRICING model_lower with
  | Some (_, price) => price
  | None => Dict.get_or _MODEL_PRICING "_default" (0, 0, 0, 0)%float
  end.

Definition _calc_cost (result : usage_result) : float :=
  let model := field_or (model result) "" in
  let '(inp_price, cache_read_price, cache_write_price, out_price) :=
    _get_pricing model in
  let uncached_input := float_of_int (tok_uncached result) in
  let cache_read := float_of_int (tok_cache_read result) in
  let output := float_of_int (tok_output result) in
  let cache_write :=
    float_of_int (tok_cache_5m result + tok_cache_1h result) in
  (uncached_input * inp_price / 1000000
   + cache_read * cache_read_price / 1000000
   + cache_write * cache_write_price / 1000000
   + output * out_price / 1000000)%float.

(** The expression that [_calc_cost] evaluates, from left to right, on
    four counts and four rates. *)
Definition cost_expr (uncached_input cache_read cache_write output : Z)
           (p : pricing64) : float :=
  let '(inp_price, cache_read_price, cache_write_price, out_price) := p in
  (float_of_int uncached_input * inp_price / 1000000
   + float_of_int cache_read * cache_read_price / 1000000
   + float_of_int cache_write * cache_write_price / 1000000
   + float_of_int output * out_price / 1000000)%float.

(** The cost as the spec writes it: each count is divided by one million
    and then multiplied by its rate. *)
Definition cost_formula (uncached_input cache_read cache_write output : Z)
           (p : pricing64) : float :=
  let '(rate_in, rate_cache_read, rate_cache_write, rate_out) := p in
  (float_of_int uncached_input / 1000000 * rate_in
   + float_of_int cache_read / 1000000 * rate_cache_read
   + float_of_int cache_write / 1000000 * rate_cache_write
   + float_of_int output / 1000000 * rate_out)%float.

Definition binary64 : numbers :=
  {| num := float;
     num_zero := 0%float;
     num_add := PrimFloat.add;
     num_cost := _calc_cost;
     num_skips := fun cost => PrimFloat.leb cost 0%float |}.

Definition opus : pricing64 := (15.00, 1.50, 18.75, 75.00)%float.
Definition sonnet : pricing64 := (3.00, 0.30, 3.75, 15.00)%float.
Definition haiku : pricing64 := (0.80, 0.08, 1.00, 4.00)%float.

End Binary64.

(** ** De-duplication of the fetched PRs ([main]) *)

(** The fields of a fetched PR that [main] looks at. *)
Record fetched_pr : Type := {
  pullRequestId : Z;
  status : string;
  creationDate : string
}.

Definition seen_mem (pid : Z) (seen : list Z) : bool :=
  existsb (Z.eqb pid) seen.

(** The loop over [all_prs] with its two accumulators [seen] and
    [unique_prs]. *)
Fixpoint dedup_loop (all_prs : list fetched_pr) (seen : list Z)
         (unique_prs : list fetched_pr) : list fetched_pr :=
  match all_prs with
  | [] => unique_prs
  | pr :: rest =>
      let pid := pullRequestId pr in
      if negb (seen_mem pid seen)
      then dedup_loop rest (pid :: seen) (unique_prs ++ [pr])
      else dedup_loop rest seen unique_prs
  end.

Definition dedup_prs (all_prs : list fetched_pr) : list fetched_pr :=
  dedup_loop all_prs [] [].

(** A stable sort: [before y x] says that [y] has to come strictly before
    [x]; elements that tie keep their order. *)
Section StableSort.

Context {A : Type} (before : A -> A -> bool).

Fixpoint insert_stable (x : A) (l : list A) : list A :=
  match l with
  | [] => [x]
  | y :: ys => if before y x then y :: insert_stable x ys else x :: l
  end.

Fixpoint sort_stable (l : list A) : list A :=
  match l with
  | [] => []
  | x :: xs => insert_stable x (sort_stable xs)
  end.

(** [a] may stand right before [b]. *)
Definition in_order (a b : A) : Prop := before b a = false.

End StableSort.

(** [all_prs.sort(key=lambda p: p.get("creationDate", ""), reverse=True)] *)
Definition sort_by_creation_desc (prs : list fetched_pr) : list fetched_pr :=
  sort_stable (fun y x => String.ltb (creationDate x) (creationDate y)) prs.

(** The de-duplicated, sorted PR list that [main] goes on with. *)
Definition unique_sorted_prs (all_prs : list fetched_pr) : list fetched_pr :=
  sort_by_creation_desc (dedup_prs all_prs).

(** The first and the last record of an identifier in a sequence. *)
Definition first_seen (all_prs : list fetched_pr) (pid : Z)
  : option fetched_pr :=
  find (fun pr => pullRequestId pr =? pid) all_prs.

Definition last_seen (all_prs : list fetched_pr) (pid : Z)
  : option fetched_pr :=
  find (fun pr => pullRequestId pr =? pid) (rev all_prs).

(** C2 as it is written: one record per identifier, the last-seen one. *)
Definition dedup_keeps_last (all_prs : list fetched_pr) : Prop :=
  NoDup (map pullRequestId (dedup_prs all_prs))
  /\ forall pr, In pr (dedup_prs all_prs) ->
                last_seen all_prs (pullRequestId pr) = Some pr.

(** The loop, read off as a recursive function of the input and [seen]. *)
Fixpoint dedup_from (seen : list Z) (l : list fetched_pr)
  : list fetched_pr :=
  match l with
  | [] => []
  | pr :: rest =>
      if negb (seen_mem (pullRequestId pr) seen)
      then pr :: dedup_from (pullRequestId pr :: seen) rest
      else dedup_from seen rest
  end.

Definition pr7_active : fetched_pr :=
  {| pullRequestId := 7; status := "active";
     creationDate := "2026-02-03T09:00:00Z" |}.

Definition pr7_abandoned : fetched_pr :=
  {| pullRequestId := 7; status := "abandoned";
     creationDate := "2026-02-03T09:00:00Z" |}.

(** ** The per-person roll-up ([build_consumption_chart]) *)

(** Outcome of a computation that divides: Python raises
    [ZeroDivisionError] on a zero divisor. *)
Inductive result (A : Type) : Type :=
| Ok (a : A)
| ZeroDivisionError.

Arguments Ok {A} a.
Arguments ZeroDivisionError {A}.

Definition bind {A B} (m : result A) (f : A -> result B) : result B :=
  match m with
  | Ok a => f a
  | ZeroDivisionError => ZeroDivisionError
  end.

Notation "x <- m ;; k" := (bind m (fun x => k))
  (at level 61, m at next level, right associativity).

Fixpoint mapM {A B} (f : A -> result B) (l : list A) : result (list B) :=
  match l with
  | [] => Ok []
  | x :: xs => y <- f x ;; ys <- mapM f xs ;; Ok (y :: ys)
  end.

(** [x / y] on floats *)
Definition py_div (x y : Q) : result Q :=
  if Qeq_bool y 0 then ZeroDivisionError else Ok (x / y)%Q.

(** [a < b] on floats *)
Definition Qltb (a b : Q) : bool := negb (Qle_bool b a).

(** Rounding to the nearest integer, ties to even. *)
Definition round_half_even (x : Q) : Z :=
  let f := Qfloor x in
  match Qcompare (x - inject_Z f) (1 # 2) with
  | Lt => f
  | Gt => f + 1
  | Eq => if Z.even f then f else f + 1
  end.

(** [round(x, 2)] *)
Definition round2 (x : Q) : Q :=
  (inject_Z (round_half_even (x * 100)) / 100)%Q.

(** [sum(l)] *)
Definition sumQ (l : list Q) : Q := fold_left Qplus l 0%Q.

Definition sumZ (l : list Z) : Z := fold_left Z.add l 0.

(** One value of the [people] mapping. *)
Record person_info : Type := {
  display_name : string;
  key_ids : list string;
  email : option string
}.

Definition people_t : Type := Dict.dict person_info.

(** One daily bucket of the usage report. *)
Record usage_bucket : Type := {
  starting_at : option string;
  results : option (list usage_result)
}.

(** What the chart reads of an enriched PR: the day named by its
    ["created"] text when that text parses with ["%b %d, %Y %H:%M"]
    ([None] when [strptime] raises [ValueError]), and the author's e-mail. *)
Record pr_entry : Type := {
  created_day : option Calendar.date;
  creator_email : option string
}.

(** [if people:] *)
Definition truthy (people : option people_t) : bool :=
  match people with
  | Some (_ :: _) => true
  | _ => false
  end.

Definition people_items (people : option people_t)
  : list (string * person_info) :=
  field_or people [].

(** [s[:10]] *)
Definition slice10 (s : string) : string :=
  to_string (firstn 10 (of_string s)).

(** [email.split("@")[0].lower() if email else ""] *)
Definition email_prefix (email : string) : string :=
  to_string
    (lower (take_while (fun c => negb (ascii_eqb c "@"%char))
                       (of_string email))).

(** The dates of the chart, oldest first. *)
Definition chart_days (today : Calendar.date) (days : Z)
  : list Calendar.date :=
  let start_date := Calendar.add_days today (- days) in
  Calendar.day_range start_date today.

Definition chart_dates (today : Calendar.date) (days : Z) : list string :=
  map Calendar.strftime_ymd (chart_days today days).

(** [key_id -> initials] *)
Definition build_key_to_person (people : option people_t)
  : Dict.dict string :=
  fold_left
    (fun acc item =>
       fold_left (fun acc kid => Dict.set acc kid (fst item))
                 (key_ids (snd item)) acc)
    (people_items people) [].

Section Ledger.

Variable A : numbers.

(** [d[k] += x] on a [defaultdict(float)] *)
Definition add_cost (d : Dict.dict (num A)) (k : string) (x : num A)
  : Dict.dict (num A) :=
  Dict.set d k (num_add A (Dict.get_or d k (num_zero A)) x).

(** [d[p][k] += x] on a [defaultdict] of [defaultdict(float)] *)
Definition add_cost2 (d : Dict.dict (Dict.dict (num A))) (p k : string)
           (x : num A) : Dict.dict (Dict.dict (num A)) :=
  Dict.set d p (add_cost (Dict.get_or d p []) k x).

(** The body of the loop over a bucket's results; the state is
    [(person_daily, all_daily)]. *)
Definition usage_step (key_to_person : Dict.dict string) (date_str : string)
           (acc : Dict.dict (Dict.dict (num A)) * Dict.dict (num A))
           (result : usage_result)
  : Dict.dict (Dict.dict (num A)) * Dict.dict (num A) :=
  let '(person_daily, all_daily) := acc in
  let cost := num_cost A result in
  if num_skips A cost then acc
  else
    let all_daily := add_cost all_daily date_str cost in
    let key_id := field_or (api_key_id result) "" in
    let person := Dict.get_or key_to_person key_id "_other" in
    (add_cost2 person_daily person date_str cost, all_daily).

Definition bucket_step (key_to_person : Dict.dict string)
           (acc : Dict.dict (Dict.dict (num A)) * Dict.dict (num A))
           (bucket : usage_bucket)
  : Dict.dict (Dict.dict (num A)) * Dict.dict (num A) :=
  let date_str := slice10 (field_or (starting_at bucket) "") in
  fold_left (usage_step key_to_person date_str)
            (field_or (results bucket) []) acc.

(** The loop over [usage_buckets] that fills [person_daily] and
    [all_daily]. *)
Definition accumulate_usage (key_to_person : Dict.dict string)
           (usage_buckets : list usage_bucket)
  : Dict.dict (Dict.dict (num A)) * Dict.dict (num A) :=
  fold_left (bucket_step key_to_person) usage_buckets ([], []).

(** The records of the buckets of day [d] that the loop does not skip, in
    the order in which it meets them. *)
Definition billable_on (d : string) (usage_buckets : list usage_bucket)
  : list usage_result :=
  flat_map
    (fun bucket =>
       if String.eqb (slice10 (field_or (starting_at bucket) "")) d
       then filter (fun r => negb (num_skips A (num_cost A r)))
                   (field_or (results bucket) [])
       else [])
    usage_buckets.

(** [x += cost] for the records of a list, from left to right. *)
Definition add_up (x : num A) (l : list usage_result) : num A :=
  fold_left (fun acc r => num_add A acc (num_cost A r)) l x.

(** [person_daily[person][d]], zero when absent *)
Definition cell (person_daily : Dict.dict (Dict.dict (num A)))
           (person d : string) : num A :=
  Dict.get_or (Dict.get_or person_daily person []) d (num_zero A).

End Ledger.

(** The person that a usage record is put under. *)
Definition person_of (key_to_person : Dict.dict string) (r : usage_result)
  : string :=
  Dict.get_or key_to_person (field_or (api_key_id r) "") "_other".

Definition add_count (d : Dict.dict Z) (k : string) : Dict.dict Z :=
  Dict.set d k (Dict.get_or d k 0 + 1).

Definition add_count2 (d : Dict.dict (Dict.dict Z)) (p k : string)
  : Dict.dict (Dict.dict Z) :=
  Dict.set d p (add_count (Dict.get_or d p []) k).

(** The body of the loop over [prs_data]; the state is
    [(pr_daily_person, pr_daily_all)]. *)
Definition pr_step (people : option people_t)
           (acc : Dict.dict (Dict.dict Z) * Dict.dict Z) (pr : pr_entry)
  : Dict.dict (Dict.dict Z) * Dict.dict Z :=
  let '(pr_daily_person, pr_daily_all) := acc in
  match created_day pr with
  | None => acc
  | Some dt =>
      let date_key := Calendar.strftime_ymd dt in
      let pr_daily_all := add_count pr_daily_all date_key in
      let email := field_or (creator_email pr) "" in
      let prefix := if String.eqb email "" then "" else email_prefix email in
      if truthy people && Dict.mem (people_items people) prefix
      then (add_count2 pr_daily_person prefix date_key, pr_daily_all)
      else (add_count2 pr_daily_person "_other" date_key, pr_daily_all)
  end.

Definition accumulate_prs (people : option people_t)
           (prs_data : list pr_entry)
  : Dict.dict (Dict.dict Z) * Dict.dict Z :=
  fold_left (pr_step people) prs_data ([], []).

(** [sorted(people.items(), key=lambda x: x[0])] *)
Definition sorted_items (people : option people_t)
  : list (string * person_info) :=
  sort_stable (fun y x => String.ltb (fst y) (fst x)) (people_items people).

(** A row of the per-user breakdown:
    [(initials, name, cost, prs, pct, cost_per_pr)]. *)
Record person_summary : Type := {
  ps_initials : string;
  ps_name : string;
  ps_cost : Q;
  ps_prs : Z;
  ps_pct : Q;
  ps_cost_per_pr : Q
}.

Record chart : Type := {
  dates : list string;
  pr_counts_all : list Z;
  cost_all : list Q;
  persons_data : Dict.dict (list Q);
  persons_pr_data : Dict.dict (list Z);
  grand_total : Q;
  prs_created : Z;
  overall_cost_per_pr : Q;
  users : nat;
  person_summaries : list person_summary
}.

(** The loop that fills [persons_data] and [persons_pr_data]. *)
Definition person_arrays (dates : list string)
           (person_daily : Dict.dict (Dict.dict Q))
           (pr_daily_person : Dict.dict (Dict.dict Z))
           (people : option people_t)
  : Dict.dict (list Q) * Dict.dict (list Z) :=
  if truthy people
  then
    fold_left
      (fun acc item =>
         let initials := fst item in
         let cost_arr :=
           map (fun d =>
                  round2 (Dict.get_or (Dict.get_or person_daily initials [])
                                      d 0%Q))
               dates in
         let pr_arr :=
           map (fun d =>
                  Dict.get_or (Dict.get_or pr_daily_person initials []) d 0)
               dates in
         if Qltb 0 (sumQ cost_arr) || (0 <? sumZ pr_arr)
         then (Dict.set (fst acc) initials cost_arr,
               Dict.set (snd acc) initials pr_arr)
         else acc)
      (sorted_items people) ([], [])
  else ([], []).

(** One iteration of the loop over [sorted_persons]. *)
Definition summarise (people : option people_t)
           (persons_data : Dict.dict (list Q))
           (persons_pr_data : Dict.dict (list Z))
           (grand_total : Q) (initials : string) : result person_summary :=
  let cost := sumQ (Dict.get_or persons_data initials []) in
  let prs := sumZ (Dict.get_or persons_pr_data initials []) in
  let name :=
    match Dict.get (people_items people) initials with
    | Some info => if truthy people then display_name info
                   else to_string (upper (of_string initials))
    | None => to_string (upper (of_string initials))
    end in
  pct <- (if Qltb 0 grand_total
          then q <- py_div cost grand_total ;; Ok (q * 100)%Q
          else Ok 0%Q) ;;
  cost_per_pr <- py_div cost (inject_Z (Z.max 1 prs)) ;;
  Ok {| ps_initials := initials; ps_name := name; ps_cost := cost;
        ps_prs := prs; ps_pct := pct; ps_cost_per_pr := cost_per_pr |}.

(** [build_consumption_chart]; [Ok None] stands for the empty string
    returned when there are no usage buckets.  [today] is
    [datetime.now(timezone.utc).date()]. *)
Definition build_consumption_chart (today : Calendar.date)
           (prs_data : list pr_entry) (usage_buckets : list usage_bucket)
           (days : Z) (people : option people_t) : result (option chart) :=
  match usage_buckets with
  | [] => Ok None
  | _ :: _ =>
      let dates := chart_dates today days in
      let key_to_person := build_key_to_person people in
      let '(person_daily, all_daily) :=
        accumulate_usage exact key_to_person usage_buckets in
      let '(pr_daily_person, pr_daily_all) :=
        accumulate_prs people prs_data in
      let pr_counts_all := map (fun d => Dict.get_or pr_daily_all d 0) dates in
      let cost_all :=
        map (fun d => round2 (Dict.get_or all_daily d 0%Q)) dates in
      let '(persons_data, persons_pr_data) :=
        person_arrays dates person_daily pr_daily_person people in
      let sorted_persons := sort_stable String.ltb (Dict.keys persons_data) in
      let grand_total := sumQ cost_all in
      rows <- mapM (summarise people persons_data persons_pr_data
                              grand_total)
                   sorted_persons ;;
      let rows :=
        sort_stable (fun y x => Qltb (ps_cost x) (ps_cost y)) rows in
      let n_prs := Z.of_nat (List.length prs_data) in
      per_pr <- py_div grand_total (inject_Z (Z.max 1 n_prs)) ;;
      Ok (Some {| dates := dates;
                  pr_counts_all := pr_counts_all;
                  cost_all := cost_all;
                  persons_data := persons_data;
                  persons_pr_data := persons_pr_data;
                  grand_total := grand_total;
                  prs_created := n_prs;
                  overall_cost_per_pr := per_pr;
                  users := List.length sorted_persons;
                  person_summaries := rows |})
  end.

(** What a row of the breakdown holds, given the grand total. *)
Definition row_spec (gt : Q) (row : person_summary) : Prop :=
  (ps_pct row ==
     if Qltb 0 gt then ps_cost row / gt * 100 else 0)%Q
  /\ (ps_cost_per_pr row
      == ps_cost row / inject_Z (Z.max 1 (ps_prs row)))%Q.

Definition demo_people : option people_t :=
  Some [("ab", {| display_name := "AB"; key_ids := ["k1"];
                  email := None |})].

(** One day of usage: 1M input tokens on a key of "ab" and 3M on a key
    that belongs to nobody. *)
Definition demo_bucket : usage_bucket :=
  {| starting_at := Some "2026-02-03T00:00:00Z";
     results := Some [usage_of "claude-sonnet-4-x" "k1" 1000000;
                      usage_of "claude-sonnet-4-x" "k2" 3000000] |}.

Definition demo_today : Calendar.date := Calendar._ymd2ord 2026 2 4.

(** A property of the chart built from an input; holds trivially when no
    chart is built for lack of usage data. *)
Definition chart_satisfies (P : chart -> Prop) (today : Calendar.date)
           (prs_data : list pr_entry) (usage_buckets : list usage_bucket)
           (days : Z) (people : option people_t) : Prop :=
  match build_consumption_chart today prs_data usage_buckets days people with
  | Ok (Some ch) => P ch
  | Ok None => True
  | ZeroDivisionError => False
  end.

(** C1 as it is written: the listed percentages add up to 100, give or
    take one point. *)
Definition percentages_sum_to_100 (ch : chart) : Prop :=
  (Qabs (sumQ (map ps_pct (person_summaries ch)) - 100) <= 1)%Q.

(** C3 as it is written: a zero denominator makes the ratio 0. *)
Definition zero_denominator_reports_zero (ch : chart) : Prop :=
  (forall row, In row (person_summaries ch) ->
     (~ (0 < grand_total ch)%Q -> (ps_pct row == 0)%Q)
     /\ (ps_prs row = 0 -> (ps_cost_per_pr row == 0)%Q))
  /\ (prs_created ch = 0 -> (overall_cost_per_pr ch == 0)%Q).

(** The chart of the demo batch, if one is built. *)
Definition demo_chart : option chart :=
  match build_consumption_chart demo_today [] [demo_bucket] 2 demo_people with
  | Ok out => out
  | ZeroDivisionError => None
  end.

(** The PRs that count: those whose creation date parses. *)
Definition dated (prs_data : list pr_entry) : list pr_entry :=
  filter (fun pr => match created_day pr with Some _ => true | None => false end)
         prs_data.

(** The values of a dictionary of counters, read at one inner key. *)
Definition columnZ (d : string) (pd : Dict.dict (Dict.dict Z)) : list Z :=
  map (fun item => Dict.get_or (snd item) d 0) pd.

(** What the loop over the people keeps true of the two array tables. *)
Definition arrays_ok (n : nat)
           (acc : Dict.dict (list Q) * Dict.dict (list Z)) : Prop :=
  Dict.keys (fst acc) = Dict.keys (snd acc)
  /\ NoDup (Dict.keys (fst acc))
  /\ forall k,
       match Dict.get (fst acc) k, Dict.get (snd acc) k with
       | Some cost_arr, Some pr_arr =>
           List.length cost_arr = n /\ List.length pr_arr = n
           /\ ((0 < sumQ cost_arr)%Q \/ 0 < sumZ pr_arr)
       | None, None => True
       | _, _ => False
       end.

(** ** Keys and people ([map_keys_to_people]) *)

Module People.

(** What [map_keys_to_people] reads of an enriched PR. *)
Record pr_dict : Type := {
  creator_email : option string;
  creator_name : option string
}.

(** [s.add(x)] on a set, kept as a list without repetition *)
Definition set_add (s : list string) (x : string) : list string :=
  if existsb (String.eqb x) s then s else s ++ [x].

(** "Group keys by extracted user initials": [initials -> set of key ids];
    [key_map] is [{key_id: key_name}]. *)
Definition group_keys (key_map : Dict.dict string)
  : Dict.dict (list string) :=
  fold_left
    (fun user_keys item =>
       let initials := extract_user_from_keyname (snd item) in
       let user_keys :=
         if negb (Dict.mem user_keys initials)
         then Dict.set user_keys initials [] else user_keys in
       Dict.set user_keys initials
                (set_add (Dict.get_or user_keys initials []) (fst item)))
    key_map [].

(** "Build email prefix -> (email, display_name) from PR data" *)
Definition build_email_map (prs_data : list pr_dict)
  : Dict.dict (string * string) :=
  fold_left
    (fun email_map pr =>
       let email := field_or (creator_email pr) "" in
       let name := field_or (creator_name pr) "" in
       if negb (String.eqb email "")
       then Dict.set email_map (email_prefix email) (email, name)
       else email_map)
    prs_data [].

(** One value of [people], for [initials] and its keys. *)
Definition person_of (email_map : Dict.dict (string * string))
           (item : string * list string) : person_info :=
  match Dict.get email_map (fst item) with
  | Some (email, display_name) =>
      {| display_name := display_name; key_ids := snd item;
         email := Some email |}
  | None =>
      {| display_name := to_string (upper (of_string (fst item)));
         key_ids := snd item; email := None |}
  end.

Definition map_keys_to_people (key_map : Dict.dict string)
           (prs_data : list pr_dict) : people_t :=
  let user_keys := group_keys key_map in
  let email_map := build_email_map prs_data in
  fold_left
    (fun people item => Dict.set people (fst item) (person_of email_map item))
    user_keys [].

(** What the grouping loop keeps true, [seen] being the part of the key
    list gone through. *)
Definition grouped (seen : Dict.dict string)
           (user_keys : Dict.dict (list string)) : Prop :=
  NoDup (Dict.keys user_keys)
  /\ forall initials key_id,
       (exists ids, Dict.get user_keys initials = Some ids /\ In key_id ids)
       <-> (exists name, In (key_id, name) seen
                         /\ extract_user_from_keyname name = initials).

(** What the e-mail loop keeps true, [seen] being the PRs gone through. *)
Definition email_mapped (seen : list pr_dict)
           (email_map : Dict.dict (string * string)) : Prop :=
  forall prefix,
    match Dict.get email_map prefix with
    | Some (e, n) =>
        e <> "" /\ email_prefix e = prefix
        /\ exists pr, In pr seen /\ creator_email pr = Some e
                      /\ field_or (creator_name pr) "" = n
    | None =>
        forall pr e, In pr seen -> creator_email pr = Some e -> e <> "" ->
                     email_prefix e <> prefix
    end.

End People.

Definition demo_key_map : Dict.dict string :=
  [("k1", "claude_code_key_alice_7f3a"); ("k2", "bob-key");
   ("k3", "Alice-laptop")].

Definition demo_authors : list People.pr_dict :=
  [{| People.creator_email := Some "Alice@example.com";
      People.creator_name := Some "Alice Andersen" |}].

(** ** Collecting the PRs ([main] and its [fetch_project_prs]) *)

Section Collect.

(** [datetime.fromisoformat(created.replace("Z", "+00:00"))], [None] when
    it raises [ValueError] *)
Variable parse_iso : string -> option Calendar.stamp.

(** [fetch_prs_for_project(org, project, status, creator=creator)], [None]
    when it raises (a time-out of the [az] call, for one) *)
Variable fetch : string -> string -> option (list fetched_pr).

(** [datetime.now(timezone.utc) - timedelta(days=args.days)], aware *)
Variable cutoff : Calendar.datetime.

(** [dt >= cutoff] for the creation date of [pr]: [None] when the date
    does not parse ([ValueError], caught at the PR), [Some None] when it
    has no zone (the comparison raises [TypeError], which is not caught
    there). *)
Definition compared (pr : fetched_pr) : option (option bool) :=
  match parse_iso (creationDate pr) with
  | Some dt => Some (Calendar.leb_stamp cutoff dt)
  | None => None
  end.

(** The PR's creation date parses, has a zone and is not before the
    cut-off. *)
Definition recent (pr : fetched_pr) : bool :=
  match compared pr with
  | Some (Some b) => b
  | _ => false
  end.

(** The comparison with the cut-off raises [TypeError]. *)
Definition zoneless (pr : fetched_pr) : bool :=
  match compared pr with
  | Some None => true
  | _ => false
  end.

(** The loop over a batch, [prs] being the list so far.  A [TypeError]
    leaves the loop: it is caught by the handler around the status query,
    so that the rest of the batch is dropped and what was appended
    stays. *)
Fixpoint batch_loop (batch : list fetched_pr) (prs : list fetched_pr)
  : list fetched_pr :=
  match batch with
  | [] => prs
  | pr :: rest =>
      match compared pr with
      | None => batch_loop rest prs
      | Some None => prs
      | Some (Some true) => batch_loop rest (prs ++ [pr])
      | Some (Some false) => batch_loop rest prs
      end
  end.

(** [fetch_project_prs]: the three status queries of one project; a query
    that raises adds nothing. *)
Definition fetch_project_prs (project_name : string) : list fetched_pr :=
  fold_left
    (fun prs st =>
       match fetch project_name st with
       | Some batch => batch_loop batch prs
       | None => prs
       end)
    ["completed"; "active"; "abandoned"] [].

(** The part of a batch that the loop goes through: up to the first PR
    whose date has no zone. *)
Fixpoint reached (batch : list fetched_pr) : list fetched_pr :=
  match batch with
  | [] => []
  | pr :: rest => if zoneless pr then [] else pr :: reached rest
  end.

(** What a status query contributes. *)
Definition kept (project_name st : string) : list fetched_pr :=
  match fetch project_name st with
  | Some batch => filter recent (reached batch)
  | None => []
  end.

(** [all_prs] after the pool has been drained: the projects' results are
    appended in the order [done] in which the futures complete. *)
Definition gather_prs (done : list string) : list fetched_pr :=
  fold_left (fun all_prs name => all_prs ++ fetch_project_prs name) done [].

(** The PR list that [main] hands on to the enrichment. *)
Definition collect_prs (done : list string) : list fetched_pr :=
  unique_sorted_prs (gather_prs done).

End Collect.

Definition demo_parse (s : string) : option Calendar.stamp :=
  if String.eqb s "2026-02-03T09:00:00Z"
  then Some (Calendar.utc (Calendar.mk_datetime 2026 2 3 9 0)) else None.

(** The "completed" query fails; the PR is seen as active and, later, as
    abandoned. *)
Definition demo_fetch (project_name st : string) : option (list fetched_pr) :=
  if String.eqb st "active" then Some [pr7_active]
  else if String.eqb st "abandoned" then Some [pr7_abandoned]
  else None.

Definition demo_cutoff : Calendar.datetime := Calendar.mk_datetime 2026 1 5 0 0.

(** ** Enriching the PRs ([main]) *)

Section Enrich.

Context {enriched : Type}.

(** [enrich_pr(pr, org, token, fetch_files)], [None] when it raises *)
Variable enrich : fetched_pr -> option enriched.

(** [results[idx] = v] *)
Fixpoint set_nth {A} (l : list A) (idx : nat) (v : A) : list A :=
  match l, idx with
  | [], _ => []
  | _ :: rest, O => v :: rest
  | x :: rest, S i => x :: set_nth rest i v
  end.

(** The body of the loop over [as_completed(futures)] for the future of
    index [idx]: a result is stored, a failure only gives a warning. *)
Definition store (all_prs : list fetched_pr)
           (results : list (option enriched)) (idx : nat)
  : list (option enriched) :=
  match nth_error all_prs idx with
  | Some pr =>
      match enrich pr with
      | Some r => set_nth results idx (Some r)
      | None => results
      end
  | None => results
  end.

(** [prs_data]: [completed] lists the indices of the futures in the order
    in which they complete. *)
Definition enrich_all (all_prs : list fetched_pr) (completed : list nat)
  : list enriched :=
  let results :=
    fold_left (store all_prs) completed
              (repeat None (List.length all_prs)) in
  flat_map (fun r => match r with Some x => [x] | None => [] end) results.

End Enrich.

(** The enrichment of PR 7 fails when it is seen as abandoned. *)
Definition demo_enrich (pr : fetched_pr) : option Z :=
  if String.eqb (status pr) "abandoned" then None
  else Some (pullRequestId pr).

(** ** The PR timeline ([build_timeline_chart]) *)

Module Timeline.

(** What the timeline reads of an enriched PR: the day named by its
    ["created"] text when that text parses ([None] when [strptime] raises
    [ValueError]) and its ["status"]. *)
Record pr_dict : Type := {
  created_day : option Calendar.date;
  status : string
}.

(** The value of [daily] for one day:
    [{"completed": 0, "active": 0, "abandoned": 0}] at first. *)
Record day_counts : Type := {
  completed : Z;
  active : Z;
  abandoned : Z
}.

Definition no_counts : day_counts :=
  {| completed := 0; active := 0; abandoned := 0 |}.

(** The outcome of the function: a [KeyError] is not caught by its
    [except (ValueError, AttributeError)]. *)
Inductive outcome (A : Type) : Type :=
| Returns (a : A)
| KeyError.

Arguments Returns {A} a.
Arguments KeyError {A}.

(** [counts[status] += 1] on a dictionary with the three keys *)
Definition bump (counts : day_counts) (st : string) : outcome day_counts :=
  if String.eqb st "completed"
  then Returns {| completed := completed counts + 1;
                  active := active counts;
                  abandoned := abandoned counts |}
  else if String.eqb st "active"
  then Returns {| completed := completed counts;
                  active := active counts + 1;
                  abandoned := abandoned counts |}
  else if String.eqb st "abandoned"
  then Returns {| completed := completed counts;
                  active := active counts;
                  abandoned := abandoned counts + 1 |}
  else KeyError.

(** The loop over [prs_data] that fills [daily]. *)
Fixpoint bucket (prs_data : list pr_dict) (daily : Dict.dict day_counts)
  : outcome (Dict.dict day_counts) :=
  match prs_data with
  | [] => Returns daily
  | pr :: rest =>
      match created_day pr with
      | None => bucket rest daily
      | Some dt =>
          let key := Calendar.strftime_ymd dt in
          match bump (Dict.get_or daily key no_counts) (status pr) with
          | Returns counts => bucket rest (Dict.set daily key counts)
          | KeyError => KeyError
          end
      end
  end.

Record series : Type := {
  dates : list string;
  completed_data : list Z;
  active_data : list Z;
  abandoned_data : list Z
}.

(** [build_timeline_chart]; [Returns None] stands for the empty string
    returned when there is no PR.  [today] is
    [datetime.now(timezone.utc).date()]. *)
Definition build_timeline_chart (today : Calendar.date)
           (prs_data : list pr_dict) (days : Z) : outcome (option series) :=
  match prs_data with
  | [] => Returns None
  | _ :: _ =>
      match bucket prs_data [] with
      | KeyError => KeyError
      | Returns daily =>
          let dates := chart_dates today days in
          let at_day d := Dict.get_or daily d no_counts in
          Returns
            (Some {| dates := dates;
                     completed_data := map (fun d => completed (at_day d)) dates;
                     active_data := map (fun d => active (at_day d)) dates;
                     abandoned_data :=
                       map (fun d => abandoned (at_day d)) dates |})
      end
  end.

(** A status that [daily]'s entries have a counter for. *)
Definition known_status (st : string) : bool :=
  String.eqb st "completed" || String.eqb st "active"
  || String.eqb st "abandoned".

(** The dated PRs of day [d]. *)
Definition created_on (d : string) (prs_data : list pr_dict) : list pr_dict :=
  filter (fun pr =>
            match created_day pr with
            | Some dt => String.eqb (Calendar.strftime_ymd dt) d
            | None => false
            end) prs_data.

(** A dated PR whose status has no counter. *)
Definition offending (pr : pr_dict) : bool :=
  match created_day pr with
  | Some _ => negb (known_status (status pr))
  | None => false
  end.

Definition total (c : day_counts) : Z := completed c + active c + abandoned c.

(** Two PRs created on 2026-02-04 and one whose date does not parse. *)
Definition demo_prs : list pr_dict :=
  [{| created_day := Some demo_today; status := "active" |};
   {| created_day := Some demo_today; status := "completed" |};
   {| created_day := None; status := "unknown" |}].

End Timeline.

(** ** The comparison of authors ([build_user_comparison]) *)

Module Users.

(** What the comparison reads of an enriched PR; [None] is an absent key,
    [files] holds the paths of the file entries. *)
Record pr_dict : Type := {
  creator_email : option string;
  creator_name : option string;
  status : option string;
  files : option (list string);
  project_name : option string;
  repo_name : option string
}.

(** A value of [users].  [counts] holds the keys whose values are numbers:
    ["total"], ["completed"], ["active"], ["abandoned"], ["files"] and any
    further status met; the keys ["name"], ["projects"] and ["repos"] are
    the three fields. *)
Record user : Type := {
  name : string;
  counts : Dict.dict Z;
  projects : list string;
  repos : list string
}.

Definition new_user (name : string) : user :=
  {| name := name;
     counts := [("total", 0); ("completed", 0); ("active", 0);
                ("abandoned", 0); ("files", 0)];
     projects := [];
     repos := [] |}.

Inductive outcome (A : Type) : Type :=
| Returns (a : A)
| KeyError
| TypeError
| IndexError
| ZeroDivisionError.

Arguments Returns {A} a.
Arguments KeyError {A}.
Arguments TypeError {A}.
Arguments IndexError {A}.
Arguments ZeroDivisionError {A}.

(** [u[key] = u.get(key, 0) + n] for a key of [counts] *)
Definition add (u : user) (key : string) (n : Z) : user :=
  {| name := name u;
     counts := Dict.set (counts u) key (Dict.get_or (counts u) key 0 + n);
     projects := projects u;
     repos := repos u |}.

(** A status that names a field which does not hold a number. *)
Definition not_a_count (st : string) : bool :=
  String.eqb st "name" || String.eqb st "projects" || String.eqb st "repos".

Definition email_of (pr : pr_dict) : string :=
  field_or (creator_email pr) "unknown".

Definition name_of (pr : pr_dict) : string :=
  field_or (creator_name pr) (email_of pr).

(** The body of the loop over [prs_data]. *)
Definition count_pr (users : Dict.dict user) (pr : pr_dict)
  : outcome (Dict.dict user) :=
  let email := email_of pr in
  let name := name_of pr in
  let u := match Dict.get users email with
           | Some u => u
           | None => new_user name
           end in
  let u := add u "total" 1 in
  match status pr with
  | None => KeyError
  | Some st =>
      if not_a_count st then TypeError
      else
        let u := add u st 1 in
        let u := add u "files"
                     (Z.of_nat (List.length (field_or (files pr) []))) in
        Returns
          (Dict.set users email
             {| name := Users.name u;
                counts := counts u;
                projects := People.set_add (projects u)
                                           (field_or (project_name pr) "");
                repos := People.set_add (repos u)
                                        (field_or (repo_name pr) "") |})
  end.

Fixpoint count_prs (prs_data : list pr_dict) (users : Dict.dict user)
  : outcome (Dict.dict user) :=
  match prs_data with
  | [] => Returns users
  | pr :: rest =>
      match count_pr users pr with
      | Returns users' => count_prs rest users'
      | KeyError => KeyError
      | TypeError => TypeError
      | IndexError => IndexError
      | ZeroDivisionError => ZeroDivisionError
      end
  end.

Definition total (u : user) : Z := Dict.get_or (counts u) "total" 0.

(** [sorted(users.items(), key=lambda x: x[1]["total"], reverse=True)] *)
Definition sort_by_total_desc (items : list (string * user))
  : list (string * user) :=
  sort_stable (fun y x => total (snd x) <? total (snd y)) items.

Definition bar_colors : list string :=
  ["#58a6ff"; "#3fb950"; "#d29922"; "#f85149"; "#bc8cff";
   "#f778ba"; "#79c0ff"; "#56d364"; "#e3b341"; "#ff7b72"].

(** [name.split()[0] if ' ' in name else name] *)
Definition bar_label (name : string) : outcome string :=
  let s := of_string name in
  if existsb (ascii_eqb " "%char) s
  then match lstrip s with
       | [] => IndexError
       | c :: r => Returns (to_string (take_while (fun a => negb (is_space a))
                                                  (c :: r)))
       end
  else Returns name.

(** What the table row and the bar of an author show. *)
Record row : Type := {
  row_email : string;
  row_name : string;
  row_color : string;
  row_pct : Q;
  row_total : Z;
  row_completed : Z;
  row_active : Z;
  row_files : Z;
  row_projects : nat;
  row_repos : nat;
  row_label : string
}.

(** The row of the author at place [i]. *)
Definition row_of (max_total : Z) (i : nat) (item : string * user)
  : outcome row :=
  let u := snd item in
  let color := nth (i mod List.length bar_colors) bar_colors "" in
  if Qeq_bool (inject_Z max_total) 0 then ZeroDivisionError
  else
    let pct := (inject_Z (total u) / inject_Z max_total * 100)%Q in
    match bar_label (name u) with
    | Returns label =>
        Returns {| row_email := fst item;
                   row_name := name u;
                   row_color := color;
                   row_pct := pct;
                   row_total := total u;
                   row_completed := Dict.get_or (counts u) "completed" 0;
                   row_active := Dict.get_or (counts u) "active" 0;
                   row_files := Dict.get_or (counts u) "files" 0;
                   row_projects := List.length (projects u);
                   row_repos := List.length (repos u);
                   row_label := label |}
    | KeyError => KeyError
    | TypeError => TypeError
    | IndexError => IndexError
    | ZeroDivisionError => ZeroDivisionError
    end.

Fixpoint rows_from (max_total : Z) (i : nat) (items : list (string * user))
  : outcome (list row) :=
  match items with
  | [] => Returns []
  | item :: rest =>
      match row_of max_total i item with
      | Returns r =>
          match rows_from max_total (S i) rest with
          | Returns rs => Returns (r :: rs)
          | KeyError => KeyError
          | TypeError => TypeError
          | IndexError => IndexError
          | ZeroDivisionError => ZeroDivisionError
          end
      | KeyError => KeyError
      | TypeError => TypeError
      | IndexError => IndexError
      | ZeroDivisionError => ZeroDivisionError
      end
  end.

(** [max(u["total"] for _, u in sorted_users) if sorted_users else 1] *)
Definition max_total_of (sorted_users : list (string * user)) : Z :=
  match sorted_users with
  | [] => 1
  | item :: rest =>
      fold_left (fun m it => Z.max m (total (snd it))) rest
                (total (snd item))
  end.

(** [build_user_comparison]: the rows that the table and the bar chart
    are drawn from; [Returns None] stands for the empty string. *)
Definition build_user_comparison (prs_data : list pr_dict)
  : outcome (option (list row)) :=
  match count_prs prs_data [] with
  | Returns users =>
      if (List.length users <? 2)%nat then Returns None
      else
        let sorted_users := sort_by_total_desc users in
        match rows_from (max_total_of sorted_users) O sorted_users with
        | Returns rows => Returns (Some rows)
        | KeyError => KeyError
        | TypeError => TypeError
        | IndexError => IndexError
        | ZeroDivisionError => ZeroDivisionError
        end
  | KeyError => KeyError
  | TypeError => TypeError
  | IndexError => IndexError
  | ZeroDivisionError => ZeroDivisionError
  end.

(** What a PR adds to the count [key] of its author. *)
Definition adds (key : string) (pr : pr_dict) : Z :=
  (if String.eqb key "total" then 1 else 0)
  + (if String.eqb key (field_or (status pr) "") then 1 else 0)
  + (if String.eqb key "files"
     then Z.of_nat (List.length (field_or (files pr) [])) else 0).

(** The PRs of an author. *)
Definition prs_of (email : string) (prs_data : list pr_dict)
  : list pr_dict :=
  filter (fun pr => String.eqb (email_of pr) email) prs_data.

Definition tally (email key : string) (prs_data : list pr_dict) : Z :=
  sumZ (map (adds key) (prs_of email prs_data)).

(** A PR whose status the loop can count. *)
Definition countable (pr : pr_dict) : bool :=
  match status pr with
  | Some st => negb (not_a_count st)
  | None => false
  end.

(** The name of an author shows as a bar label. *)
Definition label_ok (name : string) : bool :=
  match bar_label name with Returns _ => true | _ => false end.

(** What the counting loop keeps true, [seen] being the PRs counted. *)
Definition tallied (seen : list pr_dict) (users : Dict.dict user) : Prop :=
  NoDup (Dict.keys users)
  /\ (forall email, In email (Dict.keys users)
                    <-> In email (map email_of seen))
  /\ forall email u, Dict.get users email = Some u ->
       (forall key, Dict.get_or (counts u) key 0 = tally email key seen)
       /\ (exists pr rest, prs_of email seen = pr :: rest
                           /\ name u = name_of pr)
       /\ NoDup (projects u) /\ NoDup (repos u)
       /\ (forall p, In p (projects u)
                     <-> In p (map (fun pr => field_or (project_name pr) "")
                                   (prs_of email seen)))
       /\ (forall r, In r (repos u)
                     <-> In r (map (fun pr => field_or (repo_name pr) "")
                                   (prs_of email seen))).

Definition has_status (st : string) (pr : pr_dict) : bool :=
  match status pr with
  | Some s => String.eqb s st
  | None => false
  end.

(** The number of PRs with a given status. *)
Definition count_status (st : string) (prs_data : list pr_dict) : Z :=
  Z.of_nat (List.length (filter (has_status st) prs_data)).

(** [len(pr.get("files", []))] *)
Definition file_count (pr : pr_dict) : Z :=
  Z.of_nat (List.length (field_or (files pr) [])).

(** The number of distinct values of a field. *)
Definition distinct (f : pr_dict -> option string)
           (prs_data : list pr_dict) : nat :=
  List.length (nodup string_dec (map (fun pr => field_or (f pr) "") prs_data)).

(** What the row of an author shows of the author's entry in [users]. *)
Definition shows (max_total : Z) (item : string * user) (r : row) : Prop :=
  let u := snd item in
  row_email r = fst item
  /\ row_name r = name u
  /\ row_total r = total u
  /\ row_completed r = Dict.get_or (counts u) "completed" 0
  /\ row_active r = Dict.get_or (counts u) "active" 0
  /\ row_files r = Dict.get_or (counts u) "files" 0
  /\ row_projects r = List.length (projects u)
  /\ row_repos r = List.length (repos u)
  /\ row_pct r = (inject_Z (total u) / inject_Z max_total * 100)%Q
  /\ bar_label (name u) = Returns (row_label r).

Definition ann : pr_dict :=
  {| creator_email := Some "ann@example.com";
     creator_name := Some "Ann Lee";
     status := Some "completed";
     files := Some ["a.py"; "b.py"];
     project_name := Some "Core";
     repo_name := Some "api" |}.

Definition bob : pr_dict :=
  {| creator_email := Some "bob@example.com";
     creator_name := Some "Bob";
     status := Some "active";
     files := None;
     project_name := Some "Core";
     repo_name := Some "web" |}.

Definition demo_prs : list pr_dict := [bob; ann; ann].

Definition demo_rows : list row :=
  Eval vm_compute in
    match build_user_comparison demo_prs with
    | Returns (Some rows) => rows
    | _ => []
    end.

End Users.

End PrReport.

(** * [time-report.py] *)

Module TimeReport.

Import Calendar.

(** The exceptions that are told apart; [OtherError] names any other
    class. *)
Inductive exn : Type :=
| ValueError
| TypeError
| OverflowError
| TimeoutExpired
| OtherError (name : string).

(** A call that returns or raises. *)
Inductive run (A : Type) : Type :=
| Done (a : A)
| Raised (e : exn).

Arguments Done {A} a.
Arguments Raised {A} e.

(** A loop [for x in l: a = f(a, x)] that an exception of the body
    leaves. *)
Fixpoint fold_run {A B : Type} (f : A -> B -> run A) (l : list B) (a : A)
  : run A :=
  match l with
  | [] => Done a
  | x :: rest =>
      match f a x with
      | Done a' => fold_run f rest a'
      | Raised e => Raised e
      end
  end.

(** What [get_devops_activity] reads of a PR, the fields having their
    usual JSON types.  The two timestamps are the outcome of [_parse_iso]:
    [None] for an absent, empty or unparsable text. *)
Record pr_record : Type := {
  repository_name : option string;
  pullRequestId : Z;
  title : option string;
  status : option string;
  targetRefName : option string;
  creationDate : option stamp;
  closedDate : option stamp
}.

(** The per-day items, one constructor per ["type"]. *)
Inductive event : Type :=
| pr_created (project repo : string) (pr_id : Z)
             (title status target : string)
| pr_completed (project repo : string) (pr_id : Z) (title target : string)
| claude_session (project : string) (sessions : Z)
| calendar (subject start finish organizer : string)
| git_commit (repo : string) (commits : Z).

Definition is_pr_created (e : event) : bool :=
  match e with pr_created _ _ _ _ _ _ => true | _ => false end.

Definition is_pr_completed (e : event) : bool :=
  match e with pr_completed _ _ _ _ _ => true | _ => false end.

Definition is_calendar (e : event) : bool :=
  match e with calendar _ _ _ _ => true | _ => false end.

Definition is_claude_session (e : event) : bool :=
  match e with claude_session _ _ => true | _ => false end.

Definition is_git_commit (e : event) : bool :=
  match e with git_commit _ _ => true | _ => false end.

(** [{date_str: [items]}] *)
Definition daily_t : Type := Dict.dict (list event).

(** [daily[k].append(e)] on a [defaultdict(list)] *)
Definition append_item (daily : daily_t) (k : string) (e : event) : daily_t :=
  Dict.set daily k (Dict.get_or daily k [] ++ [e]).

(** [s.replace(old, "")]: [skip] counts the characters of a match that
    are still to be dropped. *)
Fixpoint remove_all (old : text) (skip : nat) (s : text) : text :=
  match s with
  | [] => []
  | c :: rest =>
      match skip with
      | S n => remove_all old n rest
      | O =>
          match old with
          | [] => c :: remove_all old O rest
          | _ :: _ =>
              if startswith s old
              then remove_all old (List.length old - 1) rest
              else c :: remove_all old O rest
          end
      end
  end.

(** [(ref or "").replace("refs/heads/", "")] *)
Definition branch_of (ref : option string) : string :=
  to_string (remove_all (of_string "refs/heads/") O
                        (of_string (field_or ref ""))).

(** [dt.strftime("%Y-%m-%d")]: the day as the timestamp has it written,
    in its own zone *)
Definition day_key (dt : stamp) : string :=
  strftime_ymd (dt_date (local_time dt)).

(** [start <= dt <= end], [start] and [end] being aware: comparing them
    with a naive [dt] raises [TypeError]. *)
Definition in_range (start finish : datetime) (dt : stamp) : run bool :=
  match leb_stamp start dt with
  | None => Raised TypeError
  | Some false => Done false
  | Some true =>
      match stamp_leb dt finish with
      | None => Raised TypeError
      | Some b => Done b
      end
  end.

(** [created_dt.strftime("%Y-%m-%d") if created_dt else ""] *)
Definition created_key (pr : pr_record) : string :=
  match creationDate pr with
  | Some created_dt => day_key created_dt
  | None => ""
  end.

(** The body of the loop over the PRs of one project and status. *)
Definition pr_step (project : string) (start finish : datetime)
           (daily : daily_t) (pr : pr_record) : run daily_t :=
  let repo_name := field_or (repository_name pr) "?" in
  let pr_id := pullRequestId pr in
  let title := field_or (title pr) "Untitled" in
  let pr_status := field_or (status pr) "?" in
  let target := branch_of (targetRefName pr) in
  let checked_created :=
    match creationDate pr with
    | Some created_dt =>
        match in_range start finish created_dt with
        | Done true =>
            Done (append_item daily (day_key created_dt)
                    (pr_created project repo_name pr_id title pr_status
                                target))
        | Done false => Done daily
        | Raised e => Raised e
        end
    | None => Done daily
    end in
  match checked_created with
  | Raised e => Raised e
  | Done daily =>
      match closedDate pr with
      | Some closed_dt =>
          match in_range start finish closed_dt with
          | Done true =>
              let closed_key := day_key closed_dt in
              if negb (String.eqb closed_key (created_key pr))
              then Done (append_item daily closed_key
                           (pr_completed project repo_name pr_id title
                                         target))
              else Done daily
          | Done false => Done daily
          | Raised e => Raised e
          end
      | None => Done daily
      end
  end.

(** An aware timestamp that lies in the range. *)
Definition within (start finish : datetime) (dt : stamp) : bool :=
  match dt with
  | Aware local utcoffset =>
      (instant start <=? utc_instant local utcoffset)
      && (utc_instant local utcoffset <=? instant finish)
  | Naive _ => false
  end.

Definition is_naive (dt : option stamp) : bool :=
  match dt with
  | Some (Naive _) => true
  | _ => false
  end.

(** One of the two timestamps of the PR has no zone. *)
Definition zoneless (pr : pr_record) : bool :=
  is_naive (creationDate pr) || is_naive (closedDate pr).

(** The condition of C8: the completion timestamp is in the range and its
    day key differs from that of the creation timestamp. *)
Definition completes (start finish : datetime) (pr : pr_record) : bool :=
  match closedDate pr with
  | Some closed_dt =>
      within start finish closed_dt
      && negb (String.eqb (day_key closed_dt) (created_key pr))
  | None => false
  end.

(** How many items of all the days satisfy [f]. *)
Definition count_items (f : event -> bool) (daily : daily_t) : nat :=
  List.length (filter f (List.concat (Dict.values daily))).

Definition statuses : list string := ["completed"; "active"; "abandoned"].

(** [get_devops_activity]; [fetch project status] stands for
    [fetch_devops_prs(org, project, status, creator=creator)], which
    returns the empty list after a [RuntimeError] or a [JSONDecodeError]
    and lets any other exception through, the [TimeoutExpired] of the [az]
    call for one. *)
Definition get_devops_activity
           (fetch : string -> string -> run (list pr_record))
           (projects : list string) (start finish : datetime)
  : run daily_t :=
  fold_run
    (fun daily project =>
       fold_run
         (fun daily st =>
            match fetch project st with
            | Done prs => fold_run (pr_step project start finish) prs daily
            | Raised e => Raised e
            end)
         statuses daily)
    projects [].

(** [merge_daily] *)
Definition merge_daily (sources : list daily_t) : daily_t :=
  fold_left
    (fun merged source =>
       fold_left
         (fun merged item =>
            Dict.set merged (fst item)
                     (Dict.get_or merged (fst item) [] ++ snd item))
         source merged)
    sources [].

Definition WEEKDAYS : list string :=
  ["Mon"; "Tue"; "Wed"; "Thu"; "Fri"; "Sat"; "Sun"].

(** The lines of the text report, before they are laid out. *)
Inductive line : Type :=
| EmptyDay (date_str day_name : string)
| DayHeader (date_str day_name : string)
| CalLine (time_str subject : string)
| PrLine (pr_id : Z) (title target_tag status_tag : string)
| MergedLine (pr_id : Z) (title : string)
| CodeLine (project : string) (sessions : Z)
| GitLine (repo : string) (commits : Z).

(** A byte that continues a character of UTF-8 text. *)
Definition is_continuation (c : ascii) : bool :=
  ((128 <=? code c) && (code c <? 192))%N.

(** The first [n] characters of UTF-8 text. *)
Fixpoint firstn_chars (n : nat) (s : text) : text :=
  match s with
  | [] => []
  | c :: rest =>
      if is_continuation c then c :: firstn_chars n rest
      else
        match n with
        | O => []
        | S n' => c :: firstn_chars n' rest
        end
  end.

(** [s[:n]] *)
Definition head_text (n : nat) (s : string) : string :=
  to_string (firstn_chars n (of_string s)).

Definition cal_lines (items : list event) : list line :=
  flat_map
    (fun e =>
       match e with
       | calendar subject start finish _ =>
           [CalLine (if String.eqb finish "" then start
                     else String.append start (String.append "-" finish))
                    subject]
       | _ => []
       end) items.

Definition created_lines (items : list event) : list line :=
  flat_map
    (fun e =>
       match e with
       | pr_created _ _ pr_id title st target =>
           [PrLine pr_id (head_text 60 title)
                   (if negb (String.eqb target "")
                       && negb (String.eqb target "main")
                    then String.append " -> " target else "")
                   (if negb (String.eqb st "completed")
                    then String.append "[" (String.append st "]") else "")]
       | _ => []
       end) items.

Definition merged_lines (items : list event) : list line :=
  flat_map
    (fun e =>
       match e with
       | pr_completed _ _ pr_id title _ => [MergedLine pr_id (head_text 55 title)]
       | _ => []
       end) items.

Definition count_of (e : event) : Z :=
  match e with
  | claude_session _ n => n
  | git_commit _ n => n
  | _ => 0
  end.

(** [sorted(l, key=count, reverse=True)] *)
Definition sorted_by_count_desc (l : list event) : list event :=
  PrReport.sort_stable (fun y x => count_of x <? count_of y) l.

Definition code_lines (items : list event) : list line :=
  flat_map
    (fun e =>
       match e with
       | claude_session project n => [CodeLine project n]
       | _ => []
       end)
    (sorted_by_count_desc (filter is_claude_session items)).

Definition claude_projects (items : list event) : list string :=
  flat_map
    (fun e => match e with claude_session project _ => [project] | _ => [] end)
    items.

Definition git_lines (items : list event) : list line :=
  flat_map
    (fun e =>
       match e with
       | git_commit repo n =>
           if existsb (String.eqb repo) (claude_projects items)
           then [] else [GitLine repo n]
       | _ => []
       end)
    (sorted_by_count_desc (filter is_git_commit items)).

(** The body of the day loop of [format_text]. *)
Definition format_day (daily : daily_t) (d : date) : list line :=
  let date_str := strftime_ymd d in
  let day_name := nth (Z.to_nat (weekday d)) WEEKDAYS "" in
  let items := Dict.get_or daily date_str [] in
  match items with
  | [] => [EmptyDay date_str day_name]
  | _ :: _ =>
      DayHeader date_str day_name
      :: cal_lines items ++ created_lines items ++ merged_lines items
         ++ code_lines items ++ git_lines items
  end.


(** The condition under which a PR gives a [pr_created] item. *)
Definition creates (start finish : datetime) (pr : pr_record) : bool :=
  match creationDate pr with
  | Some created_dt => within start finish created_dt
  | None => false
  end.

Definition b2n (b : bool) : nat := if b then 1%nat else 0%nat.

(** The records of a status query, none when it raises. *)
Definition returned (fetch : string -> string -> run (list pr_record))
           (project st : string) : list pr_record :=
  match fetch project st with
  | Done prs => prs
  | Raised _ => []
  end.

(** All the PR records that the queries of [get_devops_activity] return,
    in the order of the loops. *)
Definition fetched (fetch : string -> string -> run (list pr_record))
           (projects : list string) : list pr_record :=
  flat_map (fun project => flat_map (returned fetch project) statuses)
           projects.

(** The queries of [get_devops_activity], in the order of the loops. *)
Definition queries (projects : list string) : list (string * string) :=
  flat_map (fun project => map (pair project) statuses) projects.

(** The items of all the sources that belong to day [k], in the order of
    the sources. *)
Definition items_of_day (sources : list daily_t) (k : string) : list event :=
  flat_map snd (filter (fun item => String.eqb (fst item) k)
                       (List.concat sources)).

Definition demo_day : date := _ymd2ord 2026 2 3.

(** A day with sessions in project "api" and commits in two
    repositories. *)
Definition demo_daily : daily_t :=
  [("2026-02-03",
    [claude_session "api" 2; git_commit "api" 3; git_commit "web" 1])].

Section Summary.

(** The date of [datetime.strptime(d_str, "%Y-%m-%d")], [None] when it
    raises [ValueError]. *)
Variable strptime : string -> option date.

(** "Working days with activity" in the summary of [format_text]: the
    keys with items whose date is a Monday to Friday; [None] when
    [strptime] raises. *)
Definition working_days (daily : daily_t) : option Z :=
  fold_left
    (fun acc item =>
       match acc with
       | None => None
       | Some n =>
           match snd item with
           | [] => Some n
           | _ :: _ =>
               match strptime (fst item) with
               | Some d => Some (if weekday d <? 5 then n + 1 else n)
               | None => None
               end
           end
       end)
    daily (Some 0).

End Summary.

(** A parser that knows the day of the demonstration only. *)
Definition demo_strptime (s : string) : option date :=
  if String.eqb s "2026-02-03" then Some demo_day else None.

(** ** Calendar events ([get_calendar_activity]) *)

Module Graph.

(** What is read of an entry of the calendar view; [None] is an absent
    field.  [start_dateTime] is [event["start"]["dateTime"]],
    [organizer_name] is [event["organizer"]["emailAddress"]["name"]]. *)
Record cal_event : Type := {
  isCancelled : option bool;
  subject : option string;
  showAs : option string;
  start_dateTime : option string;
  end_dateTime : option string;
  isAllDay : option bool;
  organizer_name : option string
}.

(** [s[:n]] *)
Definition upto (n : nat) (s : string) : string :=
  to_string (firstn n (of_string s)).

(** [s[n:]] *)
Definition from (n : nat) (s : string) : string :=
  to_string (skipn n (of_string s)).

(** An event that is neither cancelled nor shown as free. *)
Definition kept (ev : cal_event) : bool :=
  negb (field_or (isCancelled ev) false)
  && negb (String.eqb (field_or (showAs ev) "busy") "free").

Definition event_start (ev : cal_event) : string :=
  upto 16 (field_or (start_dateTime ev) "").

Definition event_end (ev : cal_event) : string :=
  upto 16 (field_or (end_dateTime ev) "").

(** "Determine the date" *)
Definition date_key (ev : cal_event) : string := upto 10 (event_start ev).

(** The item appended for an event. *)
Definition calendar_item (ev : cal_event) : event :=
  let is_all_day := field_or (isAllDay ev) false in
  calendar (field_or (subject ev) "(no subject)")
           (if negb is_all_day then from 11 (event_start ev) else "all-day")
           (if negb is_all_day then from 11 (event_end ev) else "")
           (field_or (organizer_name ev) "").

(** [get_calendar_activity] from the reply on; [response] is the parsed
    reply of the calendar query, [None] when the [az] call raises
    [RuntimeError] or the parsing [JSONDecodeError], the two exceptions
    that the function catches. *)
Definition get_calendar_activity (response : option (list cal_event))
  : daily_t :=
  match response with
  | None => []
  | Some events =>
      fold_left
        (fun daily ev =>
           if field_or (isCancelled ev) false then daily
           else if String.eqb (field_or (showAs ev) "busy") "free" then daily
           else append_item daily (date_key ev) (calendar_item ev))
        events []
  end.

(** What the [try] of [get_calendar_activity] comes to: the events of the
    reply; one of the two exceptions that are caught; or any other
    exception, the [TimeoutExpired] of the [az] call for one. *)
Inductive query : Type :=
| Answered (events : list cal_event)
| Refused
| Failed (e : exn).

(** [get_calendar_activity(start, end)] as [main] calls it *)
Definition calendar_call (q : query) : run daily_t :=
  match q with
  | Answered events => Done (get_calendar_activity (Some events))
  | Refused => Done (get_calendar_activity None)
  | Failed e => Raised e
  end.

Definition standup : cal_event :=
  {| isCancelled := None;
     subject := Some "Standup";
     showAs := Some "busy";
     start_dateTime := Some "2026-02-03T09:00:00.0000000";
     end_dateTime := Some "2026-02-03T09:15:00.0000000";
     isAllDay := Some false;
     organizer_name := Some "Ann Lee" |}.

Definition lunch : cal_event :=
  {| isCancelled := None;
     subject := Some "Lunch";
     showAs := Some "free";
     start_dateTime := Some "2026-02-03T12:00:00.0000000";
     end_dateTime := Some "2026-02-03T13:00:00.0000000";
     isAllDay := Some false;
     organizer_name := None |}.

(** An event without a start time. *)
Definition undated : cal_event :=
  {| isCancelled := None;
     subject := Some "Review";
     showAs := None;
     start_dateTime := None;
     end_dateTime := None;
     isAllDay := None;
     organizer_name := None |}.

End Graph.

(** ** Session history ([get_claude_activity]) *)

Module History.

(** A JSON object of the history file, its fields having their usual
    types: [timestamp] is a whole number of milliseconds, [None] when the
    field is absent or not a number. *)
Record history_entry : Type := {
  timestamp : option Z;
  project : option string;
  sessionId : option string
}.

(** A line of the file: [Malformed] when [json.loads] raises
    [JSONDecodeError], [Scalar] for JSON text that is not an object. *)
Inductive history_line : Type :=
| Malformed
| Scalar
| Entry (e : history_entry).

(** [sessions_by_day]: [date -> project -> set of session ids] *)
Definition sessions_t : Type := Dict.dict (Dict.dict (list string)).

(** [s.split("/")] *)
Fixpoint split_slash (s : text) (cur : text) : list text :=
  match s with
  | [] => [cur]
  | c :: rest =>
      if ascii_eqb c "/"%char then cur :: split_slash rest []
      else split_slash rest (cur ++ [c])
  end.

(** The components of a POSIX path, without the root: empty components
    and ["."] are dropped. *)
Definition path_parts (p : string) : list string :=
  filter (fun c => negb (String.eqb c "" || String.eqb c "."))
         (map to_string (split_slash (of_string p) [])).

Definition starts_with (s prefix : string) : bool :=
  startswith (of_string s) (of_string prefix).

(** "Extract project short name from path": [Path(project).name], or the
    name of the parent for a worktree session directory. *)
Definition project_name_of (project : string) : string :=
  let parts := path_parts project in
  let project_name := last parts "" in
  if starts_with project_name "session-"
     || starts_with project_name "pl-"
     || starts_with project_name "HIVE-"
  then last (removelast parts) ""
  else project_name.

(** The UTC day of a timestamp in milliseconds, as
    [datetime.fromtimestamp(ts / 1000, tz=timezone.utc)] has it. *)
Definition date_key (ts : Z) : string :=
  strftime_ymd (_ymd2ord 1970 1 1 + ts / 86400000).

(** [sessions_by_day[date_key][project_name].add(session_id)] *)
Definition add_session (by_day : sessions_t) (date_key project_name
                        session_id : string) : sessions_t :=
  let projects := Dict.get_or by_day date_key [] in
  Dict.set by_day date_key
    (Dict.set projects project_name
       (PrReport.People.set_add (Dict.get_or projects project_name [])
                                session_id)).

Section Scan.

(** [int(start.timestamp() * 1000)] and [int(end.timestamp() * 1000)] *)
Variables start_ms end_ms : Z.

(** The body of the loop, for a line that is a JSON object. *)
Definition scan_entry (by_day : sessions_t) (entry : history_entry)
  : sessions_t :=
  match timestamp entry with
  | None => by_day
  | Some ts =>
      if (ts <? start_ms) || (ts >? end_ms) then by_day
      else
        let project := field_or (project entry) "" in
        let session_id := field_or (sessionId entry) "" in
        if String.eqb project "" then by_day
        else add_session by_day (date_key ts) (project_name_of project)
                         session_id
  end.

(** The loop over the lines; [None] when [entry.get] raises
    [AttributeError]. *)
Fixpoint scan (lines : list history_line) (by_day : sessions_t)
  : option sessions_t :=
  match lines with
  | [] => Some by_day
  | Malformed :: rest => scan rest by_day
  | Scalar :: _ => None
  | Entry entry :: rest => scan rest (scan_entry by_day entry)
  end.

End Scan.

Definition session_item (item : string * list string) : event :=
  claude_session (fst item) (Z.of_nat (List.length (snd item))).

(** "Summarize per day" *)
Definition summarise (by_day : sessions_t) : daily_t :=
  fold_left
    (fun daily day =>
       fold_left
         (fun daily item => append_item daily (fst day) (session_item item))
         (snd day) daily)
    by_day [].

Inductive scan_result : Type :=
| Returns (daily : daily_t)
| AttributeError.

(** [get_claude_activity]; [history] is the list of the lines of the
    history file, [None] when there is no such file. *)
Definition get_claude_activity (start_ms end_ms : Z)
           (history : option (list history_line)) : scan_result :=
  match history with
  | None => Returns []
  | Some lines =>
      match scan start_ms end_ms lines [] with
      | Some by_day => Returns (summarise by_day)
      | None => AttributeError
      end
  end.

(** The day, project name and session id that a line contributes. *)
Definition counted (start_ms end_ms : Z) (l : history_line)
  : option (string * string * string) :=
  match l with
  | Entry entry =>
      match timestamp entry with
      | Some ts =>
          if (start_ms <=? ts) && (ts <=? end_ms)
             && negb (String.eqb (field_or (project entry) "") "")
          then Some (date_key ts,
                     project_name_of (field_or (project entry) ""),
                     field_or (sessionId entry) "")
          else None
      | None => None
      end
  | _ => None
  end.

Definition contributions (start_ms end_ms : Z) (lines : list history_line)
  : list (string * string * string) :=
  flat_map (fun l => match counted start_ms end_ms l with
                     | Some c => [c]
                     | None => []
                     end) lines.

(** The project names seen on a day. *)
Definition projects_on (day : string)
           (cs : list (string * string * string)) : list string :=
  map (fun c => snd (fst c))
      (filter (fun c => String.eqb (fst (fst c)) day) cs).

(** The session ids seen on a day for a project. *)
Definition ids_of (day project_name : string)
           (cs : list (string * string * string)) : list string :=
  map snd
      (filter (fun c => String.eqb (fst (fst c)) day
                        && String.eqb (snd (fst c)) project_name) cs).

(** The number of distinct session ids. *)
Definition distinct_ids (day project_name : string)
           (cs : list (string * string * string)) : Z :=
  Z.of_nat (List.length (nodup string_dec (ids_of day project_name cs))).

Definition is_scalar (l : history_line) : bool :=
  match l with Scalar => true | _ => false end.

(** What the scan keeps true of [sessions_by_day], [cs] being the
    contributions of the lines gone through. *)
Definition tracks (cs : list (string * string * string))
           (by_day : sessions_t) : Prop :=
  NoDup (Dict.keys by_day)
  /\ (forall day, In day (Dict.keys by_day)
                  <-> In day (map (fun c => fst (fst c)) cs))
  /\ (forall day, NoDup (Dict.keys (Dict.get_or by_day day [])))
  /\ (forall day p, In p (Dict.keys (Dict.get_or by_day day []))
                    <-> In p (projects_on day cs))
  /\ (forall day p, NoDup (Dict.get_or (Dict.get_or by_day day []) p []))
  /\ (forall day p x, In x (Dict.get_or (Dict.get_or by_day day []) p [])
                      <-> In x (ids_of day p cs)).

End History.

(** ** Commits ([get_git_activity]) *)

Module GitLog.

(** [commits_by_day]: [date -> repo name -> number of commits] *)
Definition commits_t : Type := Dict.dict (Dict.dict Z).

(** [line.partition("|")[0]] *)
Definition date_part (line : text) : text :=
  take_while (fun c => negb (ascii_eqb c "|"%char)) line.

(** [date_part[:10]] *)
Definition date_key (line : string) : string :=
  to_string (firstn 10 (date_part (of_string line))).

(** ["|" in line] *)
Definition has_bar (line : string) : bool :=
  existsb (fun c => ascii_eqb c "|"%char) (of_string line).

(** [commits_by_day[date_key][repo_name] += 1] *)
Definition add_commit (by_day : commits_t) (date_key repo_name : string)
  : commits_t :=
  let repos := Dict.get_or by_day date_key [] in
  Dict.set by_day date_key
    (Dict.set repos repo_name (Dict.get_or repos repo_name 0 + 1)).

(** The loop over the lines of one repository's log. *)
Definition scan_log (repo_name : string) (lines : list string)
           (by_day : commits_t) : commits_t :=
  fold_left
    (fun by_day line =>
       if has_bar line then add_commit by_day (date_key line) repo_name
       else by_day)
    lines by_day.

(** The loop over [repo_paths]: a repository is given by its directory
    name and the lines of [git log]'s output, [None] when the command
    fails, times out or cannot be run. *)
Definition scan_repos (repo_paths : list (string * option (list string)))
  : commits_t :=
  fold_left
    (fun by_day repo =>
       match snd repo with
       | Some lines => scan_log (fst repo) lines by_day
       | None => by_day
       end)
    repo_paths [].

Definition commit_item (item : string * Z) : event :=
  git_commit (fst item) (snd item).

(** The final loop over [commits_by_day] *)
Definition summarise (by_day : commits_t) : daily_t :=
  fold_left
    (fun daily day =>
       fold_left
         (fun daily item => append_item daily (fst day) (commit_item item))
         (snd day) daily)
    by_day [].

(** [get_git_activity], given the repositories found *)
Definition get_git_activity
           (repo_paths : list (string * option (list string))) : daily_t :=
  summarise (scan_repos repo_paths).

(** The commits read: a day and a repository name for every log line
    with a ["|"], in the order of the loops. *)
Definition commits_read (repo_paths : list (string * option (list string)))
  : list (string * string) :=
  flat_map
    (fun repo =>
       match snd repo with
       | Some lines =>
           map (fun line => (date_key line, fst repo)) (filter has_bar lines)
       | None => []
       end)
    repo_paths.

(** The repository names with a commit on a day. *)
Definition repos_on (day : string) (cs : list (string * string))
  : list string :=
  map snd (filter (fun c => String.eqb (fst c) day) cs).

(** The number of commits of a day and a repository name. *)
Definition commits_of (day repo_name : string) (cs : list (string * string))
  : Z :=
  Z.of_nat
    (List.length
       (filter (fun c => String.eqb (fst c) day
                         && String.eqb (snd c) repo_name) cs)).

(** What the scan keeps true of [commits_by_day], [cs] being the commits
    read so far. *)
Definition tracks (cs : list (string * string)) (by_day : commits_t)
  : Prop :=
  NoDup (Dict.keys by_day)
  /\ (forall day, NoDup (Dict.keys (Dict.get_or by_day day [])))
  /\ (forall day r, In r (Dict.keys (Dict.get_or by_day day []))
                    <-> In r (repos_on day cs))
  /\ (forall day r, Dict.get_or (Dict.get_or by_day day []) r 0
                    = commits_of day r cs).

End GitLog.
(** ** The report and [main] *)

(** The loop [while d <= end_d: ...; d += timedelta(days=1)] of
    [format_text], one block of lines per iteration.  The increment
    after the block of 9999-12-31 raises [OverflowError]. *)
Fixpoint text_loop (fuel : nat) (daily : daily_t) (d end_d : date)
  : run (list (date * list line)) :=
  match fuel with
  | O => Done []
  | S fuel' =>
      if d <=? end_d
      then
        let block := (d, format_day daily d) in
        match add_days_checked d 1 with
        | Some d' =>
            match text_loop fuel' daily d' end_d with
            | Done blocks => Done (block :: blocks)
            | Raised e => Raised e
            end
        | None => Raised OverflowError
        end
      else Done []
  end.

(** The day loop of [format_text(daily, start, end)], lines 346 to 394.
    The loop ends on its condition: there is more fuel than days from
    [start] to [end]. *)
Definition day_blocks (daily : daily_t) (start finish : datetime)
  : run (list (date * list line)) :=
  let d := dt_date start in
  let end_d := dt_date finish in
  text_loop (S (Z.to_nat (end_d - d + 1))) daily d end_d.

(** What [format_text] prints: the blocks of the days and, of the
    summary, the two counts. *)
Record text_report : Type := {
  blocks : list (date * list line);
  total_prs_created : Z;
  working_days_with_activity : Z
}.

(** The day axis of a text report. *)
Definition day_axis (r : text_report) : list date := map fst (blocks r).

Section Main.

(** The date of [datetime.strptime(s, "%Y-%m-%d")], [None] when it
    raises [ValueError]. *)
Variable strptime : string -> option date.

(** [format_text]: the day loop, then the summary, whose count of working
    days parses every key that has items. *)
Definition format_text (daily : daily_t) (start finish : datetime)
  : run text_report :=
  match day_blocks daily start finish with
  | Raised e => Raised e
  | Done blocks =>
      match working_days strptime daily with
      | Some n =>
          Done {| blocks := blocks;
                  total_prs_created :=
                    Z.of_nat (count_items is_pr_created daily);
                  working_days_with_activity := n |}
      | None => Raised ValueError
      end
  end.

(** The options of the command line; a date option holds the text that
    was given. *)
Record args_t : Type := {
  from_date : option string;
  to_date : option string;
  date_opt : option string;
  days : Z;
  project : option string;
  all_projects : bool;
  with_calendar : bool;
  no_devops : bool;
  no_claude : bool;
  no_git : bool;
  json : bool
}.

(** [if args.date:] and the like: an option that is absent and one that
    is given empty are both skipped. *)
Definition given (o : option string) : option string :=
  match o with
  | Some (String c s) => Some (String c s)
  | _ => None
  end.

(** [datetime.strptime(s, "%Y-%m-%d").replace(tzinfo=timezone.utc)] *)
Definition parse_day (s : string) : run datetime :=
  match strptime s with
  | Some d => Done (midnight d)
  | None => Raised ValueError
  end.

(** "Determine date range" in [main] *)
Definition date_range (args : args_t) (now : datetime)
  : run (datetime * datetime) :=
  match given (date_opt args) with
  | Some s =>
      match parse_day s with
      | Done start => Done (start, replace_end_of_day start)
      | Raised e => Raised e
      end
  | None =>
      match given (from_date args) with
      | Some s =>
          match parse_day s with
          | Done start =>
              match given (to_date args) with
              | Some t =>
                  match parse_day t with
                  | Done e => Done (start, replace_end_of_day e)
                  | Raised e => Raised e
                  end
              | None => Done (start, now)
              end
          | Raised e => Raised e
          end
      | None =>
          match sub_days now (days args) with
          | Some start => Done (start, now)
          | None => Raised OverflowError
          end
      end
  end.

(** What [main] finds outside the program.  The first three fields are
    [None] when the call raises; [fetch_devops_prs] and the three
    gatherers return or raise. *)
Record world : Type := {
  devops_defaults : option (Dict.dict string);
  account_user : option string;
  project_list : option (list string);
  fetch_devops_prs : string -> string -> run (list pr_record);
  claude_activity : datetime -> datetime -> run daily_t;
  calendar_activity : datetime -> datetime -> run daily_t;
  git_activity : datetime -> datetime -> run daily_t
}.

Inductive source_kind : Type := DevOps | Claude | Calendar365 | Git.

(** A gatherer that was started, with the range it was given. *)
Definition gather : Type := (source_kind * datetime * datetime)%type.

(** [[p.strip() for p in s.split(",")]] *)
Fixpoint split_commas (s : text) (cur : text) : list text :=
  match s with
  | [] => [cur]
  | c :: rest =>
      if ascii_eqb c ","%char then cur :: split_commas rest []
      else split_commas rest (cur ++ [c])
  end.

Definition project_names (s : string) : list string :=
  map (fun p => to_string (strip p)) (split_commas (of_string s) []).

(** The DevOps block of [main], inside its [try]: the projects to scan,
    or [None] when the block ends without fetching. *)
Definition devops_projects (args : args_t) (w : world)
  : option (list string) :=
  match devops_defaults w with
  | None => None
  | Some defaults =>
      let org := Dict.get_or defaults "organization" "" in
      if String.eqb org "" then None
      else
        match account_user w with
        | None => None
        | Some _ =>
            let projects :=
              match project args with
              | Some (String c s) => Some (project_names (String c s))
              | _ =>
                  if all_projects args then project_list w
                  else
                    let proj := Dict.get_or defaults "project" "" in
                    Some (if String.eqb proj "" then [] else [proj])
              end in
            match projects with
            | Some (p :: ps) => Some (p :: ps)
            | _ => None
            end
        end
  end.

(** How far [main] has come: the gatherers started and the [sources]
    list. *)
Record progress : Type := {
  started : list gather;
  sources : list daily_t
}.

(** "1. Azure DevOps PRs": whatever is raised inside the block is caught
    by its [except Exception] and the source is left out. *)
Definition devops_block (args : args_t) (w : world)
           (start finish : datetime) (p : progress) : progress :=
  if no_devops args then p
  else
    match devops_projects args w with
    | Some projects =>
        let started := started p ++ [(DevOps, start, finish)] in
        match get_devops_activity (fetch_devops_prs w) projects
                                  start finish with
        | Done devops =>
            {| started := started; sources := sources p ++ [devops] |}
        | Raised _ => {| started := started; sources := sources p |}
        end
    | None => p
    end.

(** One of the blocks 2 to 4: the gatherer is called outside any [try],
    so that what it raises ends [main]. *)
Definition bare_block (enabled : bool) (kind : source_kind)
           (call : datetime -> datetime -> run daily_t)
           (start finish : datetime) (p : progress)
  : progress + list gather * exn :=
  if enabled
  then
    let started := started p ++ [(kind, start, finish)] in
    match call start finish with
    | Done source =>
        inl {| started := started; sources := sources p ++ [source] |}
    | Raised e => inr (started, e)
    end
  else inl p.

Inductive output : Type :=
| Text (report : text_report)
| Json (days : daily_t).

(** How a run ends: with an exception while the range is determined,
    before anything is gathered ([Fatal]); with an exception later on
    ([Crashed]); or with the report printed. *)
Inductive outcome : Type :=
| Fatal (e : exn)
| Crashed (started : list gather) (e : exn)
| Finished (started : list gather) (out : output).

(** [main]; [now] is [datetime.now(timezone.utc)]. *)
Definition main (args : args_t) (w : world) (now : datetime) : outcome :=
  match date_range args now with
  | Raised e => Fatal e
  | Done (start, finish) =>
      let p :=
        devops_block args w start finish {| started := []; sources := [] |} in
      match bare_block (negb (no_claude args)) Claude (claude_activity w)
                       start finish p with
      | inr (started, e) => Crashed started e
      | inl p =>
          match bare_block (with_calendar args) Calendar365
                           (calendar_activity w) start finish p with
          | inr (started, e) => Crashed started e
          | inl p =>
              match bare_block (negb (no_git args)) Git (git_activity w)
                               start finish p with
              | inr (started, e) => Crashed started e
              | inl p =>
                  let daily := merge_daily (sources p) in
                  if json args then Finished (started p) (Json daily)
                  else
                    match format_text daily start finish with
                    | Done report => Finished (started p) (Text report)
                    | Raised e => Crashed (started p) e
                    end
              end
          end
      end
  end.

(** The gatherers that a run started. *)
Definition started_by (o : outcome) : list gather :=
  match o with
  | Fatal _ => []
  | Crashed started _ => started
  | Finished started _ => started
  end.

(** The days of the printed report: the blocks of the text, the keys of
    the ["days"] object of the JSON text. *)
Definition output_days (out : output) : list string :=
  match out with
  | Text report => map strftime_ymd (day_axis report)
  | Json days => Dict.keys days
  end.

(** C4 as it is written: an inverted range makes [main] abort before
    anything is gathered. *)
Definition inverted_range_rejected (args : args_t) (w : world)
           (now : datetime) : Prop :=
  forall start finish,
    date_range args now = Done (start, finish) ->
    dt_ltb finish start = true ->
    exists e, main args w now = Fatal e.

(** C9 as it is written: for a range whose first day is not after its
    last, the report has one entry for each day of the range, in order. *)
Definition every_day_reported (args : args_t) (w : world) (now : datetime)
  : Prop :=
  forall start finish started out,
    date_range args now = Done (start, finish) ->
    dt_date start <= dt_date finish ->
    main args w now = Finished started out ->
    output_days out
    = map strftime_ymd (day_range (dt_date start) (dt_date finish)).

End Main.

Definition feb01 : datetime := midnight (_ymd2ord 2026 2 1).
Definition feb15_end : datetime :=
  replace_end_of_day (midnight (_ymd2ord 2026 2 15)).

Definition no_events (_ _ : datetime) : run daily_t := Done [].

(** No DevOps organisation configured, no history, no repository. *)
Definition quiet_world : world :=
  {| devops_defaults := Some [];
     account_user := Some "me@example.com";
     project_list := Some [];
     fetch_devops_prs := fun _ _ => Done [];
     claude_activity := no_events;
     calendar_activity := no_events;
     git_activity := no_events |}.

Definition no_options : args_t :=
  {| from_date := None;
     to_date := None;
     date_opt := None;
     days := 14;
     project := None;
     all_projects := false;
     with_calendar := false;
     no_devops := false;
     no_claude := false;
     no_git := false;
     json := false |}.

(** [--from 2026-02-10 --to 2026-02-01] *)
Definition inverted_args : args_t :=
  {| from_date := Some "2026-02-10";
     to_date := Some "2026-02-01";
     date_opt := None;
     days := 14;
     project := None;
     all_projects := false;
     with_calendar := false;
     no_devops := false;
     no_claude := false;
     no_git := false;
     json := false |}.

(** [--date 2026-02-03] *)
Definition single_day_args : args_t :=
  {| from_date := None;
     to_date := None;
     date_opt := Some "2026-02-03";
     days := 14;
     project := None;
     all_projects := false;
     with_calendar := false;
     no_devops := false;
     no_claude := false;
     no_git := false;
     json := false |}.

(** [--date 2026-02-03 --json] *)
Definition json_args : args_t :=
  {| from_date := None;
     to_date := None;
     date_opt := Some "2026-02-03";
     days := 14;
     project := None;
     all_projects := false;
     with_calendar := false;
     no_devops := false;
     no_claude := false;
     no_git := false;
     json := true |}.

(** A parser that knows the days of the demonstrations only. *)
Definition feb_strptime (s : string) : option date :=
  if String.eqb s "2026-02-01" then Some (_ymd2ord 2026 2 1)
  else if String.eqb s "2026-02-10" then Some (_ymd2ord 2026 2 10)
  else demo_strptime s.

Definition some_now : datetime := mk_datetime 2026 2 20 12 0.

Definition pr_42 : pr_record :=
  {| repository_name := Some "api";
     pullRequestId := 42;
     title := Some "Add export";
     status := Some "completed";
     targetRefName := Some "refs/heads/main";
     creationDate := Some (utc (mk_datetime 2026 2 3 10 15));
     closedDate := Some (utc (mk_datetime 2026 2 5 16 40)) |}.

(** The PR shows up in the "completed" query of project "Core". *)
Definition fetch_42 (project st : string) : run (list pr_record) :=
  if String.eqb st "completed" then Done [pr_42] else Done [].

(** Created late in the evening, five hours west of UTC: the next day has
    begun in UTC. *)
Definition pr_43 : pr_record :=
  {| repository_name := Some "api";
     pullRequestId := 43;
     title := Some "Fix import";
     status := Some "active";
     targetRefName := Some "refs/heads/release";
     creationDate :=
       Some (Aware (mk_datetime 2026 2 3 23 30) (-5 * 3600 * 1000000));
     closedDate := None |}.

(** A PR whose creation date is written without a zone. *)
Definition pr_44 : pr_record :=
  {| repository_name := Some "api";
     pullRequestId := 44;
     title := Some "No zone";
     status := Some "active";
     targetRefName := None;
     creationDate := Some (Naive (mk_datetime 2026 2 4 8 0));
     closedDate := None |}.

(** The "active" query of any project times out. *)
Definition fetch_slow (project st : string) : run (list pr_record) :=
  if String.eqb st "active" then Raised TimeoutExpired else fetch_42 project st.


End TimeReport.

(** * Properties *)

Import PrReport.

(** ** The key-label heuristics *)

Example extract_docstring_1 :
  extract_user_from_keyname "claude_code_key_alice_xxxx" = "alice".
Proof. reflexivity. Qed.

Example extract_docstring_2 :
  extract_user_from_keyname "alice-my-org" = "alice".
Proof. reflexivity. Qed.

Example extract_docstring_3 :
  extract_user_from_keyname "carol-github-action" = "carol".
Proof. reflexivity. Qed.

Example extract_trailing_space :
  extract_user_from_keyname "abcdefghi jklm" = "abcdefghi ".
Proof. reflexivity. Qed.

(** *** Facts about the text helpers *)

Section TextFacts.

Variable p : ascii -> bool.

Lemma take_while_firstn (s : text) :
  firstn (List.length (take_while p s)) s = take_while p s.
Proof.
  induction s as [|c r IH]; simpl; [reflexivity|].
  destruct (p c); simpl; [now rewrite IH | reflexivity].
Qed.

Lemma take_while_all (s : text) :
  forallb p (take_while p s) = true.
Proof.
  induction s as [|c r IH]; simpl; [reflexivity|].
  destruct (p c) eqn:E; simpl; [now rewrite E | reflexivity].
Qed.

Lemma take_while_split (s : text) :
  s = take_while p s ++ skipn (List.length (take_while p s)) s.
Proof.
  rewrite <- (take_while_firstn s) at 1. symmetry. apply firstn_skipn.
Qed.

Lemma drop_while_suffix (s : text) :
  exists pre, s = pre ++ drop_while p s.
Proof.
  induction s as [|c r [pre IH]]; simpl.
  - now exists [].
  - destruct (p c).
    + exists (c :: pre). simpl. now rewrite <- IH.
    + now exists [].
Qed.

Lemma drop_while_head (s : text) c r :
  drop_while p s = c :: r -> p c = false.
Proof.
  induction s as [|d t IH]; simpl; [discriminate|].
  destruct (p d) eqn:E; [exact IH|].
  intros H. injection H as -> _. exact E.
Qed.

End TextFacts.

Lemma rstrip_prefix (s : text) : exists post, s = rstrip s ++ post.
Proof.
  unfold rstrip.
  destruct (drop_while_suffix is_space (rev s)) as [pre H].
  exists (rev pre).
  rewrite <- rev_app_distr, <- H. symmetry. apply rev_involutive.
Qed.

Lemma rstrip_last (s u : text) c :
  rstrip s = u ++ [c] -> is_space c = false.
Proof.
  unfold rstrip. intros H.
  apply (f_equal (@rev ascii)) in H.
  rewrite rev_involutive, rev_app_distr in H. simpl in H.
  eapply drop_while_head; eassumption.
Qed.

Lemma strip_infix (s : text) : is_infix (strip s) s.
Proof.
  unfold strip, lstrip.
  destruct (drop_while_suffix is_space s) as [pre Hpre].
  destruct (rstrip_prefix (drop_while is_space s)) as [post Hpost].
  exists pre, post. now rewrite <- Hpost.
Qed.

Lemma strip_last (s u : text) c : strip s = u ++ [c] -> is_space c = false.
Proof. unfold strip. apply rstrip_last. Qed.

Lemma rstrip_head (s : text) c r :
  rstrip s = c :: r -> exists r', s = c :: r'.
Proof.
  intros H. destruct (rstrip_prefix s) as [post Hp].
  rewrite H in Hp. simpl in Hp. eauto.
Qed.

Lemma strip_head (s : text) c r : strip s = c :: r -> is_space c = false.
Proof.
  unfold strip. intros H.
  destruct (rstrip_head _ _ _ H) as [r' Hr].
  unfold lstrip in Hr. eapply drop_while_head; eassumption.
Qed.

(** *** Facts about the matcher *)

(** When what follows a repetition cannot start with a character of the
    repeated class, backtracking never helps: the repetition matches the
    whole run or nothing. *)
Lemma rep_greedy {A} (p : ascii -> bool) (k : nat -> text -> option A) :
  (forall pos c rest, p c = true -> k pos (c :: rest) = None) ->
  forall s lo hi pos,
    rep p lo hi pos s k =
      let n := List.length (take_while p s) in
      if (lo <=? n)%nat && within hi n
      then k (pos + n)%nat (skipn n s) else None.
Proof.
  intros Hk. induction s as [|c rest IH]; intros lo hi pos; simpl.
  - rewrite Nat.add_0_r. destruct lo; simpl; [|reflexivity].
    destruct hi; reflexivity.
  - destruct (p c) eqn:Ec; simpl.
    + assert (Hstop : match lo with O => k pos (c :: rest) | S _ => None end
                      = None)
        by (destruct lo; [now apply Hk | reflexivity]).
      destruct (room hi) eqn:Er.
      * rewrite IH, Hstop. cbv zeta.
        replace (pred lo <=? List.length (take_while p rest))%nat
          with (lo <=? S (List.length (take_while p rest)))%nat
          by (destruct lo; reflexivity).
        replace (within (option_map pred hi)
                        (List.length (take_while p rest)))
          with (within hi (S (List.length (take_while p rest))))
          by (destruct hi as [[|h]|]; simpl; [discriminate| |]; reflexivity).
        rewrite Nat.add_succ_r, <- Nat.add_succ_l.
        destruct (_ && _); [|reflexivity].
        destruct (k (S pos + _)%nat _); reflexivity.
      * rewrite Hstop. destruct hi as [[|h]|]; try discriminate.
        simpl. now rewrite andb_false_r.
    + rewrite Nat.add_0_r. destruct lo; simpl; [|reflexivity].
      destruct hi; reflexivity.
Qed.

Lemma lower_not_sep c : is_lower c = true -> dash_or_underscore c = false.
Proof.
  destruct c as [[] [] [] [] [] [] [] []]; vm_compute; congruence.
Qed.

Lemma lower_not_space c : is_lower c = true -> is_space c = false.
Proof.
  destruct c as [[] [] [] [] [] [] [] []]; vm_compute; congruence.
Qed.

Lemma lower_not_upper c : is_lower c = true -> is_upper c = false.
Proof.
  destruct c as [[] [] [] [] [] [] [] []]; vm_compute; congruence.
Qed.

Lemma lower_char_not_upper c : is_upper (lower_char c) = false.
Proof.
  destruct c as [[] [] [] [] [] [] [] []]; vm_compute; congruence.
Qed.

Lemma re_match_claude_code_key (s : text) :
  re_match pat_claude_code_key s = rule_prefixed s.
Proof.
  unfold re_match, pat_claude_code_key, rule_prefixed. cbn [rmatch].
  fold key_prefix. destruct (strip_prefix key_prefix s) as [rest|];
    [|reflexivity].
  rewrite rep_greedy.
  - cbv zeta. rewrite andb_true_r.
    destruct (1 <=? _)%nat; [|reflexivity]. simpl andb.
    replace (0 + List.length key_prefix + _ - _)%nat
      with (List.length (take_while is_lower rest)) by lia.
    rewrite take_while_firstn. unfold startswith.
    destruct (strip_prefix _ _); reflexivity.
  - intros pos c r Hc. simpl.
    destruct c as [[] [] [] [] [] [] [] []]; try reflexivity;
      vm_compute in Hc; discriminate.
Qed.

Lemma re_match_user_sep (s : text) :
  re_match pat_user_sep s = rule_separator s.
Proof.
  unfold re_match, pat_user_sep, rule_separator. cbn [rmatch].
  rewrite rep_greedy.
  - cbv zeta. unfold within.
    destruct ((2 <=? _)%nat && (_ <=? 6)%nat); [|reflexivity]. simpl andb.
    destruct (skipn _ s) as [|c r]; [reflexivity|].
    destruct (dash_or_underscore c); [|reflexivity].
    rewrite Nat.add_0_l, Nat.sub_0_r. now rewrite take_while_firstn.
  - intros pos c r Hc. now rewrite (lower_not_sep c Hc).
Qed.

(** [$] also matches before a final newline; a stripped label has none. *)
Lemma re_match_short_name (s : text) :
  (forall u c, s = u ++ [c] -> is_space c = false) ->
  re_match pat_short_name s =
    match rule_whole s with Some _ => Some [] | None => None end.
Proof.
  intros Hlast.
  unfold re_match, pat_short_name, rule_whole. cbn [rmatch].
  rewrite rep_greedy.
  - cbv zeta. unfold within.
    destruct ((2 <=? _)%nat && (_ <=? 6)%nat); [|reflexivity]. simpl andb.
    pose proof (take_while_split is_lower s) as Hs.
    destruct (skipn _ s) as [|c [|d r]]; try reflexivity.
    destruct (ascii_eqb c newline) eqn:E; [|reflexivity].
    apply Ascii.eqb_eq in E. subst c.
    specialize (Hlast _ _ Hs). discriminate.
  - intros pos c [|d r] Hc; [|reflexivity].
    destruct (ascii_eqb c newline) eqn:E; [|reflexivity].
    apply Ascii.eqb_eq in E. subst c. discriminate.
Qed.

Lemma extract_user_text_cascade (name : text) :
  extract_user_text name =
    first_match_wins
      [rule_prefixed; rule_separator; rule_whole; rule_fallback]
      (strip (lower name)).
Proof.
  unfold extract_user_text. cbv zeta. simpl first_match_wins.
  rewrite re_match_claude_code_key, re_match_user_sep.
  destruct (rule_prefixed _); [reflexivity|].
  destruct (rule_separator _); [reflexivity|].
  rewrite re_match_short_name by (intros u c; apply strip_last).
  unfold rule_whole, rule_fallback. cbv zeta.
  destruct (_ && _); reflexivity.
Qed.

Lemma strip_prefix_app (p s rest : text) :
  strip_prefix p s = Some rest -> s = p ++ rest.
Proof.
  revert s. induction p as [|a p IH]; intros [|b s]; simpl; try congruence.
  unfold ascii_eqb. destruct (Ascii.eqb_spec a b); [|discriminate].
  intros H. subst b. f_equal. now apply IH.
Qed.

Lemma strip_fix (t : text) :
  (forall c r, t = c :: r -> is_space c = false) ->
  (forall u c, t = u ++ [c] -> is_space c = false) ->
  strip t = t.
Proof.
  intros Hh Hl. unfold strip, lstrip, rstrip.
  assert (E1 : drop_while is_space t = t).
  { destruct t as [|c r]; [reflexivity|]. simpl.
    now rewrite (Hh c r eq_refl). }
  rewrite E1.
  assert (E2 : drop_while is_space (rev t) = rev t).
  { destruct (rev t) as [|c r] eqn:E; [reflexivity|]. simpl.
    rewrite (Hl (rev r) c); [reflexivity|].
    rewrite <- (rev_involutive t), E. reflexivity. }
  rewrite E2. apply rev_involutive.
Qed.

Lemma lstrip_head_fix (t : text) :
  (forall c r, t = c :: r -> is_space c = false) -> lstrip t = t.
Proof.
  intros H. destruct t as [|c r]; [reflexivity|].
  unfold lstrip. simpl. now rewrite (H c r eq_refl).
Qed.

Lemma strip_idem (s : text) : strip (strip s) = strip s.
Proof.
  apply strip_fix.
  - intros c r. apply strip_head.
  - intros u c. apply strip_last.
Qed.

Lemma strip_all_lower (u : text) : forallb is_lower u = true -> strip u = u.
Proof.
  intros H. rewrite forallb_forall in H. apply strip_fix.
  - intros c r E. apply lower_not_space, H. rewrite E. now left.
  - intros v c E. apply lower_not_space, H. rewrite E.
    apply in_or_app. right. now left.
Qed.

Lemma lower_no_upper (s : text) :
  forallb (fun c => negb (is_upper c)) (lower s) = true.
Proof.
  induction s as [|c r IH]; simpl; [reflexivity|].
  now rewrite lower_char_not_upper, IH.
Qed.

Lemma infix_no_upper (t s : text) :
  is_infix t s ->
  forallb (fun c => negb (is_upper c)) s = true ->
  forallb (fun c => negb (is_upper c)) t = true.
Proof.
  intros (pre & post & ->). rewrite !forallb_app.
  intros H. apply andb_prop in H as [_ H]. now apply andb_prop in H as [H _].
Qed.

Lemma infix_trans (a b c : text) : is_infix a b -> is_infix b c -> is_infix a c.
Proof.
  intros (p1 & q1 & ->) (p2 & q2 & ->).
  exists (p2 ++ p1), (q1 ++ q2). now rewrite <- !app_assoc.
Qed.

Lemma firstn_infix (n : nat) (s : text) : is_infix (firstn n s) s.
Proof. exists [], (skipn n s). simpl. symmetry. apply firstn_skipn. Qed.

Lemma rule_prefixed_some (s u : text) :
  rule_prefixed s = Some u ->
  forallb is_lower u = true /\ is_infix u s.
Proof.
  unfold rule_prefixed. destruct (strip_prefix key_prefix s) as [rest|] eqn:E;
    [|discriminate].
  cbv zeta. destruct (_ && _); [|discriminate]. intros H. injection H as <-.
  split; [apply take_while_all|].
  apply strip_prefix_app in E. subst s.
  exists key_prefix, (skipn (List.length (take_while is_lower rest)) rest).
  f_equal. apply take_while_split.
Qed.

Lemma rule_separator_some (s u : text) :
  rule_separator s = Some u ->
  forallb is_lower u = true /\ is_infix u s.
Proof.
  unfold rule_separator. cbv zeta. destruct (_ && _); [|discriminate].
  intros H. injection H as <-. split; [apply take_while_all|].
  rewrite <- take_while_firstn. apply firstn_infix.
Qed.

Lemma rule_whole_some (s u : text) : rule_whole s = Some u -> u = s.
Proof.
  unfold rule_whole. cbv zeta. destruct (_ && _); congruence.
Qed.

Lemma of_to_string (t : text) : of_string (to_string t) = t.
Proof. apply list_ascii_of_string_of_list_ascii. Qed.

(** C5.  The key-label extraction is a function of the label alone, it is
    the ordered first-match-wins cascade of the four rules (prefixed label,
    initials before a separator, short all-letter label, first ten
    characters), and it maps "claude_code_key_alice_7f3a" to "alice",
    "bob-key" to "bob", "DaveM" to "davem" and "xx" to "xx". *)
Theorem extract_user_from_keyname_cascade :
  extract_user_from_keyname "claude_code_key_alice_7f3a" = "alice"
  /\ extract_user_from_keyname "bob-key" = "bob"
  /\ extract_user_from_keyname "DaveM" = "davem"
  /\ extract_user_from_keyname "xx" = "xx"
  /\ forall name, extract_user_from_keyname name = cascade_spec name.
Proof.
  repeat split; try reflexivity.
  intros name. unfold extract_user_from_keyname, cascade_spec.
  now rewrite extract_user_text_cascade.
Qed.

(** The ten-character fallback can cut the label right after an inner
    blank, which then ends the initials. *)
Lemma initials_wellformed_fails :
  ~ initials_wellformed "abcdefghi jklm".
Proof.
  intros (_ & _ & H). vm_compute in H. discriminate.
Qed.

(** C10 (amended).  For every ASCII label the extraction returns a
    contiguous run of the lower-cased, stripped label; the result holds no
    upper-case letter and does not start with white space; it does not end
    with white space either unless it is the ten-character truncation of a
    longer label.  The function is total: the empty label yields the empty
    string. *)
Theorem extract_user_from_keyname_shape :
  forall name,
    is_ascii (of_string name) = true ->
    let s := strip (lower (of_string name)) in
    let r := of_string (extract_user_from_keyname name) in
    is_infix r s
    /\ forallb (fun c => negb (is_upper c)) r = true
    /\ lstrip r = r
    /\ (strip r = r \/ (r = firstn 10 s /\ (10 < List.length s)%nat))
    /\ extract_user_from_keyname "" = "".
Proof.
  intros name _ s r.
  assert (Hs' : strip (lower (of_string name)) = s) by reflexivity.
  assert (Hs : forallb (fun c => negb (is_upper c)) s = true).
  { apply (infix_no_upper s (lower (of_string name)));
      [apply strip_infix | apply lower_no_upper]. }
  assert (Hcases :
    (forallb is_lower r = true /\ is_infix r s)
    \/ r = s
    \/ (r = firstn 10 s /\ (10 < List.length s)%nat)).
  { subst r. unfold extract_user_from_keyname.
    rewrite of_to_string, extract_user_text_cascade. fold s.
    cbn [first_match_wins].
    destruct (rule_prefixed s) as [u|] eqn:E1;
      [left; now apply rule_prefixed_some|].
    destruct (rule_separator s) as [u|] eqn:E2;
      [left; now apply rule_separator_some|].
    destruct (rule_whole s) as [u|] eqn:E3;
      [right; left; now apply rule_whole_some|].
    unfold rule_fallback.
    destruct (Nat.ltb_spec 10 (List.length s)) as [Hlen|Hlen].
    - right; right. now split.
    - right; left. now apply firstn_all2. }
  assert (Hhead : forall c t, s = c :: t -> is_space c = false)
    by (intros c t; apply strip_head).
  clearbody r s.
  destruct Hcases as [[Hl Hi] | [-> | [Hr Hlen]]].
  - assert (E := strip_all_lower r Hl).
    repeat split; auto.
    + now apply (infix_no_upper r s).
    + apply lstrip_head_fix. intros c t Ec. apply (strip_head r c t).
      now rewrite E.
  - repeat split; auto.
    + exists [], []. now rewrite app_nil_r.
    + now apply lstrip_head_fix.
    + left. apply strip_fix; [exact Hhead|].
      intros u c E. apply (strip_last (lower (of_string name)) u c).
      exact (eq_trans Hs' E).
  - assert (Hi : is_infix r s) by (rewrite Hr; apply firstn_infix).
    repeat split; auto.
    + now apply (infix_no_upper r s).
    + apply lstrip_head_fix. intros c t Ec. rewrite Hr in Ec.
      destruct s as [|d s']; [discriminate|]. simpl in Ec.
      injection Ec as -> _. now apply (Hhead c s').
Qed.

Lemma extract_user_from_keyname_shape_witness :
  is_infix (of_string (extract_user_from_keyname "  Dave M  "))
           (strip (lower (of_string "  Dave M  ")))
  /\ forallb (fun c => negb (is_upper c))
             (of_string (extract_user_from_keyname "  Dave M  ")) = true.
Proof.
  destruct (extract_user_from_keyname_shape "  Dave M  " eq_refl)
    as (H1 & H2 & _).
  split; [exact H1 | exact H2].
Defined.

(** ** Dates *)

Import Calendar.

Lemma month_day_table (leapyear : bool) :
  forallb (fun i => month_day_ok leapyear (Z.of_nat i)) (seq 0 365) = true.
Proof. destruct leapyear; vm_compute; reflexivity. Qed.

Lemma month_day_spec (n : Z) (leapyear : bool) :
  0 <= n <= 364 ->
  let '(month, day) := _month_day n leapyear in
  1 <= month <= 12 /\ 1 <= day <= 31
  /\ nth (Z.to_nat month) _DAYS_BEFORE_MONTH 0
     + b2z ((2 <? month) && leapyear) + day = n + 1.
Proof.
  intros Hn. pose proof (month_day_table leapyear) as H.
  rewrite forallb_forall in H. specialize (H (Z.to_nat n)).
  rewrite Z2Nat.id in H by lia.
  assert (Hin : In (Z.to_nat n) (seq 0 365)) by (apply in_seq; lia).
  specialize (H Hin). unfold month_day_ok in H.
  destruct (_month_day n leapyear) as [month day].
  repeat (apply andb_prop in H as [H ?]). lia.
Qed.

Lemma is_leap_spec (a b c e : Z) :
  0 <= b <= 3 -> 0 <= c <= 24 -> 0 <= e <= 3 ->
  _is_leap (a * 400 + 1 + b * 100 + c * 4 + e)
  = (e =? 3) && (negb (c =? 24) || (b =? 3)).
Proof.
  intros Hb Hc He. unfold _is_leap.
  set (y := a * 400 + 1 + b * 100 + c * 4 + e).
  destruct (Z.eqb_spec e 3) as [E3|E3];
    destruct (Z.eqb_spec c 24) as [E24|E24];
    destruct (Z.eqb_spec b 3) as [Eb|Eb];
    destruct (Z.eqb_spec (y mod 4) 0) as [M4|M4];
    destruct (Z.eqb_spec (y mod 100) 0) as [M100|M100];
    destruct (Z.eqb_spec (y mod 400) 0) as [M400|M400];
    simpl; try reflexivity; exfalso; subst y;
    Z.div_mod_to_equations; lia.
Qed.

Lemma days_before_year_spec (a b c e : Z) :
  0 <= b <= 3 -> 0 <= c <= 24 -> 0 <= e <= 3 ->
  _days_before_year (a * 400 + b * 100 + c * 4 + e + 1)
  = a * 146097 + b * 36524 + c * 1461 + e * 365.
Proof.
  intros Hb Hc He. unfold _days_before_year. cbv zeta.
  replace (a * 400 + b * 100 + c * 4 + e + 1 - 1)
    with (a * 400 + b * 100 + c * 4 + e) by ring.
  Z.div_mod_to_equations. lia.
Qed.

Lemma ord2ymd_spec (n : date) :
  valid_date n ->
  let '(y, m, d) := _ord2ymd n in
  1 <= y <= 9999 /\ 1 <= m <= 12 /\ 1 <= d <= 31 /\ _ymd2ord y m d = n.
Proof.
  unfold valid_date. intros Hn. unfold _ord2ymd. cbv zeta.
  change _DI400Y with 146097. change _DI100Y with 36524.
  change _DI4Y with 1461.
  set (n0 := n - 1).
  set (a := n0 / 146097). set (r1 := n0 mod 146097).
  set (b := r1 / 36524). set (r2 := r1 mod 36524).
  set (c := r2 / 1461). set (r3 := r2 mod 1461).
  set (e := r3 / 365). set (r4 := r3 mod 365).
  assert (Fa : n0 = 146097 * a + r1 /\ 0 <= r1 < 146097)
    by (subst a r1; split; [apply Z.div_mod | apply Z.mod_pos_bound]; lia).
  assert (Fb : r1 = 36524 * b + r2 /\ 0 <= r2 < 36524)
    by (subst b r2; split; [apply Z.div_mod | apply Z.mod_pos_bound]; lia).
  assert (Fc : r2 = 1461 * c + r3 /\ 0 <= r3 < 1461)
    by (subst c r3; split; [apply Z.div_mod | apply Z.mod_pos_bound]; lia).
  assert (Fe : r3 = 365 * e + r4 /\ 0 <= r4 < 365)
    by (subst e r4; split; [apply Z.div_mod | apply Z.mod_pos_bound]; lia).
  assert (Hn0 : n = n0 + 1) by (subst n0; unfold date in *; lia).
  clearbody n0 a r1 b r2 c r3 e r4.
  assert (Hb : 0 <= b <= 4) by lia.
  assert (Hc : 0 <= c <= 24) by lia.
  assert (He : 0 <= e <= 4) by lia.
  assert (Ha : 0 <= a <= 24) by lia.
  destruct (Z.eqb_spec e 4) as [E4|E4]; simpl orb.
  - (* last day of a four-year cycle *)
    assert (Hc' : c <= 23 \/ b = 3) by lia.
    replace (a * 400 + 1 + b * 100 + c * 4 + e - 1)
      with (a * 400 + b * 100 + c * 4 + 3 + 1) by lia.
    unfold _ymd2ord, _days_before_month.
    rewrite days_before_year_spec by lia.
    replace (a * 400 + b * 100 + c * 4 + 3 + 1)
      with (a * 400 + 1 + b * 100 + c * 4 + 3) by ring.
    rewrite is_leap_spec by lia.
    assert (Hb3 : b <= 3) by lia.
    replace ((3 =? 3) && (negb (c =? 24) || (b =? 3))) with true.
    + simpl. lia.
    + symmetry. destruct (Z.eqb_spec c 24); destruct (Z.eqb_spec b 3);
        simpl; try reflexivity. lia.
  - destruct (Z.eqb_spec b 4) as [B4|B4].
    + (* last day of a 400-year cycle *)
      assert (c = 0 /\ e = 0 /\ r4 = 0) as (-> & -> & ->) by lia.
      subst b.
      replace (a * 400 + 1 + 4 * 100 + 0 * 4 + 0 - 1)
        with (a * 400 + 3 * 100 + 24 * 4 + 3 + 1) by ring.
      unfold _ymd2ord, _days_before_month.
      rewrite days_before_year_spec by lia.
      replace (a * 400 + 3 * 100 + 24 * 4 + 3 + 1)
        with (a * 400 + 1 + 3 * 100 + 24 * 4 + 3) by ring.
      rewrite is_leap_spec by lia. simpl. lia.
    + pose proof (month_day_spec r4
                    ((e =? 3) && (negb (c =? 24) || (b =? 3)))) as Hmd.
      destruct (_month_day r4 _) as [month day].
      destruct Hmd as (Hm & Hd & Hsum); [lia|].
      unfold _ymd2ord, _days_before_month.
      rewrite is_leap_spec by lia.
      replace (a * 400 + 1 + b * 100 + c * 4 + e)
        with (a * 400 + b * 100 + c * 4 + e + 1) by ring.
      rewrite days_before_year_spec by lia. lia.
Qed.

Lemma digit_inj (x y : Z) : digit x = digit y -> x mod 10 = y mod 10.
Proof.
  unfold digit. intros H.
  apply (f_equal N_of_ascii) in H.
  pose proof (Z.mod_pos_bound x 10 ltac:(lia)) as Hx.
  pose proof (Z.mod_pos_bound y 10 ltac:(lia)) as Hy.
  rewrite !N_ascii_embedding in H by lia. lia.
Qed.

Lemma to_string_inj (s t : text) : to_string s = to_string t -> s = t.
Proof.
  intros H. apply (f_equal of_string) in H.
  unfold of_string, to_string in H.
  now rewrite !list_ascii_of_string_of_list_ascii in H.
Qed.

(** On the dates Python can represent, the day key names the day. *)
Lemma strftime_ymd_inj (a b : date) :
  valid_date a -> valid_date b ->
  strftime_ymd a = strftime_ymd b -> a = b.
Proof.
  intros Ha Hb H. unfold strftime_ymd in H.
  pose proof (ord2ymd_spec a Ha) as Sa.
  pose proof (ord2ymd_spec b Hb) as Sb.
  destruct (_ord2ymd a) as [[y m] d]. destruct (_ord2ymd b) as [[y' m'] d'].
  destruct Sa as (Hy & Hm & Hd & <-). destruct Sb as (Hy' & Hm' & Hd' & <-).
  apply to_string_inj in H. unfold pad4, pad2 in H. simpl in H.
  injection H as H1 H2 H3 H4 H5 H6 H7 H8.
  apply digit_inj in H1, H2, H3, H4, H5, H6, H7, H8.
  assert (y = y') by (Z.div_mod_to_equations; lia).
  assert (m = m') by (Z.div_mod_to_equations; lia).
  assert (d = d') by (Z.div_mod_to_equations; lia).
  now subst.
Qed.

(** ** The cost calculator *)

Lemma find_pricing_in (table : Dict.dict pricing) m k p :
  find_pricing table m = Some (k, p) -> In (k, p) table.
Proof.
  induction table as [|[k' p'] rest IH]; simpl; [discriminate|].
  destruct (_ && _).
  - intros H. injection H as -> ->. now left.
  - intros H. right. now apply IH.
Qed.

Lemma table_rates_nonneg k p : In (k, p) _MODEL_PRICING -> rates_nonneg p.
Proof.
  unfold _MODEL_PRICING. simpl.
  intros [H | [H | [H | [H | []]]]]; injection H as _ <-;
    unfold rates_nonneg; repeat split; unfold Qle; simpl; lia.
Qed.

Lemma get_pricing_nonneg (m : string) : rates_nonneg (_get_pricing m).
Proof.
  unfold _get_pricing. cbv zeta.
  destruct (find_pricing _ _) as [[k p]|] eqn:E.
  - eapply table_rates_nonneg, find_pricing_in, E.
  - unfold rates_nonneg. vm_compute. repeat split; discriminate.
Qed.

Lemma calc_cost_formula (r : usage_result) : (_calc_cost r == cost_formula r)%Q.
Proof.
  unfold _calc_cost, cost_formula. cbv zeta.
  destruct (_get_pricing _) as [[[a b] c] d]. field.
Qed.

Lemma calc_cost_pointwise (r1 r2 : usage_result) :
  field_or (model r1) "" = field_or (model r2) "" ->
  tok_uncached r1 <= tok_uncached r2 ->
  tok_cache_read r1 <= tok_cache_read r2 ->
  tok_cache_5m r1 + tok_cache_1h r1 <= tok_cache_5m r2 + tok_cache_1h r2 ->
  tok_output r1 <= tok_output r2 ->
  (_calc_cost r1 <= _calc_cost r2)%Q.
Proof.
  intros Hm Hu Hr Hw Ho. unfold _calc_cost. cbv zeta. rewrite <- Hm.
  pose proof (get_pricing_nonneg (field_or (model r1) "")) as Hp.
  destruct (_get_pricing _) as [[[a b] c] d].
  destruct Hp as (Ha & Hb & Hc & Hd).
  assert (Hstep : forall (x y : Z) (p : Q),
             x <= y -> (0 <= p)%Q ->
             (inject_Z x * p / 1000000 <= inject_Z y * p / 1000000)%Q).
  { intros x y p Hxy Hp0. apply Qmult_le_compat_r.
    - apply Qmult_le_compat_r; [|exact Hp0].
      rewrite <- Zle_Qle. exact Hxy.
    - unfold Qle. simpl. lia. }
  repeat apply Qplus_le_compat; apply Hstep; assumption.
Qed.

Lemma startswith_app (s p : text) :
  startswith s p = true -> exists rest, s = p ++ rest.
Proof.
  unfold startswith. destruct (strip_prefix p s) as [rest|] eqn:E;
    [|discriminate].
  intros _. exists rest. now apply strip_prefix_app.
Qed.

(** The table loop on a table of the shape of [_MODEL_PRICING], whatever
    the type of the rates. *)
Lemma find_pricing_families {P} (o s h d : P) (m : text) :
  find_pricing [("claude-opus-4", o); ("claude-sonnet-4", s);
                ("claude-haiku-4", h); ("_default", d)] m
  = if startswith m (of_string "claude-opus-4")
    then Some ("claude-opus-4", o)
    else if startswith m (of_string "claude-sonnet-4")
    then Some ("claude-sonnet-4", s)
    else if startswith m (of_string "claude-haiku-4")
    then Some ("claude-haiku-4", h)
    else None.
Proof.
  cbn [find_pricing].
  change (negb ("claude-opus-4" =? "_default")%string) with true.
  change (negb ("claude-sonnet-4" =? "_default")%string) with true.
  change (negb ("claude-haiku-4" =? "_default")%string) with true.
  change (negb ("_default" =? "_default")%string) with false.
  cbn [andb]. reflexivity.
Qed.

Lemma families_disjoint (m : text) :
  (startswith m (of_string "claude-sonnet-4") = true ->
   startswith m (of_string "claude-opus-4") = false)
  /\ (startswith m (of_string "claude-haiku-4") = true ->
      startswith m (of_string "claude-opus-4") = false
      /\ startswith m (of_string "claude-sonnet-4") = false).
Proof.
  split.
  - intros H. destruct (startswith m (of_string "claude-opus-4")) eqn:E;
      [|reflexivity].
    apply startswith_app in H as [r1 H1]. apply startswith_app in E as [r2 H2].
    rewrite H1 in H2. discriminate.
  - intros H. split.
    + destruct (startswith m (of_string "claude-opus-4")) eqn:E;
        [|reflexivity].
      apply startswith_app in H as [r1 H1].
      apply startswith_app in E as [r2 H2]. rewrite H1 in H2. discriminate.
    + destruct (startswith m (of_string "claude-sonnet-4")) eqn:E;
        [|reflexivity].
      apply startswith_app in H as [r1 H1].
      apply startswith_app in E as [r2 H2]. rewrite H1 in H2. discriminate.
Qed.

(** The rates of a model name, on the rationals and on the floats, by the
    family prefix of its lower-cased form. *)
Lemma get_pricing_families (model : string) :
  let m := lower (of_string model) in
  (startswith m (of_string "claude-opus-4") = true ->
   _get_pricing model = (15.00, 1.50, 18.75, 75.00)%Q
   /\ Binary64._get_pricing model = Binary64.opus)
  /\ (startswith m (of_string "claude-sonnet-4") = true ->
      _get_pricing model = (3.00, 0.30, 3.75, 15.00)%Q
      /\ Binary64._get_pricing model = Binary64.sonnet)
  /\ (startswith m (of_string "claude-haiku-4") = true ->
      _get_pricing model = (0.80, 0.08, 1.00, 4.00)%Q
      /\ Binary64._get_pricing model = Binary64.haiku).
Proof.
  intros m. unfold _get_pricing, Binary64._get_pricing. cbv zeta. fold m.
  unfold _MODEL_PRICING, Binary64._MODEL_PRICING.
  rewrite !find_pricing_families.
  destruct (families_disjoint m) as (Hs & Hh).
  split; [|split].
  - intros ->. split; reflexivity.
  - intros H. rewrite (Hs H), H. split; reflexivity.
  - intros H. destruct (Hh H) as (-> & ->). rewrite H. split; reflexivity.
Qed.

(** C6.  A record for model "claude-sonnet-4-x" with 1,000,000 uncached
    input tokens and every other count zero or absent costs exactly 3
    dollars on binary64 floats, computed as the code does (count times
    rate, divided by 1,000,000) and as the spec writes it (count divided
    by 1,000,000, times rate), and in exact arithmetic.  The rates are
    those of the table entry whose key "claude-sonnet-4" is a prefix of
    the lower-cased model name, found by the table loop before the default
    is reached; the loop tells the families apart, a name of the opus or
    the haiku family getting other rates.  For every record the cost is
    the sum over the four token kinds of the count and the rate of the
    kind: evaluated from left to right on floats, and equal to the sum of
    count / 1,000,000 * rate in exact arithmetic. *)
Theorem calc_cost_sonnet_scenario :
  (forall r,
      sonnet_scenario r ->
      Binary64._calc_cost r = Binary64.float_of_int 3
      /\ Binary64.cost_formula 1000000 0 0 0
           (Binary64._get_pricing "claude-sonnet-4-x")
         = Binary64.float_of_int 3
      /\ (_calc_cost r == 3)%Q)
  /\ find_pricing _MODEL_PRICING (lower (of_string "claude-sonnet-4-x"))
     = Some ("claude-sonnet-4", (3.00, 0.30, 3.75, 15.00)%Q)
  /\ find_pricing Binary64._MODEL_PRICING
                  (lower (of_string "claude-sonnet-4-x"))
     = Some ("claude-sonnet-4", Binary64.sonnet)
  /\ (forall model,
        let m := lower (of_string model) in
        (startswith m (of_string "claude-opus-4") = true ->
         _get_pricing model = (15.00, 1.50, 18.75, 75.00)%Q
         /\ Binary64._get_pricing model = Binary64.opus)
        /\ (startswith m (of_string "claude-sonnet-4") = true ->
            _get_pricing model = (3.00, 0.30, 3.75, 15.00)%Q
            /\ Binary64._get_pricing model = Binary64.sonnet)
        /\ (startswith m (of_string "claude-haiku-4") = true ->
            _get_pricing model = (0.80, 0.08, 1.00, 4.00)%Q
            /\ Binary64._get_pricing model = Binary64.haiku))
  /\ (forall r,
        let cc := field_or (cache_creation r)
                           {| ephemeral_5m_input_tokens := None;
                              ephemeral_1h_input_tokens := None |} in
        let uncached_input := field_or (uncached_input_tokens r) 0 in
        let cache_read := field_or (cache_read_input_tokens r) 0 in
        let output := field_or (output_tokens r) 0 in
        let cache_write :=
          field_or (ephemeral_5m_input_tokens cc) 0
          + field_or (ephemeral_1h_input_tokens cc) 0 in
        Binary64._calc_cost r
        = Binary64.cost_expr uncached_input cache_read cache_write output
            (Binary64._get_pricing (field_or (model r) ""))
        /\ let '(rate_in, rate_cache_read, rate_cache_write, rate_out) :=
             _get_pricing (field_or (model r) "") in
           (_calc_cost r
            == inject_Z uncached_input / 1000000 * rate_in
               + inject_Z cache_read / 1000000 * rate_cache_read
               + inject_Z cache_write / 1000000 * rate_cache_write
               + inject_Z output / 1000000 * rate_out)%Q).
Proof.
  split; [|split; [reflexivity|]; split; [reflexivity|]; split;
            [exact get_pricing_families|]].
  - intros r (Hm & Hu & Hr & Ho & Hc).
    assert (H5 : tok_cache_5m r = 0 /\ tok_cache_1h r = 0).
    { unfold tok_cache_5m, tok_cache_1h, cc_or_empty.
      destruct (cache_creation r) as [cc|]; [exact Hc | now split]. }
    destruct H5 as [H5 H1].
    split; [|split; [reflexivity|]].
    + unfold Binary64._calc_cost. rewrite Hm. cbv zeta.
      unfold tok_uncached, tok_cache_read, tok_output.
      rewrite Hu, Hr, Ho, H5, H1. reflexivity.
    + unfold _calc_cost. rewrite Hm. cbv zeta.
      unfold tok_uncached, tok_cache_read, tok_output.
      rewrite Hu, Hr, Ho, H5, H1. reflexivity.
  - intros r. cbv zeta. split.
    + unfold Binary64._calc_cost, Binary64.cost_expr. cbv zeta.
      destruct (Binary64._get_pricing _) as [[[a b] c] d]. reflexivity.
    + unfold _calc_cost, tok_uncached, tok_cache_read, tok_output,
        tok_cache_5m, tok_cache_1h, cc_or_empty. cbv zeta.
      destruct (_get_pricing _) as [[[a b] c] d]. field.
Qed.

Lemma calc_cost_sonnet_scenario_witness :
  Binary64._calc_cost sonnet_record = Binary64.float_of_int 3.
Proof.
  apply (proj1 calc_cost_sonnet_scenario sonnet_record).
  repeat split; reflexivity.
Defined.

(** C7.  Raising any one token count of a record, the model and the other
    counts being kept, never lowers the cost; a record whose token fields
    are all zero or missing costs exactly 0. *)
Theorem calc_cost_monotone_zero :
  forall (r : usage_result) (n m : Z),
    0 <= n -> n <= m ->
    (_calc_cost (with_uncached r n) <= _calc_cost (with_uncached r m))%Q
    /\ (_calc_cost (with_cache_read r n)
        <= _calc_cost (with_cache_read r m))%Q
    /\ (_calc_cost (with_cache_5m r n) <= _calc_cost (with_cache_5m r m))%Q
    /\ (_calc_cost (with_cache_1h r n) <= _calc_cost (with_cache_1h r m))%Q
    /\ (_calc_cost (with_output r n) <= _calc_cost (with_output r m))%Q
    /\ (tok_uncached r = 0 -> tok_cache_read r = 0 ->
        tok_cache_5m r = 0 -> tok_cache_1h r = 0 -> tok_output r = 0 ->
        (_calc_cost r == 0)%Q).
Proof.
  intros r n m _ Hnm.
  repeat split;
    try (apply calc_cost_pointwise;
         unfold tok_uncached, tok_cache_read, tok_output, tok_cache_5m,
           tok_cache_1h, cc_or_empty; simpl; lia || reflexivity).
  intros Hu Hr H5 H1 Ho. rewrite calc_cost_formula. unfold cost_formula.
  rewrite Hu, Hr, H5, H1, Ho. cbv zeta.
  destruct (_get_pricing _) as [[[a b] c] d]. simpl. field.
Qed.

Lemma calc_cost_monotone_zero_witness :
  (_calc_cost (with_output sonnet_record 10)
   <= _calc_cost (with_output sonnet_record 2000))%Q.
Proof.
  apply (calc_cost_monotone_zero sonnet_record 10 2000); lia.
Defined.

(** ** De-duplication *)

Lemma dedup_loop_from l : forall seen acc,
  dedup_loop l seen acc = acc ++ dedup_from seen l.
Proof.
  induction l as [|pr rest IH]; intros seen acc; simpl.
  - now rewrite app_nil_r.
  - destruct (negb _); rewrite IH; [|reflexivity].
    now rewrite <- app_assoc.
Qed.

Lemma dedup_prs_from l : dedup_prs l = dedup_from [] l.
Proof. unfold dedup_prs. now rewrite dedup_loop_from. Qed.

Lemma seen_mem_iff pid seen : seen_mem pid seen = true <-> In pid seen.
Proof.
  unfold seen_mem. rewrite existsb_exists. split.
  - intros (x & Hx & E). apply Z.eqb_eq in E. now subst.
  - intros H. exists pid. split; [exact H | apply Z.eqb_refl].
Qed.

Lemma dedup_from_in seen l pr :
  In pr (dedup_from seen l) -> In pr l /\ ~ In (pullRequestId pr) seen.
Proof.
  revert seen. induction l as [|x rest IH]; intros seen; simpl; [tauto|].
  destruct (seen_mem _ seen) eqn:E; simpl.
  - intros H. apply IH in H as [H1 H2]. auto.
  - intros [<- | H].
    + split; [now left|]. rewrite <- seen_mem_iff. congruence.
    + apply IH in H as [H1 H2]. split; [now right|].
      intros H3. apply H2. now right.
Qed.

Lemma dedup_from_nodup seen l :
  NoDup (map pullRequestId (dedup_from seen l)).
Proof.
  revert seen. induction l as [|x rest IH]; intros seen; simpl.
  - constructor.
  - destruct (seen_mem _ seen); simpl; [apply IH|].
    constructor; [|apply IH].
    rewrite in_map_iff. intros (y & Ey & Hy).
    apply dedup_from_in in Hy as [_ Hy]. apply Hy. rewrite Ey. now left.
Qed.

Lemma dedup_from_ids seen l pid :
  In pid (map pullRequestId (dedup_from seen l))
  <-> In pid (map pullRequestId l) /\ ~ In pid seen.
Proof.
  split.
  - rewrite !in_map_iff. intros (y & <- & Hy).
    apply dedup_from_in in Hy as [H1 H2]. split; [eauto | exact H2].
  - revert seen. induction l as [|x rest IH]; intros seen; simpl; [tauto|].
    intros [[E | H] Hs].
    + destruct (seen_mem _ seen) eqn:Em; simpl.
      * apply seen_mem_iff in Em. congruence.
      * now left.
    + destruct (seen_mem _ seen) eqn:Em; simpl.
      * now apply IH.
      * destruct (Z.eq_dec (pullRequestId x) pid) as [E | N];
          [now left | right].
        apply IH. split; [exact H|]. intros [E | H']; auto.
Qed.

Lemma dedup_from_first seen l pr :
  In pr (dedup_from seen l) -> first_seen l (pullRequestId pr) = Some pr.
Proof.
  unfold first_seen.
  revert seen. induction l as [|x rest IH]; intros seen; simpl; [tauto|].
  destruct (seen_mem _ seen) eqn:E; simpl.
  - intros H. pose proof (dedup_from_in _ _ _ H) as [_ Hn].
    destruct (Z.eqb_spec (pullRequestId x) (pullRequestId pr)) as [Ex|_].
    + apply seen_mem_iff in E. congruence.
    + eapply IH, H.
  - intros [<- | H]; [now rewrite Z.eqb_refl|].
    pose proof (dedup_from_in _ _ _ H) as [_ Hn].
    destruct (Z.eqb_spec (pullRequestId x) (pullRequestId pr)) as [Ex|_].
    + exfalso. apply Hn. now left.
    + eapply IH, H.
Qed.

Lemma dedup_from_fixed seen l :
  NoDup (map pullRequestId l) ->
  (forall pr, In pr l -> ~ In (pullRequestId pr) seen) ->
  dedup_from seen l = l.
Proof.
  revert seen. induction l as [|x rest IH]; intros seen Hnd Hs; simpl;
    [reflexivity|].
  destruct (seen_mem _ seen) eqn:E.
  - apply seen_mem_iff in E. exfalso. apply (Hs x); [now left | exact E].
  - simpl. f_equal. inversion Hnd as [|? ? Hx Hrest]; subst.
    apply IH; [exact Hrest|].
    intros pr Hpr [Eq | Hin].
    + apply Hx. rewrite Eq. now apply in_map.
    + apply (Hs pr); [now right | exact Hin].
Qed.

Section StableSortFacts.

Context {A : Type} (before : A -> A -> bool).

Lemma insert_stable_perm x l :
  Permutation (insert_stable before x l) (x :: l).
Proof.
  induction l as [|y ys IH]; simpl; [reflexivity|].
  destruct (before y x); [|reflexivity].
  rewrite IH. apply perm_swap.
Qed.

Lemma sort_stable_perm l : Permutation (sort_stable before l) l.
Proof.
  induction l as [|x xs IH]; simpl; [reflexivity|].
  rewrite insert_stable_perm. now constructor.
Qed.

End StableSortFacts.

(** A PR returned by the "active" query and, abandoned meanwhile, again by
    the "abandoned" query: the earlier record is the one kept. *)
Lemma dedup_keeps_last_fails :
  ~ dedup_keeps_last [pr7_active; pr7_abandoned].
Proof.
  intros [_ H]. specialize (H pr7_active (or_introl eq_refl)).
  vm_compute in H. discriminate.
Qed.

(** C2 (amended).  Whatever the fetched sequence, the de-duplicated
    sequence holds exactly one record per PR identifier of the input, and
    for each identifier the record kept is the first one seen; running the
    de-duplication again changes nothing, and the sort that follows keeps
    one record per identifier. *)
Theorem dedup_prs_first_wins :
  forall all_prs,
    NoDup (map pullRequestId (dedup_prs all_prs))
    /\ (forall pid, In pid (map pullRequestId (dedup_prs all_prs))
                    <-> In pid (map pullRequestId all_prs))
    /\ (forall pr, In pr (dedup_prs all_prs) ->
                   first_seen all_prs (pullRequestId pr) = Some pr)
    /\ dedup_prs (dedup_prs all_prs) = dedup_prs all_prs
    /\ NoDup (map pullRequestId (unique_sorted_prs all_prs))
    /\ Permutation (unique_sorted_prs all_prs) (dedup_prs all_prs).
Proof.
  intros all_prs.
  assert (Hnd : NoDup (map pullRequestId (dedup_prs all_prs)))
    by (rewrite dedup_prs_from; apply dedup_from_nodup).
  assert (Hperm : Permutation (unique_sorted_prs all_prs)
                              (dedup_prs all_prs))
    by apply sort_stable_perm.
  repeat split; try assumption.
  - rewrite dedup_prs_from, dedup_from_ids. tauto.
  - rewrite dedup_prs_from, dedup_from_ids. intros H. split; [exact H|].
    intros [].
  - intros pr. rewrite dedup_prs_from. apply dedup_from_first.
  - rewrite (dedup_prs_from (dedup_prs all_prs)).
    apply dedup_from_fixed; [exact Hnd | intros pr _ []].
  - eapply Permutation_NoDup; [|exact Hnd].
    apply Permutation_map. symmetry. exact Hperm.
Qed.

(** ** The per-person roll-up *)

(** *** Dictionaries *)

Section DictFacts.

Context {V : Type}.

Lemma get_set (d : Dict.dict V) k v k' :
  Dict.get (Dict.set d k v) k' =
    if String.eqb k k' then Some v else Dict.get d k'.
Proof.
  induction d as [|[k0 v0] rest IH]; simpl.
  - reflexivity.
  - destruct (String.eqb_spec k0 k) as [->|Hk]; simpl.
    + destruct (String.eqb k k'); reflexivity.
    + rewrite IH. destruct (String.eqb_spec k0 k') as [->|Hk'];
        [|reflexivity].
      destruct (String.eqb_spec k k'); [congruence | reflexivity].
Qed.

Lemma keys_set (d : Dict.dict V) k v k' :
  In k' (Dict.keys (Dict.set d k v)) <-> k' = k \/ In k' (Dict.keys d).
Proof.
  unfold Dict.keys. induction d as [|[k0 v0] rest IH]; simpl.
  - intuition congruence.
  - destruct (String.eqb_spec k0 k) as [->|Hk]; simpl.
    + intuition congruence.
    + rewrite IH. intuition congruence.
Qed.

Lemma mem_keys (d : Dict.dict V) k :
  In k (Dict.keys d) -> Dict.mem d k = true.
Proof.
  unfold Dict.mem, Dict.keys. induction d as [|[k0 v0] rest IH]; simpl;
    [tauto|].
  destruct (String.eqb_spec k0 k); [reflexivity|].
  intros [E | H]; [congruence | now apply IH].
Qed.

End DictFacts.

Lemma get_or_set {V} (d : Dict.dict V) k v k' dflt :
  Dict.get_or (Dict.set d k v) k' dflt
  = if String.eqb k k' then v else Dict.get_or d k' dflt.
Proof.
  unfold Dict.get_or. rewrite get_set. now destruct (String.eqb k k').
Qed.

(** *** Sums of rationals *)

Lemma fold_Qplus_acc (l : list Q) (a : Q) :
  (fold_left Qplus l a == a + fold_left Qplus l 0)%Q.
Proof.
  revert a. induction l as [|x xs IH]; intros a; simpl.
  - ring.
  - rewrite (IH (a + x)%Q), (IH (0 + x)%Q). ring.
Qed.

Lemma sumQ_cons (x : Q) (l : list Q) : (sumQ (x :: l) == x + sumQ l)%Q.
Proof.
  unfold sumQ. simpl. rewrite fold_Qplus_acc. ring.
Qed.

Lemma sumQ_nil : sumQ [] = 0%Q.
Proof. reflexivity. Qed.

Lemma sumQ_perm (l l' : list Q) :
  Permutation l l' -> (sumQ l == sumQ l')%Q.
Proof.
  induction 1 as [|x l l' _ IH|x y l|l l' l'' _ IH1 _ IH2].
  - reflexivity.
  - now rewrite !sumQ_cons, IH.
  - rewrite !sumQ_cons. ring.
  - now rewrite IH1.
Qed.

Lemma fold_invariant {A B} (P : A -> Prop) (f : A -> B -> A) (l : list B) :
  (forall a b, P a -> P (f a b)) ->
  forall a, P a -> P (fold_left f l a).
Proof.
  intros Hf. induction l as [|b bs IH]; intros a Ha; simpl; auto.
Qed.

(** *** Divisions *)

Lemma py_div_nonzero (x y : Q) :
  ~ (y == 0)%Q -> py_div x y = Ok (x / y)%Q.
Proof.
  intros H. unfold py_div. destruct (Qeq_bool y 0) eqn:E; [|reflexivity].
  apply Qeq_bool_iff in E. contradiction.
Qed.

Lemma Qltb_lt (a b : Q) : Qltb a b = true <-> (a < b)%Q.
Proof.
  unfold Qltb. rewrite negb_true_iff. split.
  - intros H. apply Qnot_le_lt. rewrite <- Qle_bool_iff. congruence.
  - intros H. destruct (Qle_bool b a) eqn:E; [|reflexivity].
    apply Qle_bool_iff in E. exfalso. now apply (Qlt_not_le a b).
Qed.

Lemma max1_nonzero (n : Z) : ~ (inject_Z (Z.max 1 n) == 0)%Q.
Proof.
  unfold Qeq. simpl. lia.
Qed.

Lemma Qdiv_one (x : Q) : (x / inject_Z 1 == x)%Q.
Proof. change (inject_Z 1) with 1%Q. field. Qed.

Lemma summarise_ok people pdata prdata gt initials :
  exists row,
    summarise people pdata prdata gt initials = Ok row
    /\ ps_initials row = initials
    /\ row_spec gt row.
Proof.
  unfold summarise. cbv zeta.
  rewrite (py_div_nonzero _ _ (max1_nonzero _)).
  destruct (Qltb 0 gt) eqn:E.
  - rewrite py_div_nonzero.
    + simpl. eexists. split; [reflexivity|]. split; [reflexivity|].
      unfold row_spec. simpl. rewrite E. split; reflexivity.
    + apply Qltb_lt in E. intros H. rewrite H in E.
      now apply (Qlt_irrefl 0).
  - simpl. eexists. split; [reflexivity|]. split; [reflexivity|].
    unfold row_spec. simpl. rewrite E. split; reflexivity.
Qed.

Lemma mapM_ok {A B} (f : A -> result B) (P : A -> B -> Prop) (l : list A) :
  (forall x, exists y, f x = Ok y /\ P x y) ->
  exists ys, mapM f l = Ok ys /\ Forall2 P l ys.
Proof.
  intros Hf. induction l as [|x xs (ys & E & HF)]; simpl.
  - exists []. split; [reflexivity | constructor].
  - destruct (Hf x) as (y & Ey & Py). rewrite Ey, E. simpl.
    exists (y :: ys). split; [reflexivity | now constructor].
Qed.

Lemma Forall2_in_r {A B} (P : A -> B -> Prop) l ys y :
  Forall2 P l ys -> In y ys -> exists x, In x l /\ P x y.
Proof.
  induction 1 as [|a b l ys Hab _ IH]; simpl; [tauto|].
  intros [<- | H].
  - exists a. auto.
  - destruct (IH H) as (x & Hx & Px). exists x. auto.
Qed.

(** *** Who gets a row *)

Lemma person_arrays_keys dates pd prd people k :
  In k (Dict.keys (fst (person_arrays dates pd prd people))) ->
  In k (Dict.keys (people_items people)).
Proof.
  unfold person_arrays. destruct (truthy people); [|simpl; tauto].
  assert (Hsub : forall k', In k' (map fst (sorted_items people)) ->
                            In k' (Dict.keys (people_items people))).
  { intros k' H. unfold Dict.keys.
    eapply Permutation_in; [|exact H].
    apply Permutation_map. apply sort_stable_perm. }
  revert Hsub. generalize (sorted_items people) as items.
  intros items Hsub.
  assert (Hgen : forall acc : Dict.dict (list Q) * Dict.dict (list Z),
    (forall k', In k' (Dict.keys (fst acc)) ->
                In k' (Dict.keys (people_items people))) ->
    In k (Dict.keys (fst (fold_left
      (fun acc item =>
         let initials := fst item in
         let cost_arr :=
           map (fun d =>
                  round2 (Dict.get_or (Dict.get_or pd initials []) d 0%Q))
               dates in
         let pr_arr :=
           map (fun d => Dict.get_or (Dict.get_or prd initials []) d 0)
               dates in
         if Qltb 0 (sumQ cost_arr) || (0 <? sumZ pr_arr)
         then (Dict.set (fst acc) initials cost_arr,
               Dict.set (snd acc) initials pr_arr)
         else acc) items acc))) ->
    In k (Dict.keys (people_items people))).
  { induction items as [|item rest IH]; intros acc Hacc; simpl.
    - apply Hacc.
    - apply IH.
      + intros k' Hk'. apply Hsub. now right.
      + destruct (_ || _); [|exact Hacc].
        simpl. intros k' Hk'. apply keys_set in Hk' as [-> | Hk'].
        * apply Hsub. now left.
        * now apply Hacc. }
  apply Hgen. simpl. tauto.
Qed.

(** *** The chart as a whole *)

Lemma build_consumption_chart_ok today prs_data bucket buckets days people :
  exists ch,
    build_consumption_chart today prs_data (bucket :: buckets) days people
    = Ok (Some ch)
    /\ Forall (row_spec (grand_total ch)) (person_summaries ch)
    /\ (forall row, In row (person_summaries ch) ->
                    In (ps_initials row) (Dict.keys (people_items people)))
    /\ prs_created ch = Z.of_nat (List.length prs_data)
    /\ (overall_cost_per_pr ch
        == grand_total ch / inject_Z (Z.max 1 (prs_created ch)))%Q.
Proof.
  unfold build_consumption_chart. cbv zeta.
  destruct (accumulate_usage _ _) as [person_daily all_daily].
  destruct (accumulate_prs _ _) as [pr_daily_person pr_daily_all].
  pose proof (person_arrays_keys (chart_dates today days) person_daily
                pr_daily_person people) as Hkeys.
  destruct (person_arrays _ _ _ _) as [pdata prdata]. simpl in Hkeys.
  set (gt := sumQ _).
  destruct (mapM_ok (summarise people pdata prdata gt)
              (fun initials row => ps_initials row = initials
                                   /\ row_spec gt row)
              (sort_stable String.ltb (Dict.keys pdata))
              (summarise_ok people pdata prdata gt))
    as (rows & Erows & HF).
  rewrite Erows. simpl bind.
  rewrite (py_div_nonzero _ _ (max1_nonzero _)). simpl bind.
  eexists. split; [reflexivity|]. simpl.
  assert (Hperm : forall row,
             In row (sort_stable (fun y x => Qltb (ps_cost x) (ps_cost y))
                                 rows) -> In row rows).
  { intros row. apply Permutation_in, sort_stable_perm. }
  split; [|split; [|split]].
  - apply Forall_forall. intros row Hrow.
    destruct (Forall2_in_r _ _ _ _ HF (Hperm _ Hrow)) as (x & _ & _ & Hs).
    exact Hs.
  - intros row Hrow.
    destruct (Forall2_in_r _ _ _ _ HF (Hperm _ Hrow)) as (x & Hx & Hi & _).
    apply Hkeys. rewrite Hi.
    eapply Permutation_in; [apply sort_stable_perm | exact Hx].
  - reflexivity.
  - reflexivity.
Qed.

Lemma demo_chart_rows :
  chart_satisfies
    (fun ch =>
       map (fun row => (ps_initials row, ps_prs row))
           (person_summaries ch) = [("ab", 0)]
       /\ (sumQ (map ps_pct (person_summaries ch)) == 25)%Q
       /\ (sumQ (map ps_cost_per_pr (person_summaries ch)) == 3)%Q
       /\ (grand_total ch == 12)%Q
       /\ prs_created ch = 0
       /\ (overall_cost_per_pr ch == 12)%Q)
    demo_today [] [demo_bucket] 2 demo_people.
Proof.
  vm_compute. repeat split.
Qed.

(** With usage on a key that no person owns, the only row is that of "ab"
    and its share is 25%: the 75% bucketed under "_other" are not listed. *)
Lemma percentages_sum_to_100_fails :
  ~ chart_satisfies percentages_sum_to_100
      demo_today [] [demo_bucket] 2 demo_people.
Proof.
  destruct (build_consumption_chart_ok demo_today [] demo_bucket [] 2
              demo_people) as (ch & E & _).
  pose proof demo_chart_rows as H. unfold chart_satisfies in *.
  rewrite E in *.
  destruct H as (_ & Hsum & _). unfold percentages_sum_to_100.
  rewrite Hsum. intros H. apply Qle_bool_iff in H. discriminate.
Qed.

(** The same batch has no PR at all: the cost per PR of "ab" is the whole
    cost of "ab", and the overall cost per PR is the grand total. *)
Lemma zero_denominator_reports_zero_fails :
  ~ chart_satisfies zero_denominator_reports_zero
      demo_today [] [demo_bucket] 2 demo_people.
Proof.
  destruct (build_consumption_chart_ok demo_today [] demo_bucket [] 2
              demo_people) as (ch & E & _).
  pose proof demo_chart_rows as H. unfold chart_satisfies in *.
  rewrite E in *.
  destruct H as (_ & _ & _ & _ & Hn & Hall). intros [_ Hz].
  rewrite (Hz Hn) in Hall. discriminate.
Qed.

(** *** Where the usage goes *)

Section LedgerFacts.

Variable A : numbers.

Lemma add_up_app (x : num A) (l l' : list usage_result) :
  add_up A x (l ++ l') = add_up A (add_up A x l) l'.
Proof. unfold add_up. apply fold_left_app. Qed.

Lemma cell_add_cost2 (pd : Dict.dict (Dict.dict (num A))) p k x p' d :
  cell A (add_cost2 A pd p k x) p' d
  = if String.eqb p p' && String.eqb k d
    then num_add A (cell A pd p' d) x
    else cell A pd p' d.
Proof.
  unfold cell, add_cost2, add_cost. rewrite get_or_set.
  destruct (String.eqb_spec p p') as [->|_]; [|reflexivity].
  rewrite get_or_set. cbn [andb].
  now destruct (String.eqb_spec k d) as [->|_].
Qed.

Lemma usage_step_cells k2p date_str acc r :
  let acc' := usage_step A k2p date_str acc r in
  (forall p d,
      cell A (fst acc') p d
      = add_up A (cell A (fst acc) p d)
          (filter (fun r => String.eqb (person_of k2p r) p)
             (if String.eqb date_str d
              then filter (fun r => negb (num_skips A (num_cost A r))) [r]
              else [])))
  /\ (forall d,
         Dict.get_or (snd acc') d (num_zero A)
         = add_up A (Dict.get_or (snd acc) d (num_zero A))
             (if String.eqb date_str d
              then filter (fun r => negb (num_skips A (num_cost A r))) [r]
              else []))
  /\ (forall d, In d (Dict.keys (snd acc'))
                <-> In d (Dict.keys (snd acc))
                    \/ (d = date_str
                        /\ num_skips A (num_cost A r) = false)).
Proof.
  destruct acc as [pd ad]. unfold usage_step. cbv zeta. cbn [filter].
  destruct (num_skips A (num_cost A r)) eqn:Es; cbn [negb fst snd].
  - split; [|split].
    + intros p d. now destruct (String.eqb date_str d).
    + intros d. now destruct (String.eqb date_str d).
    + intros d. split; [tauto|]. intros [H | [_ H]]; [exact H|discriminate].
  - change (Dict.get_or k2p (field_or (api_key_id r) "") "_other")
      with (person_of k2p r).
    split; [|split].
    + intros p d. rewrite cell_add_cost2.
      destruct (String.eqb_spec date_str d) as [->|_]; cbn [filter].
      * rewrite andb_true_r.
        now destruct (String.eqb (person_of k2p r) p).
      * now rewrite andb_false_r.
    + intros d. unfold add_cost. rewrite get_or_set.
      now destruct (String.eqb_spec date_str d) as [->|_].
    + intros d. unfold add_cost. rewrite keys_set. intuition congruence.
Qed.

Lemma usage_steps_cells k2p date_str rs : forall acc,
  let acc' := fold_left (usage_step A k2p date_str) rs acc in
  (forall p d,
      cell A (fst acc') p d
      = add_up A (cell A (fst acc) p d)
          (filter (fun r => String.eqb (person_of k2p r) p)
             (if String.eqb date_str d
              then filter (fun r => negb (num_skips A (num_cost A r))) rs
              else [])))
  /\ (forall d,
         Dict.get_or (snd acc') d (num_zero A)
         = add_up A (Dict.get_or (snd acc) d (num_zero A))
             (if String.eqb date_str d
              then filter (fun r => negb (num_skips A (num_cost A r))) rs
              else []))
  /\ (forall d, In d (Dict.keys (snd acc'))
                <-> In d (Dict.keys (snd acc))
                    \/ (d = date_str
                        /\ filter (fun r => negb (num_skips A (num_cost A r)))
                                  rs <> [])).
Proof.
  induction rs as [|r rs IH]; intros acc; cbv zeta; cbn [fold_left].
  - split; [|split].
    + intros p d. now destruct (String.eqb date_str d).
    + intros d. now destruct (String.eqb date_str d).
    + intros d. cbn [filter]. intuition congruence.
  - destruct (IH (usage_step A k2p date_str acc r)) as (H1 & H2 & H3).
    destruct (usage_step_cells k2p date_str acc r) as (S1 & S2 & S3).
    split; [|split].
    + intros p d. rewrite H1, S1.
      destruct (String.eqb date_str d); [|reflexivity].
      change (r :: rs) with ([r] ++ rs).
      now rewrite !filter_app, add_up_app.
    + intros d. rewrite H2, S2.
      destruct (String.eqb date_str d); [|reflexivity].
      change (r :: rs) with ([r] ++ rs).
      now rewrite !filter_app, add_up_app.
    + intros d. rewrite H3, S3. cbn [filter].
      destruct (num_skips A (num_cost A r)); cbn [negb];
        intuition (congruence || discriminate).
Qed.

Lemma accumulate_usage_cells k2p buckets : forall acc,
  let acc' := fold_left (bucket_step A k2p) buckets acc in
  (forall p d,
      cell A (fst acc') p d
      = add_up A (cell A (fst acc) p d)
          (filter (fun r => String.eqb (person_of k2p r) p)
                  (billable_on A d buckets)))
  /\ (forall d,
         Dict.get_or (snd acc') d (num_zero A)
         = add_up A (Dict.get_or (snd acc) d (num_zero A))
                  (billable_on A d buckets))
  /\ (forall d, In d (Dict.keys (snd acc'))
                <-> In d (Dict.keys (snd acc))
                    \/ billable_on A d buckets <> []).
Proof.
  induction buckets as [|b bs IH]; intros acc; cbv zeta;
    cbn [fold_left billable_on flat_map].
  - split; [|split]; try reflexivity. intros d. intuition congruence.
  - destruct (IH (bucket_step A k2p acc b)) as (H1 & H2 & H3).
    destruct (usage_steps_cells k2p
                (slice10 (field_or (starting_at b) ""))
                (field_or (results b) []) acc) as (S1 & S2 & S3).
    fold (billable_on A).
    split; [|split].
    + intros p d. unfold bucket_step in H1. rewrite H1, S1.
      now rewrite filter_app, add_up_app.
    + intros d. unfold bucket_step in H2. rewrite H2, S2.
      now rewrite add_up_app.
    + intros d. unfold bucket_step in H3. rewrite H3, S3.
      destruct (String.eqb_spec (slice10 (field_or (starting_at b) "")) d)
        as [E|E].
      * split.
        -- intros [[H | [_ H]] | H].
           ++ now left.
           ++ right. intros Happ. apply app_eq_nil in Happ as [Hn _].
              contradiction.
           ++ right. intros Happ. apply app_eq_nil in Happ as [_ Hn].
              contradiction.
        -- intros [H | H]; [now left; left|].
           destruct (filter _ (field_or (results b) [])) eqn:Ef.
           ++ right. exact H.
           ++ left. right. split; [now symmetry | discriminate].
      * cbn [app]. split.
        -- intros [[H | [H _]] | H]; [now left | congruence | now right].
        -- intros [H | H]; [now left; left | now right].
Qed.

End LedgerFacts.

(** C1 (amended).  Whatever the number type the costs are added up in
    (binary64 in Python): the cost that [person_daily] holds for a person
    and a day is the sum, from left to right, of the costs of that day's
    records that are not skipped (cost above zero) and whose key id is
    mapped to that person; a record whose key id is mapped to nobody goes
    to the sentinel "_other".  The rows of the per-user breakdown are
    persons of the people mapping: what is put under the sentinel has no
    row unless the mapping has a person of that name. *)
Theorem usage_attribution_reconciles :
  (forall (A : numbers) key_to_person usage_buckets person d,
      cell A (fst (accumulate_usage A key_to_person usage_buckets)) person d
      = add_up A (num_zero A)
          (filter (fun r => String.eqb (person_of key_to_person r) person)
                  (billable_on A d usage_buckets)))
  /\ (forall key_to_person r,
        Dict.get key_to_person (field_or (api_key_id r) "") = None ->
        person_of key_to_person r = "_other")
  /\ (forall key_to_person r person,
        Dict.get key_to_person (field_or (api_key_id r) "") = Some person ->
        person_of key_to_person r = person)
  /\ (forall today prs_data usage_buckets days people ch,
        build_consumption_chart today prs_data usage_buckets days people
        = Ok (Some ch) ->
        forall row, In row (person_summaries ch) ->
                    Dict.mem (people_items people) (ps_initials row) = true).
Proof.
  split; [|split; [|split]].
  - intros A k2p buckets person d. unfold accumulate_usage.
    destruct (accumulate_usage_cells A k2p buckets ([], [])) as (H & _).
    apply H.
  - intros k2p r H. unfold person_of, Dict.get_or. now rewrite H.
  - intros k2p r person H. unfold person_of, Dict.get_or. now rewrite H.
  - intros today prs_data usage_buckets days people ch E.
    destruct usage_buckets as [|b bs]; [discriminate|].
    destruct (build_consumption_chart_ok today prs_data b bs days people)
      as (ch' & E' & _ & Hk & _).
    rewrite E in E'. injection E' as <-.
    intros row Hrow. apply mem_keys, Hk, Hrow.
Qed.

(** Three million tokens on a key that nobody owns: nine dollars under
    "_other", on binary64 floats. *)
Lemma usage_attribution_reconciles_witness :
  cell Binary64.binary64
       (fst (accumulate_usage Binary64.binary64
               (build_key_to_person demo_people) [demo_bucket]))
       "_other" "2026-02-03"
  = Binary64.float_of_int 9
  /\ person_of (build_key_to_person demo_people)
               (usage_of "claude-sonnet-4-x" "k2" 3000000) = "_other".
Proof.
  destruct usage_attribution_reconciles as (H1 & H2 & _).
  split.
  - rewrite H1. reflexivity.
  - apply H2. reflexivity.
Defined.

(** C3 (amended).  Building the chart never divides by zero, whatever the
    batch.  A person's cost share is cost / grand total * 100 when the
    grand total is positive and 0 otherwise.  The cost per PR, per person
    and overall, divides by [max(1, PR count)]: with no PR it is the cost
    itself, not 0. *)
Theorem ratios_never_divide_by_zero :
  forall today prs_data usage_buckets days people,
  exists out,
    build_consumption_chart today prs_data usage_buckets days people = Ok out
    /\ forall ch, out = Some ch ->
         (forall row, In row (person_summaries ch) ->
            ((0 < grand_total ch)%Q ->
             (ps_pct row == ps_cost row / grand_total ch * 100)%Q)
            /\ (~ (0 < grand_total ch)%Q -> (ps_pct row == 0)%Q)
            /\ (ps_cost_per_pr row
                == ps_cost row / inject_Z (Z.max 1 (ps_prs row)))%Q
            /\ (ps_prs row <= 0 -> (ps_cost_per_pr row == ps_cost row)%Q))
         /\ (overall_cost_per_pr ch
             == grand_total ch / inject_Z (Z.max 1 (prs_created ch)))%Q
         /\ (prs_data = [] ->
             (overall_cost_per_pr ch == grand_total ch)%Q).
Proof.
  intros today prs_data [|b bs] days people.
  - exists None. split; [reflexivity | discriminate].
  - destruct (build_consumption_chart_ok today prs_data b bs days people)
      as (ch & E & HF & _ & Hn & Ho).
    exists (Some ch). split; [exact E|].
    intros ch' Hch. injection Hch as <-. split; [|split].
    + intros row Hrow. rewrite Forall_forall in HF.
      destruct (HF row Hrow) as [Hp Hc]. repeat split.
      * intros Hgt. apply Qltb_lt in Hgt. now rewrite Hp, Hgt.
      * intros Hgt. rewrite Hp. destruct (Qltb 0 _) eqn:Eb; [|reflexivity].
        apply Qltb_lt in Eb. contradiction.
      * exact Hc.
      * intros Hz. rewrite Hc. replace (Z.max 1 (ps_prs row)) with 1 by lia.
        apply Qdiv_one.
    + exact Ho.
    + intros ->. rewrite Ho, Hn. apply Qdiv_one.
Qed.

Lemma ratios_never_divide_by_zero_witness :
  exists out,
    build_consumption_chart demo_today [] [demo_bucket] 2 demo_people
    = Ok out.
Proof.
  destruct (ratios_never_divide_by_zero demo_today [] [demo_bucket] 2
              demo_people) as (out & E & _).
  exists out. exact E.
Defined.

(** ** The time report *)

Import Calendar.
Import TimeReport.

(** *** The day loop *)

Lemma days_loop_spec (fuel : nat) (d end_d : date) :
  (Z.to_nat (end_d - d + 1) <= fuel)%nat ->
  days_loop fuel d end_d =
    map (fun i => d + Z.of_nat i) (seq 0 (Z.to_nat (end_d - d + 1))).
Proof.
  revert d. induction fuel as [|fuel IH]; intros d Hfuel.
  - replace (Z.to_nat (end_d - d + 1)) with 0%nat by lia. reflexivity.
  - simpl. unfold add_days. destruct (Z.leb_spec d end_d) as [Hle|Hgt].
    + rewrite IH by lia.
      replace (Z.to_nat (end_d - d + 1))
        with (S (Z.to_nat (end_d - (d + 1) + 1))) by lia.
      simpl. f_equal; [lia|].
      rewrite <- seq_shift, map_map. apply map_ext. intros i. lia.
    + replace (Z.to_nat (end_d - d + 1)) with 0%nat by lia. reflexivity.
Qed.

(** The loop stops on its condition: fuel beyond the number of days of
    the range is never used. *)
Lemma days_loop_fuel (fuel : nat) (d end_d : date) :
  (Z.to_nat (end_d - d + 1) <= fuel)%nat ->
  days_loop fuel d end_d = day_range d end_d.
Proof.
  intros H. unfold day_range. rewrite !days_loop_spec by lia. reflexivity.
Qed.

Lemma day_range_spec (d end_d : date) :
  day_range d end_d =
    map (fun i => d + Z.of_nat i) (seq 0 (Z.to_nat (end_d - d + 1))).
Proof. unfold day_range. now apply days_loop_spec. Qed.

Lemma day_range_empty (d end_d : date) : end_d < d -> day_range d end_d = [].
Proof.
  intros H. rewrite day_range_spec.
  replace (Z.to_nat (end_d - d + 1)) with 0%nat by lia. reflexivity.
Qed.

Lemma text_loop_done (fuel : nat) daily (d end_d : date) :
  (d <= end_d -> 0 <= d /\ end_d < max_ordinal) ->
  (Z.to_nat (end_d - d + 1) < fuel)%nat ->
  text_loop fuel daily d end_d
  = Done (map (fun x => (x, format_day daily x)) (day_range d end_d)).
Proof.
  unfold max_ordinal.
  revert d. induction fuel as [|fuel IH]; intros d Hv Hfuel; [lia|].
  cbn [text_loop]. destruct (Z.leb_spec d end_d) as [Hle|Hgt].
  - destruct (Hv Hle) as [H0 Hmax]. unfold add_days_checked, max_ordinal. cbv zeta.
    replace ((1 <=? d + 1) && (d + 1 <=? 3652059)) with true
      by (symmetry; apply andb_true_intro; split; apply Z.leb_le; lia).
    rewrite IH by lia.
    rewrite !day_range_spec.
    replace (Z.to_nat (end_d - d + 1))
      with (S (Z.to_nat (end_d - (d + 1) + 1))) by lia.
    cbn [seq map]. rewrite <- seq_shift, !map_map.
    rewrite Z.add_0_r. do 2 f_equal.
    apply map_ext. intros i.
    replace (d + 1 + Z.of_nat i) with (d + Z.of_nat (S i)) by lia.
    reflexivity.
  - now rewrite day_range_empty by lia.
Qed.

Lemma text_loop_overflow (fuel : nat) daily (d end_d : date) :
  0 <= d <= max_ordinal -> max_ordinal <= end_d ->
  (Z.to_nat (max_ordinal - d) < fuel)%nat ->
  text_loop fuel daily d end_d = Raised OverflowError.
Proof.
  unfold max_ordinal.
  revert d. induction fuel as [|fuel IH]; intros d Hd Hend Hfuel; [lia|].
  cbn [text_loop]. destruct (Z.leb_spec d end_d) as [Hle|Hgt]; [|lia].
  unfold add_days_checked, max_ordinal. cbv zeta.
  destruct (Z.eq_dec d 3652059) as [->|Hne].
  - reflexivity.
  - replace ((1 <=? d + 1) && (d + 1 <=? 3652059)) with true
      by (symmetry; apply andb_true_intro; split; apply Z.leb_le; lia).
    now rewrite IH by lia.
Qed.

Lemma day_blocks_done daily start finish :
  (dt_date start <= dt_date finish ->
   0 <= dt_date start /\ dt_date finish < max_ordinal) ->
  day_blocks daily start finish
  = Done (map (fun x => (x, format_day daily x))
              (day_range (dt_date start) (dt_date finish))).
Proof.
  intros H. unfold day_blocks. cbv zeta. apply text_loop_done; [exact H|lia].
Qed.

Lemma day_blocks_axis daily start finish :
  map fst (map (fun x => (x, format_day daily x))
               (day_range (dt_date start) (dt_date finish)))
  = day_range (dt_date start) (dt_date finish).
Proof. rewrite map_map. cbn [fst]. apply map_id. Qed.

Lemma day_range_length (d end_d : date) :
  d <= end_d ->
  List.length (day_range d end_d) = Z.to_nat (days_between d end_d + 1).
Proof.
  intros _. rewrite day_range_spec, length_map, length_seq.
  unfold days_between. reflexivity.
Qed.

Lemma day_range_nth (d end_d : date) (i : nat) :
  (i < List.length (day_range d end_d))%nat ->
  nth i (day_range d end_d) 0 = add_days d (Z.of_nat i).
Proof.
  rewrite day_range_spec, length_map, length_seq. intros Hi.
  rewrite (nth_indep _ 0 (d + Z.of_nat 0)) by now rewrite length_map, length_seq.
  rewrite (map_nth (fun i => d + Z.of_nat i)), seq_nth by exact Hi.
  reflexivity.
Qed.

Lemma day_range_in (d end_d x : date) :
  In x (day_range d end_d) <-> d <= x <= end_d.
Proof.
  rewrite day_range_spec, in_map_iff. split.
  - intros (i & <- & Hi). apply in_seq in Hi. lia.
  - intros Hx. exists (Z.to_nat (x - d)). split; [lia|].
    apply in_seq. lia.
Qed.

Lemma day_range_nodup (d end_d : date) : NoDup (day_range d end_d).
Proof.
  rewrite day_range_spec. apply Finite.Injective_map_NoDup.
  - intros i j H. lia.
  - apply seq_NoDup.
Qed.


(** *** The ranges that [main] builds *)

Lemma sub_days_fields now n start :
  sub_days now n = Some start ->
  dt_date start = dt_date now - n /\ dt_us start = dt_us now
  /\ 1 <= dt_date now - n <= max_ordinal.
Proof.
  unfold sub_days, add_days_checked. cbv zeta.
  destruct ((1 <=? dt_date now + - n) && (dt_date now + - n <=? max_ordinal))
    eqn:E; [|discriminate].
  intros H. injection H as <-. cbn.
  apply andb_prop in E as [E1 E2]. apply Z.leb_le in E1, E2.
  unfold max_ordinal in *. lia.
Qed.

(** How the range comes about. *)
Lemma date_range_cases strptime args now start finish :
  date_range strptime args now = Done (start, finish) ->
  (exists s d, given (date_opt args) = Some s /\ strptime s = Some d
               /\ start = midnight d
               /\ finish = replace_end_of_day (midnight d))
  \/ (exists s t a b,
         given (date_opt args) = None /\ given (from_date args) = Some s
         /\ given (to_date args) = Some t
         /\ strptime s = Some a /\ strptime t = Some b
         /\ start = midnight a /\ finish = replace_end_of_day (midnight b))
  \/ (exists s a,
         given (date_opt args) = None /\ given (from_date args) = Some s
         /\ given (to_date args) = None /\ strptime s = Some a
         /\ start = midnight a /\ finish = now)
  \/ (given (date_opt args) = None /\ given (from_date args) = None
      /\ sub_days now (days args) = Some start /\ finish = now).
Proof.
  unfold date_range, parse_day.
  destruct (given (date_opt args)) as [s|].
  - destruct (strptime s) as [d|] eqn:Ed; [|discriminate].
    intros H. injection H as <- <-. left. exists s, d. tauto.
  - destruct (given (from_date args)) as [s|].
    + destruct (strptime s) as [a|] eqn:Ea; [|discriminate].
      destruct (given (to_date args)) as [t|].
      * destruct (strptime t) as [b|] eqn:Eb; [|discriminate].
        intros H. injection H as <- <-. right. left.
        exists s, t, a, b. tauto.
      * intros H. injection H as <- <-. right. right. left.
        exists s, a. tauto.
    + destruct (sub_days now (days args)) as [st|] eqn:Es; [|discriminate].
      intros H. injection H as <- <-. right. right. right. tauto.
Qed.

Lemma date_range_times strptime args now start finish :
  valid_time now ->
  date_range strptime args now = Done (start, finish) ->
  0 <= dt_us start <= dt_us finish /\ dt_us finish < us_per_day.
Proof.
  unfold valid_time. intros Hnow H.
  apply date_range_cases in H
    as [(s & d & _ & _ & -> & ->)
       |[(s & t & a & b & _ & _ & _ & _ & _ & -> & ->)
        |[(s & a & _ & _ & _ & _ & -> & ->)
         |(_ & _ & Hs & ->)]]].
  - vm_compute. repeat split; discriminate.
  - vm_compute. repeat split; discriminate.
  - cbn. lia.
  - apply sub_days_fields in Hs as (_ & -> & _). lia.
Qed.

Lemma timedelta_days_dates (start finish : datetime) :
  0 <= dt_us start <= dt_us finish -> dt_us finish < us_per_day ->
  timedelta_days start finish
  = days_between (dt_date start) (dt_date finish).
Proof.
  intros H1 H2. unfold timedelta_days, instant, days_between.
  unfold us_per_day in *.
  replace (dt_date finish * 86400000000 + dt_us finish
           - (dt_date start * 86400000000 + dt_us start))
    with ((dt_us finish - dt_us start)
          + (dt_date finish - dt_date start) * 86400000000) by ring.
  rewrite Z.div_add by lia. rewrite Z.div_small by lia. lia.
Qed.

Lemma inverted_dates (start finish : datetime) :
  0 <= dt_us start <= dt_us finish ->
  dt_ltb finish start = true ->
  dt_date finish < dt_date start.
Proof.
  unfold dt_ltb, instant, us_per_day. intros H Hlt.
  apply Z.ltb_lt in Hlt. nia.
Qed.

(** *** The blocks of [main] *)

Lemma devops_block_started args w start finish p :
  exists more,
    started (devops_block args w start finish p) = started p ++ more
    /\ (forall g, In g more -> g = (DevOps, start, finish))
    /\ (no_devops args = false ->
        forall projects, devops_projects args w = Some projects ->
                         more = [(DevOps, start, finish)]).
Proof.
  unfold devops_block. destruct (no_devops args).
  - exists []. rewrite app_nil_r. split; [reflexivity|].
    split; [intros g []|discriminate].
  - destruct (devops_projects args w) as [projects|].
    + exists [(DevOps, start, finish)].
      split; [now destruct (get_devops_activity _ _ _ _)|].
      split; [intros g [<- | []]; reflexivity | reflexivity].
    + exists []. rewrite app_nil_r. split; [reflexivity|].
      split; [intros g []|]. intros _ projects H. discriminate.
Qed.

Lemma bare_block_started enabled kind call start finish p :
  match bare_block enabled kind call start finish p with
  | inl p' =>
      started p' = started p ++ (if enabled then [(kind, start, finish)]
                                 else [])
      /\ (enabled = true -> exists source, call start finish = Done source)
  | inr (started', e) =>
      enabled = true /\ call start finish = Raised e
      /\ started' = started p ++ [(kind, start, finish)]
  end.
Proof.
  unfold bare_block. destruct enabled.
  - destruct (call start finish) as [source|e]; cbn; eauto.
  - rewrite app_nil_r. split; [reflexivity | discriminate].
Qed.

(** What [main] comes to once the range is known. *)
Lemma main_started strptime args w now start finish :
  date_range strptime args now = Done (start, finish) ->
  (forall e, main strptime args w now <> Fatal e)
  /\ (forall g, In g (started_by (main strptime args w now)) ->
                snd (fst g) = start /\ snd g = finish)
  /\ (no_devops args = false ->
      forall projects, devops_projects args w = Some projects ->
        In (DevOps, start, finish) (started_by (main strptime args w now)))
  /\ (no_claude args = false ->
      In (Claude, start, finish) (started_by (main strptime args w now)))
  /\ (with_calendar args = true ->
      (no_claude args = true
       \/ exists source, claude_activity w start finish = Done source) ->
      In (Calendar365, start, finish)
         (started_by (main strptime args w now)))
  /\ (no_git args = false ->
      (no_claude args = true
       \/ exists source, claude_activity w start finish = Done source) ->
      (with_calendar args = false
       \/ exists source, calendar_activity w start finish = Done source) ->
      In (Git, start, finish) (started_by (main strptime args w now))).
Proof.
  intros Hr. unfold main. rewrite Hr.
  destruct (devops_block_started args w start finish
              {| started := []; sources := [] |}) as (m0 & E0 & H0 & D0).
  cbn [started app] in E0.
  set (p0 := devops_block args w start finish _) in *.
  pose proof (bare_block_started (negb (no_claude args)) Claude
                (claude_activity w) start finish p0) as B1.
  destruct (bare_block (negb (no_claude args)) Claude _ start finish p0)
    as [p1|[s1 e1]].
  2:{ destruct B1 as (En & Ec & ->). cbn [started_by]. rewrite E0.
      apply negb_true_iff in En.
      split; [discriminate|]. split.
      { intros g Hg. apply in_app_or in Hg as [Hg | [<- | []]];
          [rewrite (H0 g Hg)|]; now split. }
      split.
      { intros Hd projects Hp. rewrite (D0 Hd projects Hp).
        apply in_or_app. left. now left. }
      split; [intros _; apply in_or_app; right; now left|].
      split; intros _ [Hn | (src & Hs)] ; try congruence. }
  destruct B1 as (E1 & C1).
  pose proof (bare_block_started (with_calendar args) Calendar365
                (calendar_activity w) start finish p1) as B2.
  destruct (bare_block (with_calendar args) Calendar365 _ start finish p1)
    as [p2|[s2 e2]].
  2:{ destruct B2 as (En & Ec & ->). cbn [started_by]. rewrite E1, E0.
      split; [discriminate|]. split.
      { intros g Hg. apply in_app_or in Hg as [Hg | [<- | []]];
          [|now split].
        apply in_app_or in Hg as [Hg | Hg]; [rewrite (H0 g Hg); now split|].
        destruct (negb (no_claude args)); [|destruct Hg].
        destruct Hg as [<- | []]. now split. }
      split.
      { intros Hd projects Hp. rewrite (D0 Hd projects Hp).
        apply in_or_app. left. apply in_or_app. left. now left. }
      split.
      { intros Hc. rewrite Hc. apply in_or_app. left. apply in_or_app.
        right. now left. }
      split; [intros _ _; apply in_or_app; right; now left|].
      intros _ _ [Hn | (src & Hs)]; congruence. }
  destruct B2 as (E2 & C2).
  pose proof (bare_block_started (negb (no_git args)) Git
                (git_activity w) start finish p2) as B3.
  assert (Hall : forall l,
    l = started p2 ++ (if negb (no_git args) then [(Git, start, finish)]
                       else []) ->
    (forall g, In g l -> snd (fst g) = start /\ snd g = finish)
    /\ (no_devops args = false ->
        forall projects, devops_projects args w = Some projects ->
                         In (DevOps, start, finish) l)
    /\ (no_claude args = false -> In (Claude, start, finish) l)
    /\ (with_calendar args = true -> In (Calendar365, start, finish) l)
    /\ (no_git args = false -> In (Git, start, finish) l)).
  { intros l ->. rewrite E2, E1, E0. split.
    { intros g Hg. repeat (apply in_app_or in Hg as [Hg | Hg]).
      - rewrite (H0 g Hg). now split.
      - destruct (negb (no_claude args)); [|destruct Hg].
        destruct Hg as [<- | []]. now split.
      - destruct (with_calendar args); [|destruct Hg].
        destruct Hg as [<- | []]. now split.
      - destruct (negb (no_git args)); [|destruct Hg].
        destruct Hg as [<- | []]. now split. }
    split.
    { intros Hd projects Hp. rewrite (D0 Hd projects Hp).
      repeat (apply in_or_app; left). now left. }
    split.
    { intros Hc. rewrite Hc. apply in_or_app. left. apply in_or_app. left.
      apply in_or_app. right. now left. }
    split.
    { intros Hc. rewrite Hc. apply in_or_app. left. apply in_or_app. right.
      now left. }
    intros Hc. rewrite Hc. apply in_or_app. right. now left. }
  destruct (bare_block (negb (no_git args)) Git _ start finish p2)
    as [p3|[s3 e3]].
  - destruct B3 as (E3 & C3).
    destruct (Hall (started p3) E3) as (A1 & A2 & A3 & A4 & A5).
    assert (Es : started_by
                   (if json args
                    then Finished (started p3)
                                  (Json (merge_daily (sources p3)))
                    else
                      match format_text strptime (merge_daily (sources p3))
                                        start finish with
                      | Done report => Finished (started p3) (Text report)
                      | Raised e => Crashed (started p3) e
                      end) = started p3).
    { destruct (json args); [reflexivity|].
      now destruct (format_text _ _ _ _). }
    rewrite Es. split.
    { intros e. destruct (json args); [discriminate|].
      destruct (format_text _ _ _ _); discriminate. }
    split; [exact A1|]. split; [exact A2|]. split; [exact A3|].
    split; [intros Hc _; exact (A4 Hc)|]. intros Hc _ _. exact (A5 Hc).
  - destruct B3 as (En & Ec & ->). cbn [started_by].
    rewrite En in Hall.
    destruct (Hall _ eq_refl) as (A1 & A2 & A3 & A4 & A5).
    split; [discriminate|].
    split; [exact A1|]. split; [exact A2|]. split; [exact A3|].
    split; [intros Hc _; exact (A4 Hc)|]. intros Hc _ _. exact (A5 Hc).
Qed.

(** The day axis of a text report that [main] prints. *)
Lemma main_text_axis strptime args w now start finish started report :
  date_range strptime args now = Done (start, finish) ->
  (dt_date start <= dt_date finish ->
   0 <= dt_date start /\ dt_date finish < max_ordinal) ->
  main strptime args w now = Finished started (Text report) ->
  day_axis report = day_range (dt_date start) (dt_date finish).
Proof.
  intros Hr Hv E. unfold main in E. rewrite Hr in E.
  destruct (bare_block (negb (no_claude args)) _ _ _ _ _) as [p1|[? ?]];
    [|discriminate].
  destruct (bare_block (with_calendar args) _ _ _ _ _) as [p2|[? ?]];
    [|discriminate].
  destruct (bare_block (negb (no_git args)) _ _ _ _ _) as [p3|[? ?]];
    [|discriminate].
  destruct (json args); [discriminate|].
  destruct (format_text _ _ _ _) as [r|e] eqn:Ef; [|discriminate].
  injection E as _ <-.
  unfold format_text in Ef. rewrite day_blocks_done in Ef by exact Hv.
  destruct (working_days _ _); [|discriminate].
  injection Ef as <-. unfold day_axis. cbn [blocks].
  apply day_blocks_axis.
Qed.

(** *** Inverted ranges *)

Lemma inverted_args_run :
  main feb_strptime inverted_args quiet_world some_now
  = Finished
      [(Claude, midnight (_ymd2ord 2026 2 10),
        replace_end_of_day (midnight (_ymd2ord 2026 2 1)));
       (Git, midnight (_ymd2ord 2026 2 10),
        replace_end_of_day (midnight (_ymd2ord 2026 2 1)))]
      (Text {| blocks := []; total_prs_created := 0;
               working_days_with_activity := 0 |}).
Proof. reflexivity. Qed.

(** With [--from 2026-02-10 --to 2026-02-01] the history and the
    repositories are scanned and a report without any day is printed. *)
Lemma inverted_range_rejected_fails :
  ~ inverted_range_rejected feb_strptime inverted_args quiet_world some_now.
Proof.
  intros H.
  destruct (H (midnight (_ymd2ord 2026 2 10))
              (replace_end_of_day (midnight (_ymd2ord 2026 2 1)))
              eq_refl eq_refl) as (e & He).
  rewrite inverted_args_run in He. discriminate.
Qed.

(** C4 (amended).  [main] does not compare the two ends of the range.  For
    an inverted range it does not abort before gathering: the gatherers
    are started with the range as given (start and end are not swapped),
    each enabled one as soon as those before it have returned; a text
    report that is printed has an empty day axis. *)
Theorem inverted_range_not_validated :
  forall strptime (args : args_t) (w : world) (now start finish : datetime),
    valid_time now ->
    date_range strptime args now = Done (start, finish) ->
    dt_ltb finish start = true ->
    let ended := main strptime args w now in
    (forall e, ended <> Fatal e)
    /\ (forall g, In g (started_by ended) ->
                  snd (fst g) = start /\ snd g = finish)
    /\ (no_devops args = false ->
        forall projects, devops_projects args w = Some projects ->
                         In (DevOps, start, finish) (started_by ended))
    /\ (no_claude args = false -> In (Claude, start, finish) (started_by ended))
    /\ (with_calendar args = true ->
        (no_claude args = true
         \/ exists source, claude_activity w start finish = Done source) ->
        In (Calendar365, start, finish) (started_by ended))
    /\ (no_git args = false ->
        (no_claude args = true
         \/ exists source, claude_activity w start finish = Done source) ->
        (with_calendar args = false
         \/ exists source, calendar_activity w start finish = Done source) ->
        In (Git, start, finish) (started_by ended))
    /\ (forall started report,
          ended = Finished started (Text report) -> day_axis report = []).
Proof.
  intros strptime args w now start finish Hnow Hr Hinv ended.
  destruct (main_started strptime args w now start finish Hr)
    as (A0 & A1 & A2 & A3 & A4 & A5).
  repeat (split; [assumption|]).
  intros started report E. subst ended.
  destruct (date_range_times _ _ _ _ _ Hnow Hr) as [H1 H2].
  pose proof (inverted_dates _ _ H1 Hinv) as Hd.
  assert (Ha : day_axis report = day_range (dt_date start) (dt_date finish))
    by (eapply main_text_axis; [exact Hr | lia | exact E]).
  rewrite Ha. apply day_range_empty. lia.
Qed.

Lemma inverted_range_not_validated_witness :
  In (Claude, midnight (_ymd2ord 2026 2 10),
      replace_end_of_day (midnight (_ymd2ord 2026 2 1)))
     (started_by (main feb_strptime inverted_args quiet_world some_now)).
Proof.
  destruct (inverted_range_not_validated feb_strptime inverted_args
              quiet_world some_now
              (midnight (_ymd2ord 2026 2 10))
              (replace_end_of_day (midnight (_ymd2ord 2026 2 1))))
    as (_ & _ & _ & H & _).
  - vm_compute. split; [discriminate | reflexivity].
  - reflexivity.
  - reflexivity.
  - apply H. reflexivity.
Defined.

(** *** PR events *)

Lemma count_items_append (f : event -> bool) (daily : daily_t) k e :
  count_items f (append_item daily k e)
  = (count_items f daily + if f e then 1 else 0)%nat.
Proof.
  unfold count_items, append_item, Dict.values, Dict.get_or.
  induction daily as [|[k0 v0] rest IH]; simpl.
  - destruct (f e); reflexivity.
  - destruct (String.eqb_spec k0 k) as [->|Hk]; simpl.
    + rewrite !filter_app, !length_app. simpl.
      destruct (f e); simpl; lia.
    + rewrite !filter_app, !length_app, IH. lia.
Qed.

Lemma append_item_last (daily : daily_t) k e :
  exists items, Dict.get_or (append_item daily k e) k [] = items ++ [e].
Proof.
  unfold append_item, Dict.get_or at 1. rewrite get_set, String.eqb_refl.
  eauto.
Qed.

Lemma append_item_keeps (daily : daily_t) k e k' e' :
  In e (Dict.get_or daily k []) ->
  In e (Dict.get_or (append_item daily k' e') k []).
Proof.
  unfold append_item. rewrite get_or_set.
  destruct (String.eqb_spec k' k) as [->|_]; [|trivial].
  intros H. apply in_or_app. now left.
Qed.

Lemma append_item_in (daily : daily_t) k e :
  In e (Dict.get_or (append_item daily k e) k []).
Proof.
  unfold append_item. rewrite get_or_set, String.eqb_refl.
  apply in_or_app. right. now left.
Qed.

Lemma in_range_aware start finish local utcoffset :
  in_range start finish (Aware local utcoffset)
  = Done (within start finish (Aware local utcoffset)).
Proof.
  unfold in_range, within, leb_stamp, stamp_leb.
  now destruct (instant start <=? utc_instant local utcoffset).
Qed.

(** What processing one PR record comes to. *)
Lemma pr_step_cases project start finish daily pr :
  match pr_step project start finish daily pr with
  | Done out =>
      zoneless pr = false
      /\ count_items is_pr_created out
         = (count_items is_pr_created daily
            + if creates start finish pr then 1 else 0)%nat
      /\ count_items is_pr_completed out
         = (count_items is_pr_completed daily
            + if completes start finish pr then 1 else 0)%nat
      /\ (count_items (fun _ => true) out
          <= count_items (fun _ => true) daily + 2)%nat
      /\ (forall created_dt,
            creationDate pr = Some created_dt ->
            creates start finish pr = true ->
            In (pr_created project
                  (field_or (repository_name pr) "?")
                  (pullRequestId pr)
                  (field_or (title pr) "Untitled")
                  (field_or (status pr) "?")
                  (branch_of (targetRefName pr)))
               (Dict.get_or out (day_key created_dt) []))
      /\ (forall closed_dt,
            closedDate pr = Some closed_dt ->
            completes start finish pr = true ->
            exists items,
              Dict.get_or out (day_key closed_dt) []
              = items ++ [pr_completed project
                            (field_or (repository_name pr) "?")
                            (pullRequestId pr)
                            (field_or (title pr) "Untitled")
                            (branch_of (targetRefName pr))])
  | Raised e => e = TypeError /\ zoneless pr = true
  end.
Proof.
  unfold pr_step, zoneless, creates, completes. cbv zeta.
  destruct (creationDate pr) as [[lc oc|lc]|] eqn:Ec;
    [rewrite in_range_aware| |].
  2:{ split; reflexivity. }
  - (* aware creation date *)
    destruct (closedDate pr) as [[ld od|ld]|] eqn:Ed;
      [rewrite in_range_aware| |].
    + destruct (within start finish (Aware lc oc)) eqn:Wc;
        destruct (within start finish (Aware ld od)) eqn:Wd;
        cbn [andb negb is_naive orb];
        try destruct (String.eqb _ (created_key pr)) eqn:Ek;
        cbn [negb];
        rewrite ?count_items_append; cbn [is_pr_created is_pr_completed];
        (split; [reflexivity|]); (split; [lia|]); (split; [lia|]);
        (split; [lia|]); split;
        try (intros ? ? ?; discriminate);
        try (intros x Hx _; injection Hx as <-);
        try apply append_item_in;
        try (apply append_item_keeps, append_item_in);
        try apply append_item_last.
    + destruct (within start finish (Aware lc oc)); split; reflexivity.
    + destruct (within start finish (Aware lc oc)) eqn:Wc;
        cbn [andb negb is_naive orb];
        rewrite ?count_items_append; cbn [is_pr_created is_pr_completed];
        (split; [reflexivity|]); (split; [lia|]); (split; [lia|]);
        (split; [lia|]); split;
        try (intros ? ? ?; discriminate);
        try (intros x Hx _; injection Hx as <-);
        try apply append_item_in.
  - (* no creation date *)
    destruct (closedDate pr) as [[ld od|ld]|] eqn:Ed;
      [rewrite in_range_aware| |].
    + destruct (within start finish (Aware ld od)) eqn:Wd;
        cbn [andb negb is_naive orb];
        try destruct (String.eqb _ (created_key pr)) eqn:Ek;
        cbn [negb];
        rewrite ?count_items_append; cbn [is_pr_created is_pr_completed];
        (split; [reflexivity|]); (split; [lia|]); (split; [lia|]);
        (split; [lia|]); split;
        try (intros ? ? ?; discriminate);
        try (intros x Hx _; injection Hx as <-);
        try apply append_item_last.
    + split; reflexivity.
    + cbn. repeat split; try lia; intros ? ? ?; discriminate.
Qed.

(** C8.  Processing a PR record whose timestamps have a zone adds a
    [pr_completed] item exactly when the completion timestamp is in the
    requested range and its day key differs from that of the creation
    timestamp, that is, for dates that Python can represent, when the two
    calendar days, each as its timestamp has it written, differ; the item
    then is the last of the completion day.  With a timestamp that has no
    zone the comparison with the range raises [TypeError] and nothing is
    emitted.  A PR created on 2026-02-03 and completed on 2026-02-05 gives
    a [pr_created] item on 2026-02-03 and a separate [pr_completed] item
    on 2026-02-05. *)
Theorem pr_completed_iff :
  forall (project : string) (start finish : datetime)
         (daily : daily_t) (pr : pr_record),
    match pr_step project start finish daily pr with
    | Done out =>
        zoneless pr = false
        /\ count_items is_pr_completed out
           = (count_items is_pr_completed daily
              + if completes start finish pr then 1 else 0)%nat
        /\ (forall closed_dt,
              closedDate pr = Some closed_dt ->
              completes start finish pr = true ->
              exists items,
                Dict.get_or out (day_key closed_dt) []
                = items ++ [pr_completed project
                              (field_or (repository_name pr) "?")
                              (pullRequestId pr)
                              (field_or (title pr) "Untitled")
                              (branch_of (targetRefName pr))])
    | Raised e => e = TypeError /\ zoneless pr = true
    end
    /\ (forall created_dt closed_dt,
          creationDate pr = Some created_dt ->
          closedDate pr = Some closed_dt ->
          valid_date (dt_date (local_time created_dt)) ->
          valid_date (dt_date (local_time closed_dt)) ->
          completes start finish pr
          = within start finish closed_dt
            && negb (dt_date (local_time closed_dt)
                     =? dt_date (local_time created_dt)))
    /\ (forall local utcoffset,
          within start finish (Aware local utcoffset) = true
          <-> instant start <= instant local - utcoffset <= instant finish)
    /\ get_devops_activity fetch_42 ["Core"] feb01 feb15_end
       = Done [("2026-02-03",
                [pr_created "Core" "api" 42 "Add export" "completed" "main"]);
               ("2026-02-05",
                [pr_completed "Core" "api" 42 "Add export" "main"])].
Proof.
  intros project start finish daily pr.
  split; [|split; [|split; [|reflexivity]]].
  - pose proof (pr_step_cases project start finish daily pr) as H.
    destruct (pr_step project start finish daily pr) as [out|e];
      [|exact H].
    destruct H as (H1 & _ & H3 & _ & _ & H6). auto.
  - intros created_dt closed_dt Hc Hd Vc Vd.
    unfold completes, created_key, day_key. rewrite Hc, Hd. f_equal. f_equal.
    destruct (Z.eqb_spec (dt_date (local_time closed_dt))
                         (dt_date (local_time created_dt))) as [E|N].
    + rewrite E. apply String.eqb_refl.
    + apply String.eqb_neq. intros E. apply N.
      now apply strftime_ymd_inj.
  - intros local utcoffset. unfold within, utc_instant.
    rewrite andb_true_iff, !Z.leb_le. tauto.
Qed.

Lemma pr_completed_iff_witness :
  completes feb01 feb15_end pr_42
  = within feb01 feb15_end (utc (mk_datetime 2026 2 5 16 40))
    && negb (dt_date (mk_datetime 2026 2 5 16 40)
             =? dt_date (mk_datetime 2026 2 3 10 15)).
Proof.
  destruct (pr_completed_iff "Core" feb01 feb15_end [] pr_42)
    as (_ & H & _).
  apply (H (utc (mk_datetime 2026 2 3 10 15))
           (utc (mk_datetime 2026 2 5 16 40)) eq_refl eq_refl);
    vm_compute; split; discriminate.
Defined.

(** * Further properties *)

(** ** Key labels *)

Lemma lower_char_idem c : lower_char (lower_char c) = lower_char c.
Proof.
  destruct c as [[] [] [] [] [] [] [] []]; vm_compute; reflexivity.
Qed.

Lemma lower_upper_char c : lower_char (upper_char c) = lower_char c.
Proof.
  destruct c as [[] [] [] [] [] [] [] []]; vm_compute; reflexivity.
Qed.

Lemma lower_char_space c : is_space (lower_char c) = is_space c.
Proof.
  destruct c as [[] [] [] [] [] [] [] []]; vm_compute; reflexivity.
Qed.

Lemma lower_upper (s : text) : lower (upper s) = lower s.
Proof.
  unfold lower, upper. rewrite map_map. apply map_ext, lower_upper_char.
Qed.

Lemma drop_while_lower (s : text) :
  drop_while is_space (lower s) = lower (drop_while is_space s).
Proof.
  induction s as [|c r IH]; simpl; [reflexivity|].
  rewrite lower_char_space. destruct (is_space c); [exact IH | reflexivity].
Qed.

Lemma strip_lower (s : text) : strip (lower s) = lower (strip s).
Proof.
  unfold strip, rstrip, lstrip, lower.
  fold (lower s). rewrite drop_while_lower. unfold lower.
  rewrite <- map_rev. fold (lower (rev (drop_while is_space s))).
  rewrite drop_while_lower. unfold lower. now rewrite map_rev.
Qed.

Lemma to_of_string (s : string) : to_string (of_string s) = s.
Proof. apply string_of_list_ascii_of_string. Qed.

(** X1.  For an ASCII label the initials do not depend on the letter case
    of the label nor on white space around it. *)
Theorem extract_user_case_and_blanks :
  forall name,
    is_ascii (of_string name) = true ->
    extract_user_from_keyname (to_string (upper (of_string name)))
    = extract_user_from_keyname name
    /\ extract_user_from_keyname (to_string (strip (of_string name)))
       = extract_user_from_keyname name.
Proof.
  intros name _. unfold extract_user_from_keyname, extract_user_text.
  rewrite !of_to_string. cbv zeta. split.
  - now rewrite lower_upper.
  - now rewrite !strip_lower, strip_idem.
Qed.

Lemma extract_user_case_and_blanks_witness :
  extract_user_from_keyname "BOB-KEY" = extract_user_from_keyname "bob-key"
  /\ extract_user_from_keyname "bob-key" = extract_user_from_keyname " bob-key ".
Proof.
  split.
  - exact (proj1 (extract_user_case_and_blanks "bob-key" eq_refl)).
  - exact (eq_sym (proj2 (extract_user_case_and_blanks " bob-key " eq_refl))).
Defined.

Lemma first_match_nonempty (s : text) :
  s <> [] ->
  first_match_wins [rule_prefixed; rule_separator; rule_whole; rule_fallback] s
  <> [].
Proof.
  intros Hs. cbn [first_match_wins].
  destruct (rule_prefixed s) as [u|] eqn:E1.
  { unfold rule_prefixed in E1.
    destruct (strip_prefix key_prefix s); [|discriminate].
    cbv zeta in E1. destruct (1 <=? _)%nat eqn:El; [|discriminate].
    destruct (startswith _ _); [|discriminate]. injection E1 as <-.
    apply Nat.leb_le in El. intros H. rewrite H in El. simpl in El. lia. }
  destruct (rule_separator s) as [u|] eqn:E2.
  { unfold rule_separator in E2. cbv zeta in E2.
    destruct (2 <=? _)%nat eqn:El; [|discriminate].
    destruct (_ <=? 6)%nat; [|discriminate].
    destruct (match skipn _ s with [] => false | _ => _ end); [|discriminate].
    injection E2 as <-. apply Nat.leb_le in El. intros H. rewrite H in El.
    simpl in El. lia. }
  destruct (rule_whole s) as [u|] eqn:E3.
  { apply rule_whole_some in E3. now subst. }
  unfold rule_fallback. destruct s; [congruence | discriminate].
Qed.

(** X2.  Only a blank label gives empty initials. *)
Theorem extract_user_empty_iff_blank :
  forall name,
    extract_user_from_keyname name = "" <-> strip (of_string name) = [].
Proof.
  intros name. unfold extract_user_from_keyname.
  rewrite extract_user_text_cascade, strip_lower.
  split.
  - intros H. apply (f_equal of_string) in H. rewrite of_to_string in H.
    simpl in H.
    destruct (strip (of_string name)) as [|c r] eqn:E; [reflexivity|].
    exfalso. revert H. apply first_match_nonempty. discriminate.
  - intros ->. reflexivity.
Qed.

(** ** Pricing and cost *)

(** X3.  The three families are told apart by their prefixes, whatever the
    letter case and whatever follows; any other name gets the default
    rates. *)
Theorem get_pricing_by_family :
  forall model,
    let m := lower (of_string model) in
    (startswith m (of_string "claude-opus-4") = true ->
     _get_pricing model = (15.00, 1.50, 18.75, 75.00)%Q)
    /\ (startswith m (of_string "claude-sonnet-4") = true ->
        _get_pricing model = (3.00, 0.30, 3.75, 15.00)%Q)
    /\ (startswith m (of_string "claude-haiku-4") = true ->
        _get_pricing model = (0.80, 0.08, 1.00, 4.00)%Q)
    /\ (startswith m (of_string "claude-opus-4") = false ->
        startswith m (of_string "claude-sonnet-4") = false ->
        startswith m (of_string "claude-haiku-4") = false ->
        _get_pricing model = (3.00, 0.30, 3.75, 15.00)%Q).
Proof.
  intros model m. unfold _get_pricing. cbv zeta. fold m.
  unfold _MODEL_PRICING. cbn [find_pricing].
  change (negb ("claude-opus-4" =? "_default")%string) with true.
  change (negb ("claude-sonnet-4" =? "_default")%string) with true.
  change (negb ("claude-haiku-4" =? "_default")%string) with true.
  change (negb ("_default" =? "_default")%string) with false.
  cbn [andb].
  split; [|split; [|split]].
  - intros ->. reflexivity.
  - intros H. rewrite H.
    destruct (startswith m (of_string "claude-opus-4")) eqn:E;
      [|reflexivity].
    apply startswith_app in H as [r1 H1]. apply startswith_app in E as [r2 H2].
    rewrite H1 in H2. discriminate.
  - intros H. rewrite H.
    destruct (startswith m (of_string "claude-opus-4")) eqn:E.
    { apply startswith_app in H as [r1 H1].
      apply startswith_app in E as [r2 H2]. rewrite H1 in H2. discriminate. }
    destruct (startswith m (of_string "claude-sonnet-4")) eqn:E';
      [|reflexivity].
    apply startswith_app in H as [r1 H1]. apply startswith_app in E' as [r2 H2].
    rewrite H1 in H2. discriminate.
  - intros -> -> ->. reflexivity.
Qed.

Lemma get_pricing_by_family_witness :
  _get_pricing "Claude-Haiku-4-5-20251001" = (0.80, 0.08, 1.00, 4.00)%Q.
Proof.
  apply (get_pricing_by_family "Claude-Haiku-4-5-20251001"). reflexivity.
Defined.

(** X4.  A record with no negative token count never has a negative cost. *)
Theorem calc_cost_nonneg :
  forall r,
    0 <= tok_uncached r -> 0 <= tok_cache_read r ->
    0 <= tok_cache_5m r -> 0 <= tok_cache_1h r -> 0 <= tok_output r ->
    (0 <= _calc_cost r)%Q.
Proof.
  intros r Hu Hr H5 H1 Ho. unfold _calc_cost. cbv zeta.
  pose proof (get_pricing_nonneg (field_or (model r) "")) as Hp.
  destruct (_get_pricing _) as [[[a b] c] d].
  destruct Hp as (Ha & Hb & Hc & Hd).
  assert (Hterm : forall (x : Z) (p : Q),
             0 <= x -> (0 <= p)%Q -> (0 <= inject_Z x * p / 1000000)%Q).
  { intros x p Hx Hp0. apply Qle_shift_div_l; [reflexivity|].
    rewrite Qmult_0_l. apply Qmult_le_0_compat; [|exact Hp0].
    change 0%Q with (inject_Z 0). now rewrite <- Zle_Qle. }
  assert (Hadd : forall x y : Q, (0 <= x)%Q -> (0 <= y)%Q -> (0 <= x + y)%Q).
  { intros x y Hx Hy. apply (Qplus_le_compat 0 x 0 y); assumption. }
  repeat apply Hadd; apply Hterm; assumption || lia.
Qed.

Lemma calc_cost_nonneg_witness : (0 <= _calc_cost sonnet_record)%Q.
Proof.
  apply calc_cost_nonneg; vm_compute; discriminate.
Defined.

(** ** Sorting *)

Import PrReport.

Section StableSortSorted.

Context {A : Type} (before : A -> A -> bool).

Hypothesis before_asym : forall x y, before x y = true -> before y x = false.

Lemma insert_stable_hd a x l :
  HdRel (in_order before) a l -> in_order before a x ->
  HdRel (in_order before) a (insert_stable before x l).
Proof.
  intros Hl Hx. destruct l as [|y ys]; simpl.
  - now constructor.
  - destruct (before y x); constructor; [|exact Hx].
    now inversion Hl.
Qed.

Lemma insert_stable_sorted x l :
  Sorted (in_order before) l -> Sorted (in_order before) (insert_stable before x l).
Proof.
  induction 1 as [|y ys Hs IH Hhd]; simpl.
  - repeat constructor.
  - destruct (before y x) eqn:E.
    + constructor; [exact IH|]. apply insert_stable_hd; [exact Hhd|].
      unfold in_order. now apply before_asym.
    + constructor; [now constructor|]. constructor. exact E.
Qed.

Lemma sort_stable_sorted l : Sorted (in_order before) (sort_stable before l).
Proof.
  induction l as [|x xs IH]; simpl; [constructor|].
  now apply insert_stable_sorted.
Qed.

End StableSortSorted.

Lemma string_ltb_asym (x y : string) :
  String.ltb x y = true -> String.ltb y x = false.
Proof.
  unfold String.ltb. rewrite (String.compare_antisym x y).
  destruct (String.compare y x); simpl; congruence.
Qed.

Lemma Qltb_asym (x y : Q) : Qltb x y = true -> Qltb y x = false.
Proof.
  intros H. apply Qltb_lt in H. unfold Qltb.
  apply negb_false_iff, Qle_bool_iff. now apply Qlt_le_weak.
Qed.

Lemma Zltb_asym (x y : Z) : (x <? y) = true -> (y <? x) = false.
Proof. intros H. apply Z.ltb_lt in H. apply Z.ltb_ge. lia. Qed.

(** ** Collecting the PRs *)

Section CollectFacts.

Variable parse_iso : string -> option Calendar.stamp.
Variable fetch : string -> string -> option (list fetched_pr).
Variable cutoff : Calendar.datetime.

#[local] Abbreviation recent := (recent parse_iso cutoff).
#[local] Abbreviation fetch_project_prs := (fetch_project_prs parse_iso fetch cutoff).
#[local] Abbreviation gather_prs := (gather_prs parse_iso fetch cutoff).
#[local] Abbreviation collect_prs := (collect_prs parse_iso fetch cutoff).
#[local] Abbreviation kept := (kept parse_iso fetch cutoff).
#[local] Abbreviation zoneless := (zoneless parse_iso cutoff).
#[local] Abbreviation reached := (reached parse_iso cutoff).
#[local] Abbreviation batch_loop := (batch_loop parse_iso cutoff).

Lemma batch_loop_spec batch : forall prs,
  batch_loop batch prs = prs ++ filter recent (reached batch).
Proof.
  induction batch as [|pr rest IH]; intros prs; cbn [PrReport.batch_loop
    PrReport.reached filter].
  - now rewrite app_nil_r.
  - unfold PrReport.zoneless, PrReport.recent.
    destruct (compared parse_iso cutoff pr) as [[[|]|]|] eqn:E;
      cbn [filter]; unfold PrReport.recent; rewrite ?E, ?IH.
    + now rewrite <- app_assoc.
    + reflexivity.
    + now rewrite app_nil_r.
    + reflexivity.
Qed.

Lemma reached_prefix batch pr :
  In pr (reached batch) <->
  exists before after,
    batch = before ++ pr :: after
    /\ zoneless pr = false
    /\ forall q, In q before -> zoneless q = false.
Proof.
  induction batch as [|x rest IH]; cbn [PrReport.reached].
  - split; [intros []|]. intros (before & after & E & _).
    now destruct before.
  - destruct (zoneless x) eqn:Ex.
    + split; [intros []|]. intros (before & after & E & Hz & Hb).
      destruct before as [|y before]; injection E as <- E.
      * congruence.
      * rewrite Hb in Ex by now left. discriminate.
    + split.
      * intros [<- | Hin].
        -- exists [], rest. split; [reflexivity|]. split; [exact Ex|].
           intros q [].
        -- apply IH in Hin as (before & after & -> & Hz & Hb).
           exists (x :: before), after. split; [reflexivity|].
           split; [exact Hz|]. intros q [<- | Hq]; [exact Ex | now apply Hb].
      * intros (before & after & E & Hz & Hb).
        destruct before as [|y before]; injection E as <- E.
        -- now left.
        -- right. apply IH. exists before, after. split; [exact E|].
           split; [exact Hz|]. intros q Hq. apply Hb. now right.
Qed.

Lemma fetch_project_prs_spec project_name :
  fetch_project_prs project_name
  = kept project_name "completed" ++ kept project_name "active"
    ++ kept project_name "abandoned".
Proof.
  unfold fetch_project_prs, kept. simpl.
  destruct (fetch project_name "completed");
    destruct (fetch project_name "active");
    destruct (fetch project_name "abandoned");
    rewrite ?batch_loop_spec, ?app_nil_r, <- ?app_assoc; reflexivity.
Qed.

Lemma gather_prs_spec done :
  gather_prs done = flat_map fetch_project_prs done.
Proof.
  unfold gather_prs.
  assert (H : forall acc,
             fold_left (fun all_prs name => all_prs ++ fetch_project_prs name)
                       done acc
             = acc ++ flat_map fetch_project_prs done).
  { induction done as [|n rest IH]; intros acc; simpl.
    - now rewrite app_nil_r.
    - rewrite IH. now rewrite <- app_assoc. }
  apply (H []).
Qed.

Lemma gather_prs_in done pr :
  In pr (gather_prs done) <->
  exists name st batch,
    In name done /\ In st ["completed"; "active"; "abandoned"]
    /\ fetch name st = Some batch /\ In pr (reached batch)
    /\ recent pr = true.
Proof.
  rewrite gather_prs_spec, in_flat_map. split.
  - intros (name & Hn & Hpr). rewrite fetch_project_prs_spec in Hpr.
    unfold kept in Hpr.
    repeat (apply in_app_or in Hpr as [Hpr | Hpr]);
      match type of Hpr with
      | In _ (match fetch name ?st with _ => _ end) =>
          destruct (fetch name st) as [batch|] eqn:E; [|contradiction];
          apply filter_In in Hpr as [H1 H2];
          exists name, st, batch; simpl; tauto
      end.
  - intros (name & st & batch & Hn & Hst & E & Hb & Hr).
    exists name. split; [exact Hn|]. rewrite fetch_project_prs_spec.
    assert (Hk : In pr (kept name st))
      by (unfold kept; rewrite E; apply filter_In; tauto).
    simpl in Hst. destruct Hst as [<- | [<- | [<- | []]]];
      repeat (apply in_or_app; (left; exact Hk) || right); exact Hk.
Qed.

End CollectFacts.

Lemma collect_prs_nodup parse_iso fetch cutoff done :
  NoDup (map pullRequestId (collect_prs parse_iso fetch cutoff done)).
Proof.
  unfold collect_prs. eapply Permutation_NoDup.
  - apply Permutation_map. symmetry. apply sort_stable_perm.
  - rewrite dedup_prs_from. apply dedup_from_nodup.
Qed.

Lemma NoDup_same_length {A} (l l' : list A) :
  NoDup l -> NoDup l' -> (forall x, In x l <-> In x l') ->
  List.length l = List.length l'.
Proof.
  intros Hl Hl' H. apply Nat.le_antisymm; apply NoDup_incl_length;
    try assumption; intros x Hx; now apply H.
Qed.

Lemma collect_prs_ids parse_iso fetch cutoff done pid :
  In pid (map pullRequestId (collect_prs parse_iso fetch cutoff done))
  <-> In pid (map pullRequestId (gather_prs parse_iso fetch cutoff done)).
Proof.
  unfold collect_prs. split.
  - intros H. eapply Permutation_in in H;
      [|apply Permutation_map, sort_stable_perm].
    rewrite dedup_prs_from, dedup_from_ids in H. tauto.
  - intros H. eapply Permutation_in;
      [apply Permutation_map; symmetry; apply sort_stable_perm|].
    rewrite dedup_prs_from, dedup_from_ids. split; [exact H | intros []].
Qed.

(** X5.  Whatever the order [done] in which the project queries complete: the
    PR list handed to the enrichment has one record per PR id and is in
    descending order of the [creationDate] texts, compared as strings.
    It holds only PRs that a status query returned, whose creation date
    parses, has a zone and is not before the cut-off, and that come, in
    their batch, before every PR whose date has no zone: at such a PR the
    comparison with the cut-off raises [TypeError] and the rest of the
    batch is dropped.  Every PR that meets these conditions has its id in
    the list. *)
Theorem collect_prs_unique_sorted_recent :
  forall parse_iso fetch cutoff (done : list string),
    let prs := collect_prs parse_iso fetch cutoff done in
    let listed pr :=
      recent parse_iso cutoff pr = true
      /\ exists name st batch before after,
           In name done /\ In st ["completed"; "active"; "abandoned"]
           /\ fetch name st = Some batch
           /\ batch = before ++ pr :: after
           /\ forall q, In q before -> zoneless parse_iso cutoff q = false in
    NoDup (map pullRequestId prs)
    /\ Sorted (fun a b => String.ltb (creationDate a) (creationDate b) = false)
              prs
    /\ (forall pr, In pr prs -> listed pr)
    /\ (forall pr, listed pr ->
                   In (pullRequestId pr) (map pullRequestId prs)).
Proof.
  intros parse_iso fetch cutoff done prs listed. subst prs listed.
  unfold collect_prs.
  split; [apply collect_prs_nodup|split; [|split]].
  - unfold unique_sorted_prs, sort_by_creation_desc.
    apply (sort_stable_sorted
             (fun y x => String.ltb (creationDate x) (creationDate y))).
    intros x y. apply string_ltb_asym.
  - intros pr Hpr.
    assert (Hg : In pr (gather_prs parse_iso fetch cutoff done)).
    { eapply Permutation_in in Hpr; [|apply sort_stable_perm].
      rewrite dedup_prs_from in Hpr. now apply dedup_from_in in Hpr. }
    apply gather_prs_in in Hg
      as (name & st & batch & Hn & Hst & E & Hb & Hr).
    split; [exact Hr|].
    apply reached_prefix in Hb as (before & after & Eb & _ & Hz).
    exists name, st, batch, before, after. tauto.
  - intros pr (Hr & name & st & batch & before & after & Hn & Hst & E & Eb
               & Hz).
    apply collect_prs_ids, in_map, gather_prs_in.
    exists name, st, batch. repeat split; try assumption.
    apply reached_prefix. exists before, after. repeat split; try assumption.
    unfold recent in Hr. unfold zoneless.
    now destruct (compared parse_iso cutoff pr) as [[?|]|].
Qed.

(** X6.  The projects are queried concurrently and their results arrive in any
    order: the PR ids reported, and how many PRs are reported, do not
    depend on that order. *)
Theorem collect_prs_order_independent :
  forall parse_iso fetch cutoff (done done' : list string),
    Permutation done done' ->
    (forall pid,
        In pid (map pullRequestId (collect_prs parse_iso fetch cutoff done))
        <-> In pid (map pullRequestId
                        (collect_prs parse_iso fetch cutoff done')))
    /\ List.length (collect_prs parse_iso fetch cutoff done)
       = List.length (collect_prs parse_iso fetch cutoff done').
Proof.
  intros parse_iso fetch cutoff done done' Hperm.
  assert (Hids : forall pid,
    In pid (map pullRequestId (collect_prs parse_iso fetch cutoff done))
    <-> In pid (map pullRequestId
                    (collect_prs parse_iso fetch cutoff done'))).
  { intros pid. rewrite !collect_prs_ids, !in_map_iff.
    split; intros (pr & E & Hpr); exists pr; (split; [exact E|]);
      apply gather_prs_in in Hpr as (name & st & batch & Hn & Hrest);
      apply gather_prs_in; exists name, st, batch; split; try exact Hrest.
    - eapply Permutation_in; eassumption.
    - eapply Permutation_in; [symmetry|]; eassumption. }
  split; [exact Hids|].
  rewrite <- !(length_map pullRequestId).
  apply NoDup_same_length; [| |exact Hids]; apply collect_prs_nodup.
Qed.

Lemma collect_prs_order_independent_witness :
  List.length (collect_prs demo_parse demo_fetch demo_cutoff ["A"; "B"])
  = List.length (collect_prs demo_parse demo_fetch demo_cutoff ["B"; "A"]).
Proof.
  apply (collect_prs_order_independent demo_parse demo_fetch demo_cutoff
           ["A"; "B"] ["B"; "A"]).
  apply perm_swap.
Defined.


(** ** Enriching the PRs *)

Import PrReport.

Lemma set_nth_length {A} (l : list A) : forall idx v,
  List.length (set_nth l idx v) = List.length l.
Proof.
  induction l as [|x l IH]; intros [|i] v; cbn; try reflexivity.
  now rewrite IH.
Qed.

Lemma set_nth_nth {A} (l : list A) : forall idx v j,
  (idx < List.length l)%nat ->
  nth_error (set_nth l idx v) j
  = if Nat.eqb idx j then Some v else nth_error l j.
Proof.
  induction l as [|x l IH]; intros [|i] v [|j] H; cbn in *; try lia;
    try reflexivity.
  apply IH. lia.
Qed.

Lemma store_all {enriched} (enrich : fetched_pr -> option enriched)
      all_prs completed :
  forall results,
    List.length results = List.length all_prs ->
    let final := fold_left (store enrich all_prs) completed results in
    List.length final = List.length all_prs
    /\ forall j,
         nth_error final j
         = if existsb (Nat.eqb j) completed
           then match nth_error all_prs j with
                | Some pr =>
                    match enrich pr with
                    | Some r => Some (Some r)
                    | None => nth_error results j
                    end
                | None => nth_error results j
                end
           else nth_error results j.
Proof.
  induction completed as [|idx rest IH]; intros results Hlen; cbv zeta;
    cbn [fold_left existsb].
  - now split.
  - assert (Hlen' : List.length (store enrich all_prs results idx)
                    = List.length all_prs).
    { unfold store. destruct (nth_error all_prs idx) as [pr|];
        [|exact Hlen].
      destruct (enrich pr); [|exact Hlen]. now rewrite set_nth_length. }
    destruct (IH _ Hlen') as (Hl & Hn). split; [exact Hl|].
    intros j. rewrite Hn.
    assert (Hs : nth_error (store enrich all_prs results idx) j
                 = if Nat.eqb idx j
                   then match nth_error all_prs j with
                        | Some pr =>
                            match enrich pr with
                            | Some r => Some (Some r)
                            | None => nth_error results j
                            end
                        | None => nth_error results j
                        end
                   else nth_error results j).
    { unfold store. destruct (Nat.eqb_spec idx j) as [->|Hne].
      - destruct (nth_error all_prs j) as [pr|] eqn:En; [|reflexivity].
        destruct (enrich pr); [|reflexivity].
        rewrite set_nth_nth, Nat.eqb_refl; [reflexivity|].
        rewrite Hlen. apply nth_error_Some. congruence.
      - destruct (nth_error all_prs idx) as [pr|] eqn:En; [|reflexivity].
        destruct (enrich pr); [|reflexivity].
        rewrite set_nth_nth.
        + apply Nat.eqb_neq in Hne. now rewrite Hne.
        + rewrite Hlen. apply nth_error_Some. congruence. }
    rewrite Hs, (Nat.eqb_sym j idx).
    destruct (Nat.eqb idx j); cbn [orb].
    + destruct (existsb (Nat.eqb j) rest); [|reflexivity].
      destruct (nth_error all_prs j) as [pr|]; [|reflexivity].
      now destruct (enrich pr).
    + reflexivity.
Qed.

(** X7.  The enriched PRs are those of [all_prs] whose enrichment succeeds, in
    the order of [all_prs], whatever the order in which the futures
    complete. *)
Theorem enrich_all_keeps_order :
  forall (enriched : Type) (enrich : fetched_pr -> option enriched)
         (all_prs : list fetched_pr) (completed : list nat),
    Permutation completed (seq 0 (List.length all_prs)) ->
    enrich_all enrich all_prs completed
    = flat_map (fun pr => match enrich pr with
                          | Some x => [x]
                          | None => []
                          end) all_prs.
Proof.
  intros enriched enrich all_prs completed Hperm. unfold enrich_all.
  destruct (store_all enrich all_prs completed
              (repeat None (List.length all_prs)) (repeat_length _ _))
    as (Hl & Hn).
  set (final := fold_left (store enrich all_prs) completed
                          (repeat None (List.length all_prs))) in *.
  assert (E : final = map enrich all_prs).
  { apply nth_error_ext. intros j. rewrite Hn, nth_error_map.
    destruct (nth_error all_prs j) as [pr|] eqn:En.
    - assert (Hj : (j < List.length all_prs)%nat)
        by (apply nth_error_Some; congruence).
      assert (Hin : existsb (Nat.eqb j) completed = true).
      { apply existsb_exists. exists j. split; [|apply Nat.eqb_refl].
        apply (Permutation_in _ (Permutation_sym Hperm)).
        apply in_seq. lia. }
      rewrite Hin. cbn [option_map].
      destruct (enrich pr); [reflexivity|].
      now rewrite nth_error_repeat.
    - cbn [option_map].
      assert (Hj : (List.length all_prs <= j)%nat)
        by (now apply nth_error_None).
      destruct (existsb _ _); apply nth_error_None;
        rewrite repeat_length; exact Hj. }
  rewrite E. clear. induction all_prs as [|pr rest IH]; [reflexivity|].
  cbn [map flat_map]. now rewrite IH.
Qed.

Lemma enrich_all_keeps_order_witness :
  enrich_all demo_enrich [pr7_active; pr7_abandoned; pr7_active] [2; 0; 1]%nat
  = [7; 7].
Proof.
  rewrite (enrich_all_keeps_order Z demo_enrich
             [pr7_active; pr7_abandoned; pr7_active] [2; 0; 1]%nat).
  - reflexivity.
  - cbn [List.length seq].
    apply Permutation_cons_app with (l1 := [0%nat; 1%nat]) (l2 := []).
    reflexivity.
Defined.

(** ** More on the per-person roll-up *)

Import PrReport.

Lemma summarise_fields people pdata prdata gt initials row :
  summarise people pdata prdata gt initials = Ok row ->
  ps_initials row = initials
  /\ ps_cost row = sumQ (Dict.get_or pdata initials [])
  /\ ps_prs row = sumZ (Dict.get_or prdata initials []).
Proof.
  unfold summarise. cbv zeta.
  rewrite (py_div_nonzero _ _ (max1_nonzero _)).
  destruct (Qltb 0 gt) eqn:E.
  - destruct (py_div _ gt); simpl; [|discriminate].
    intros H. injection H as <-. simpl. auto.
  - simpl. intros H. injection H as <-. simpl. auto.
Qed.

(** The pieces of a chart, as [build_consumption_chart] puts them
    together. *)
Lemma build_consumption_chart_fields today prs_data usage_buckets days
      people ch :
  build_consumption_chart today prs_data usage_buckets days people
  = Ok (Some ch) ->
  let usage :=
    accumulate_usage exact (build_key_to_person people) usage_buckets in
  let counts := accumulate_prs people prs_data in
  dates ch = chart_dates today days
  /\ cost_all ch
     = map (fun d => round2 (Dict.get_or (snd usage) d 0%Q)) (dates ch)
  /\ pr_counts_all ch = map (fun d => Dict.get_or (snd counts) d 0) (dates ch)
  /\ (persons_data ch, persons_pr_data ch)
     = person_arrays (dates ch) (fst usage) (fst counts) people
  /\ grand_total ch = sumQ (cost_all ch)
  /\ users ch = List.length (Dict.keys (persons_data ch))
  /\ exists rows,
       Forall2 (fun initials row =>
                  ps_initials row = initials
                  /\ ps_cost row
                     = sumQ (Dict.get_or (persons_data ch) initials [])
                  /\ ps_prs row
                     = sumZ (Dict.get_or (persons_pr_data ch) initials []))
               (sort_stable String.ltb (Dict.keys (persons_data ch))) rows
       /\ person_summaries ch
          = sort_stable (fun y x => Qltb (ps_cost x) (ps_cost y)) rows.
Proof.
  unfold build_consumption_chart.
  destruct usage_buckets as [|b bs]; [discriminate|]. cbv zeta.
  destruct (accumulate_usage _ _) as [person_daily all_daily].
  destruct (accumulate_prs _ _) as [pr_daily_person pr_daily_all].
  destruct (person_arrays _ _ _ _) as [pdata prdata] eqn:Ea.
  set (gt := sumQ _).
  destruct (mapM _ _) as [rows|] eqn:Erows; [|discriminate]. simpl bind.
  rewrite (py_div_nonzero _ _ (max1_nonzero _)). simpl bind.
  intros H. injection H as <-. simpl.
  do 3 (split; [reflexivity|]).
  split; [symmetry; exact Ea|]. split; [reflexivity|]. split.
  { apply Permutation_length, sort_stable_perm. }
  exists rows. split; [|reflexivity].
  clear Ea. revert rows Erows.
  generalize (sort_stable String.ltb (Dict.keys pdata)) as ks.
  induction ks as [|k ks IH]; intros rows; simpl.
  - intros H. injection H as <-. constructor.
  - destruct (summarise people pdata prdata gt k) as [row|] eqn:Er;
      [|discriminate]. simpl.
    destruct (mapM _ ks) as [rs|]; [|discriminate]. simpl.
    intros H. injection H as <-. constructor; [|now apply IH].
    now apply summarise_fields in Er.
Qed.

Lemma keys_set_same {V W} (d : Dict.dict V) (e : Dict.dict W) k v w :
  Dict.keys d = Dict.keys e ->
  Dict.keys (Dict.set d k v) = Dict.keys (Dict.set e k w).
Proof.
  unfold Dict.keys. revert e. induction d as [|[k0 v0] d IH];
    intros [|[k1 w1] e]; simpl; try discriminate; [reflexivity|].
  intros H. injection H as -> H.
  destruct (String.eqb k1 k); simpl; f_equal; [exact H | now apply IH].
Qed.

Lemma keys_set_nodup {V} (d : Dict.dict V) k v :
  NoDup (Dict.keys d) -> NoDup (Dict.keys (Dict.set d k v)).
Proof.
  unfold Dict.keys. induction d as [|[k0 v0] d IH]; simpl; intros H.
  - repeat constructor. intros [].
  - destruct (String.eqb_spec k0 k) as [->|Hk]; simpl; [exact H|].
    inversion H as [|? ? Hn Hd]; subst. constructor; [|now apply IH].
    intros Hin. apply (keys_set d k v k0) in Hin as [E | Hin];
      [congruence | contradiction].
Qed.

Lemma person_arrays_ok dates pd prd people :
  arrays_ok (List.length dates) (person_arrays dates pd prd people).
Proof.
  unfold person_arrays.
  assert (H0 : arrays_ok (List.length dates) ([], [])).
  { split; [reflexivity|]. split; [constructor|]. intros k. exact I. }
  destruct (truthy people); [|exact H0].
  apply fold_invariant; [|exact H0].
  intros [pdata prdata] item (Hk & Hn & Hget). cbv zeta.
  destruct (_ || _) eqn:Ec; [|now repeat split].
  cbn [fst snd] in *. split; [now apply keys_set_same|].
  split; [now apply keys_set_nodup|].
  intros k. cbn [fst snd]. rewrite !get_set.
  destruct (String.eqb (fst item) k); [|apply Hget].
  rewrite !length_map. repeat split.
  apply orb_prop in Ec as [Ec | Ec].
  - left. now apply Qltb_lt.
  - right. now apply Z.ltb_lt.
Qed.

Lemma get_of_key {V} (d : Dict.dict V) k :
  In k (Dict.keys d) -> exists v, Dict.get d k = Some v.
Proof.
  unfold Dict.keys. induction d as [|[k0 v0] d IH]; simpl; [tauto|].
  destruct (String.eqb_spec k0 k); [eauto|].
  intros [E | H]; [congruence | now apply IH].
Qed.

Lemma key_of_get {V} (d : Dict.dict V) k v :
  Dict.get d k = Some v -> In k (Dict.keys d).
Proof.
  unfold Dict.keys. induction d as [|[k0 v0] d IH]; simpl; [discriminate|].
  destruct (String.eqb_spec k0 k); [now left|].
  intros H. right. now apply IH.
Qed.

(** X8.  The arrays of a chart are aligned with its dates: with [days >= 0]
    there are [days + 1] dates, and the overall arrays and every person's
    two arrays have one entry per date; the two per-person tables have the
    same persons. *)
Theorem chart_arrays_aligned :
  forall today prs_data usage_buckets days people ch,
    0 <= days ->
    build_consumption_chart today prs_data usage_buckets days people
    = Ok (Some ch) ->
    List.length (dates ch) = Z.to_nat (days + 1)
    /\ List.length (cost_all ch) = List.length (dates ch)
    /\ List.length (pr_counts_all ch) = List.length (dates ch)
    /\ Dict.keys (persons_data ch) = Dict.keys (persons_pr_data ch)
    /\ (forall k arr, Dict.get (persons_data ch) k = Some arr ->
                      List.length arr = List.length (dates ch))
    /\ (forall k arr, Dict.get (persons_pr_data ch) k = Some arr ->
                      List.length arr = List.length (dates ch)).
Proof.
  intros today prs_data usage_buckets days people ch Hdays E.
  apply build_consumption_chart_fields in E.
  cbv zeta in E. destruct E as (Ed & Ec & Ep & Ea & _).
  pose proof (person_arrays_ok (dates ch)
                (fst (accumulate_usage exact (build_key_to_person people)
                                       usage_buckets))
                (fst (accumulate_prs people prs_data)) people) as Hok.
  rewrite <- Ea in Hok. destruct Hok as (Hk & _ & Hget). simpl in Hk, Hget.
  split.
  { rewrite Ed. unfold chart_dates, chart_days. cbv zeta.
    rewrite length_map, day_range_length
      by (unfold Calendar.add_days; lia).
    unfold Calendar.days_between, Calendar.add_days. f_equal. lia. }
  split; [rewrite Ec; apply length_map|].
  split; [rewrite Ep; apply length_map|].
  split; [exact Hk|]. split.
  - intros k arr Hg. specialize (Hget k). rewrite Hg in Hget.
    destruct (Dict.get (persons_pr_data ch) k); tauto.
  - intros k arr Hg. specialize (Hget k). rewrite Hg in Hget.
    destruct (Dict.get (persons_data ch) k); tauto.
Qed.

Lemma demo_chart_built :
  forall ch, demo_chart = Some ch ->
    build_consumption_chart demo_today [] [demo_bucket] 2 demo_people
    = Ok (Some ch).
Proof.
  intros ch. unfold demo_chart.
  destruct (build_consumption_chart _ _ _ _ _) as [out|]; [|discriminate].
  now intros ->.
Qed.

Lemma chart_arrays_aligned_witness :
  match demo_chart with
  | Some ch => List.length (cost_all ch) = List.length (dates ch)
  | None => True
  end.
Proof.
  destruct demo_chart as [ch|] eqn:E; [|exact I].
  apply (chart_arrays_aligned demo_today [] [demo_bucket] 2 demo_people ch);
    [lia | now apply demo_chart_built].
Defined.

Lemma Forall2_map_l {A B} (f : B -> A) (l : list A) (ys : list B)
      (P : A -> B -> Prop) :
  Forall2 P l ys -> (forall x y, P x y -> f y = x) -> map f ys = l.
Proof.
  induction 1 as [|x y l ys Hxy _ IH]; intros Hf; simpl; [reflexivity|].
  rewrite (Hf x y Hxy), IH by exact Hf. reflexivity.
Qed.

(** X9.  The rows of the per-user breakdown: one row per person, each with a
    positive cost or at least one PR, in order of cost, highest first;
    [users] is the number of rows. *)
Theorem chart_rows_listed :
  forall today prs_data usage_buckets days people ch,
    build_consumption_chart today prs_data usage_buckets days people
    = Ok (Some ch) ->
    (forall row, In row (person_summaries ch) ->
                 (0 < ps_cost row)%Q \/ 0 < ps_prs row)
    /\ Sorted (fun a b => Qltb (ps_cost a) (ps_cost b) = false)
              (person_summaries ch)
    /\ NoDup (map ps_initials (person_summaries ch))
    /\ List.length (person_summaries ch) = users ch.
Proof.
  intros today prs_data usage_buckets days people ch E.
  apply build_consumption_chart_fields in E. cbv zeta in E.
  destruct E as (_ & _ & _ & Ea & _ & Eu & rows & HF & Er).
  pose proof (person_arrays_ok (dates ch)
                (fst (accumulate_usage exact (build_key_to_person people)
                                       usage_buckets))
                (fst (accumulate_prs people prs_data)) people) as Hok.
  rewrite <- Ea in Hok. destruct Hok as (_ & Hnd & Hget).
  cbn [fst snd] in Hnd, Hget.
  assert (Hperm : Permutation (person_summaries ch) rows)
    by (rewrite Er; apply sort_stable_perm).
  assert (Hkeys : map ps_initials rows
                  = sort_stable String.ltb (Dict.keys (persons_data ch))).
  { apply (Forall2_map_l _ _ _ _ HF). intros x y (H & _). exact H. }
  split; [|split; [|split]].
  - intros row Hrow. eapply Permutation_in in Hrow; [|exact Hperm].
    destruct (Forall2_in_r _ _ _ _ HF Hrow) as (k & Hk & _ & Hc & Hp).
    eapply Permutation_in in Hk; [|apply sort_stable_perm].
    destruct (get_of_key _ _ Hk) as (arr & Hg).
    specialize (Hget k). unfold Dict.get_or in Hc, Hp.
    rewrite Hg in Hget, Hc.
    destruct (Dict.get (persons_pr_data ch) k) as [prarr|]; [|contradiction].
    rewrite Hc, Hp. tauto.
  - rewrite Er.
    apply (sort_stable_sorted (fun y x => Qltb (ps_cost x) (ps_cost y))).
    intros x y. apply Qltb_asym.
  - eapply Permutation_NoDup;
      [apply Permutation_map; symmetry; exact Hperm|].
    rewrite Hkeys. eapply Permutation_NoDup; [|exact Hnd].
    symmetry. apply sort_stable_perm.
  - rewrite (Permutation_length Hperm), Eu.
    rewrite <- (length_map ps_initials), Hkeys.
    apply Permutation_length, sort_stable_perm.
Qed.

Lemma chart_rows_listed_witness :
  match demo_chart with
  | Some ch => List.length (person_summaries ch) = users ch
  | None => True
  end.
Proof.
  destruct demo_chart as [ch|] eqn:E; [|exact I].
  apply (chart_rows_listed demo_today [] [demo_bucket] 2 demo_people ch).
  now apply demo_chart_built.
Defined.

(** *** Totals *)

Lemma sumQ_app (l l' : list Q) : (sumQ (l ++ l') == sumQ l + sumQ l')%Q.
Proof.
  induction l as [|x l IH]; simpl.
  - rewrite sumQ_nil. ring.
  - rewrite !sumQ_cons, IH. ring.
Qed.

(** X10.  Whatever the number type the costs are added up in (binary64 in
    Python): the total that [all_daily] holds for a day is the sum, from
    left to right, of the costs of the records that are not skipped (cost
    above zero) in the buckets whose [starting_at] begins with that day;
    and [all_daily] has an entry for a day exactly when there is such a
    record. *)
Theorem usage_total_is_billable :
  forall (A : numbers) key_to_person usage_buckets d,
    let all_daily := snd (accumulate_usage A key_to_person usage_buckets) in
    Dict.get_or all_daily d (num_zero A)
    = add_up A (num_zero A) (billable_on A d usage_buckets)
    /\ (In d (Dict.keys all_daily) <-> billable_on A d usage_buckets <> [])
    /\ (forall r, In r (billable_on A d usage_buckets)
                  <-> num_skips A (num_cost A r) = false
                      /\ exists bucket,
                           In bucket usage_buckets
                           /\ slice10 (field_or (starting_at bucket) "") = d
                           /\ In r (field_or (results bucket) [])).
Proof.
  intros A k2p buckets d all_daily. subst all_daily. unfold accumulate_usage.
  destruct (accumulate_usage_cells A k2p buckets ([], [])) as (_ & H2 & H3).
  cbv zeta in H2, H3. split; [apply H2|]. split.
  - rewrite H3. cbn. tauto.
  - intros r. unfold billable_on. rewrite in_flat_map. split.
    + intros (b & Hb & Hr).
      destruct (String.eqb_spec (slice10 (field_or (starting_at b) "")) d)
        as [E|E]; [|contradiction].
      apply filter_In in Hr as (Hr & Hs). apply negb_true_iff in Hs.
      split; [exact Hs|]. exists b. tauto.
    + intros (Hs & b & Hb & E & Hr). exists b. split; [exact Hb|].
      rewrite E, String.eqb_refl. apply filter_In. split; [exact Hr|].
      now rewrite Hs.
Qed.

Lemma usage_total_is_billable_witness :
  Dict.get_or
    (snd (accumulate_usage Binary64.binary64
            (build_key_to_person demo_people) [demo_bucket]))
    "2026-02-03" (num_zero Binary64.binary64)
  = Binary64.float_of_int 12.
Proof.
  rewrite (proj1 (usage_total_is_billable Binary64.binary64
                    (build_key_to_person demo_people) [demo_bucket]
                    "2026-02-03")).
  reflexivity.
Defined.

Lemma sumZ_acc (l : list Z) (a : Z) : fold_left Z.add l a = a + sumZ l.
Proof.
  unfold sumZ. revert a. induction l as [|x l IH]; intros a; simpl; [lia|].
  rewrite (IH (a + x)), (IH x). lia.
Qed.

Lemma sumZ_cons (x : Z) (l : list Z) : sumZ (x :: l) = x + sumZ l.
Proof. unfold sumZ. simpl. rewrite sumZ_acc. reflexivity. Qed.

Lemma get_or_add_count (inner : Dict.dict Z) k d :
  Dict.get_or (add_count inner k) d 0
  = Dict.get_or inner d 0 + (if String.eqb k d then 1 else 0).
Proof.
  unfold add_count, Dict.get_or. rewrite get_set.
  destruct (String.eqb_spec k d) as [->|Hk]; lia.
Qed.

Lemma columnZ_add_count2 (pd : Dict.dict (Dict.dict Z)) p k d :
  sumZ (columnZ d (add_count2 pd p k))
  = sumZ (columnZ d pd) + (if String.eqb k d then 1 else 0).
Proof.
  unfold add_count2, Dict.get_or at 1.
  induction pd as [|[p0 inner] rest IH]; simpl.
  - unfold columnZ. simpl. rewrite sumZ_cons, get_or_add_count.
    unfold Dict.get_or. simpl. unfold sumZ. simpl. lia.
  - destruct (String.eqb_spec p0 p) as [->|Hp].
    + unfold columnZ. simpl. rewrite !sumZ_cons, get_or_add_count. lia.
    + unfold columnZ in *. simpl. rewrite !sumZ_cons, IH. lia.
Qed.

Lemma values_add_count (d : Dict.dict Z) k :
  sumZ (Dict.values (add_count d k)) = sumZ (Dict.values d) + 1.
Proof.
  unfold add_count, Dict.get_or, Dict.values.
  induction d as [|[k0 v0] d IH]; simpl.
  - reflexivity.
  - destruct (String.eqb k0 k); simpl; rewrite !sumZ_cons; lia.
Qed.

(** X11.  Every PR whose creation date parses is counted once in the daily PR
    counts and once under exactly one person or under "_other": for every
    day the per-person counts add up to the day's count, and the daily
    counts add up to the number of such PRs. *)
Theorem pr_counts_reconcile :
  forall people prs_data,
    let counts := accumulate_prs people prs_data in
    (forall d, sumZ (columnZ d (fst counts)) = Dict.get_or (snd counts) d 0)
    /\ sumZ (Dict.values (snd counts))
       = Z.of_nat (List.length (dated prs_data)).
Proof.
  intros people prs_data counts. subst counts. unfold accumulate_prs.
  assert (H : forall acc,
    let out := fold_left (pr_step people) prs_data acc in
    (forall d, sumZ (columnZ d (fst out)) - Dict.get_or (snd out) d 0
               = sumZ (columnZ d (fst acc)) - Dict.get_or (snd acc) d 0)
    /\ sumZ (Dict.values (snd out))
       = sumZ (Dict.values (snd acc))
         + Z.of_nat (List.length (dated prs_data))).
  { induction prs_data as [|pr rest IH]; intros acc; simpl.
    - split; [reflexivity | lia].
    - destruct (IH (pr_step people acc pr)) as [H1 H2].
      split.
      + intros d. rewrite H1. unfold pr_step. destruct acc as [pp pa].
        destruct (created_day pr); [|reflexivity]. cbv zeta.
        destruct (_ && _); simpl;
          rewrite columnZ_add_count2, get_or_add_count; lia.
      + rewrite H2. unfold pr_step at 1. destruct acc as [pp pa].
        destruct (created_day pr); simpl; [|lia]. cbv zeta.
        destruct (_ && _); simpl; rewrite values_add_count; lia. }
  destruct (H ([], [])) as [H1 H2]. split.
  - intros d. specialize (H1 d). simpl in H1.
    change (sumZ (columnZ d [])) with 0 in H1.
    change (Dict.get_or (@nil (string * Z)) d 0) with 0 in H1. lia.
  - rewrite H2. reflexivity.
Qed.

(** ** Keys and people *)

Import PrReport.
Import People.

Lemma get_in {V} (d : Dict.dict V) k v : Dict.get d k = Some v -> In (k, v) d.
Proof.
  induction d as [|[k0 v0] d IH]; simpl; [discriminate|].
  destruct (String.eqb_spec k0 k) as [->|Hk].
  - intros H. injection H as ->. now left.
  - intros H. right. now apply IH.
Qed.

Lemma in_get {V} (d : Dict.dict V) k v :
  NoDup (Dict.keys d) -> In (k, v) d -> Dict.get d k = Some v.
Proof.
  unfold Dict.keys. induction d as [|[k0 v0] d IH]; simpl; [tauto|].
  intros Hnd [E | Hin].
  - injection E as -> ->. now rewrite String.eqb_refl.
  - inversion Hnd as [|? ? Hn Hd]; subst.
    destruct (String.eqb_spec k0 k) as [->|Hk]; [|now apply IH].
    exfalso. apply Hn. apply (in_map fst) in Hin. exact Hin.
Qed.

Lemma set_add_in (s : list string) x y :
  In y (set_add s x) <-> In y s \/ y = x.
Proof.
  unfold set_add. destruct (existsb _ s) eqn:E.
  - split; [tauto|]. intros [H | ->]; [exact H|].
    apply existsb_exists in E as (z & Hz & Ez).
    apply String.eqb_eq in Ez. now subst.
  - rewrite in_app_iff. simpl. intuition congruence.
Qed.

Lemma set_add_nodup (s : list string) x :
  NoDup s -> NoDup (set_add s x).
Proof.
  unfold set_add. intros H.
  destruct (existsb _ s) eqn:E; [exact H|].
  apply NoDup_app; [exact H | repeat constructor; intros [] |].
  intros y Hy [<- | []].
  assert (Hex : existsb (String.eqb x) s = true)
    by (apply existsb_exists; exists x; split;
        [exact Hy | apply String.eqb_refl]).
  congruence.
Qed.

Lemma group_step_grouped seen user_keys item :
  grouped seen user_keys ->
  grouped (seen ++ [item])
    (let initials := extract_user_from_keyname (snd item) in
     let user_keys' :=
       if negb (Dict.mem user_keys initials)
       then Dict.set user_keys initials [] else user_keys in
     Dict.set user_keys' initials
              (set_add (Dict.get_or user_keys' initials []) (fst item))).
Proof.
  intros [Hnd H]. destruct item as [kid0 name0]. cbv zeta. cbn [fst snd].
  set (i0 := extract_user_from_keyname name0).
  set (uk1 := if negb (Dict.mem user_keys i0)
              then Dict.set user_keys i0 [] else user_keys).
  assert (Hnd1 : NoDup (Dict.keys uk1)).
  { subst uk1. destruct (negb _); [now apply keys_set_nodup | exact Hnd]. }
  assert (Hold : Dict.get_or uk1 i0 [] = Dict.get_or user_keys i0 []).
  { subst uk1. unfold Dict.mem, Dict.get_or.
    destruct (Dict.get user_keys i0) eqn:E; simpl; [now rewrite E|].
    now rewrite get_set, String.eqb_refl. }
  assert (Hother : forall i, i <> i0 -> Dict.get uk1 i = Dict.get user_keys i).
  { intros i Hi. subst uk1. destruct (negb _); [|reflexivity].
    rewrite get_set. destruct (String.eqb_spec i0 i); congruence. }
  split; [now apply keys_set_nodup|].
  intros i kid. rewrite get_set.
  destruct (String.eqb_spec i0 i) as [<-|Hi].
  - rewrite Hold. split.
    + intros (ids & E & Hin). injection E as <-.
      apply set_add_in in Hin as [Hin | ->].
      * assert (Hex : exists ids, Dict.get user_keys i0 = Some ids
                                  /\ In kid ids).
        { unfold Dict.get_or in Hin.
          destruct (Dict.get user_keys i0) as [ids|]; [eauto | contradiction]. }
        apply H in Hex as (name & Hn & En). exists name.
        split; [apply in_or_app; now left | exact En].
      * exists name0. split; [apply in_or_app; right; now left | reflexivity].
    + intros (name & Hn & En). eexists. split; [reflexivity|].
      apply set_add_in. apply in_app_or in Hn as [Hn | [Hn | []]].
      * left. assert (Hex : exists ids, Dict.get user_keys i0 = Some ids
                                        /\ In kid ids)
          by (apply H; eauto).
        destruct Hex as (ids & E & Hin). unfold Dict.get_or. now rewrite E.
      * injection Hn as -> _. now right.
  - rewrite Hother by congruence. rewrite H. split.
    + intros (name & Hn & En). exists name.
      split; [apply in_or_app; now left | exact En].
    + intros (name & Hn & En). exists name. split; [|exact En].
      apply in_app_or in Hn as [Hn | [Hn | []]]; [exact Hn|].
      injection Hn as _ <-. contradiction.
Qed.

Lemma group_keys_grouped key_map : grouped key_map (group_keys key_map).
Proof.
  unfold group_keys.
  assert (H : forall seen acc,
             grouped seen acc ->
             grouped (seen ++ key_map)
                     (fold_left
                        (fun user_keys item =>
                           let initials :=
                             extract_user_from_keyname (snd item) in
                           let user_keys :=
                             if negb (Dict.mem user_keys initials)
                             then Dict.set user_keys initials []
                             else user_keys in
                           Dict.set user_keys initials
                             (set_add (Dict.get_or user_keys initials [])
                                      (fst item)))
                        key_map acc)).
  { induction key_map as [|item rest IH]; intros seen acc Hacc; simpl.
    - now rewrite app_nil_r.
    - replace (seen ++ item :: rest) with ((seen ++ [item]) ++ rest)
        by (rewrite <- app_assoc; reflexivity).
      apply IH. now apply group_step_grouped. }
  apply (H [] []). split; [constructor|].
  intros i kid. split.
  - intros (ids & E & _). discriminate.
  - intros (name & [] & _).
Qed.

(** Setting distinct keys one after the other. *)
Lemma fold_set_get {V W} (g : string * V -> W) (items : Dict.dict V) :
  NoDup (Dict.keys items) ->
  forall acc k,
    Dict.get (fold_left (fun p it => Dict.set p (fst it) (g it)) items acc) k
    = match Dict.get items k with
      | Some v => Some (g (k, v))
      | None => Dict.get acc k
      end.
Proof.
  unfold Dict.keys. induction items as [|[k0 v0] rest IH]; intros Hnd acc k;
    simpl; [reflexivity|].
  inversion Hnd as [|? ? Hn Hd]; subst.
  rewrite IH by exact Hd. simpl. rewrite get_set.
  destruct (String.eqb_spec k0 k) as [->|Hk]; [|reflexivity].
  destruct (Dict.get rest k) as [v|] eqn:E; [|reflexivity].
  exfalso. apply Hn. apply (key_of_get rest k v E).
Qed.

Lemma fold_set_nodup {V W} (g : string * V -> W) (items : Dict.dict V) :
  forall acc : Dict.dict W,
    NoDup (Dict.keys acc) ->
    NoDup (Dict.keys
             (fold_left (fun p it => Dict.set p (fst it) (g it)) items acc)).
Proof.
  induction items as [|it rest IH]; intros acc Hacc; simpl; [exact Hacc|].
  apply IH. now apply keys_set_nodup.
Qed.

Lemma people_get key_map prs_data initials :
  Dict.get (map_keys_to_people key_map prs_data) initials
  = match Dict.get (group_keys key_map) initials with
    | Some ids => Some (person_of (build_email_map prs_data) (initials, ids))
    | None => None
    end.
Proof.
  unfold map_keys_to_people. cbv zeta.
  rewrite (fold_set_get (person_of (build_email_map prs_data)))
    by apply group_keys_grouped.
  reflexivity.
Qed.

Lemma person_of_key_ids email_map item :
  key_ids (person_of email_map item) = snd item.
Proof.
  unfold person_of. destruct (Dict.get _ _) as [[e n]|]; reflexivity.
Qed.

Lemma people_partition_aux :
  forall key_map prs_data initials key_id,
    (exists info,
        Dict.get (map_keys_to_people key_map prs_data) initials = Some info
        /\ In key_id (key_ids info))
    <-> (exists name,
            In (key_id, name) key_map
            /\ extract_user_from_keyname name = initials).
Proof.
  intros key_map prs_data initials key_id.
  destruct (group_keys_grouped key_map) as [_ H].
  rewrite <- H, people_get. split.
  - intros (info & E & Hin).
    destruct (Dict.get (group_keys key_map) initials) as [ids|];
      [|discriminate].
    injection E as <-. rewrite person_of_key_ids in Hin. eauto.
  - intros (ids & E & Hin). rewrite E. eexists. split; [reflexivity|].
    now rewrite person_of_key_ids.
Qed.

(** X12.  Every key of the key list belongs to the person named by the initials
    of its label, and a person holds no other keys. *)
Theorem map_keys_to_people_partition :
  forall key_map prs_data initials key_id,
    (exists info,
        Dict.get (map_keys_to_people key_map prs_data) initials = Some info
        /\ In key_id (key_ids info))
    <-> (exists name,
            In (key_id, name) key_map
            /\ extract_user_from_keyname name = initials).
Proof.
  intros key_map prs_data initials key_id.
  destruct (group_keys_grouped key_map) as [_ H].
  rewrite <- H, people_get.
  destruct (Dict.get (group_keys key_map) initials) as [ids|]; split.
  - intros (info & E & Hin). injection E as <-.
    rewrite person_of_key_ids in Hin. eauto.
  - intros (ids' & E & Hin). injection E as <-. eexists.
    split; [reflexivity|]. now rewrite person_of_key_ids.
  - intros (info & E & _). discriminate.
  - intros (ids' & E & _). discriminate.
Qed.

Lemma key_ids_step (initials : string) (ids : list string) :
  forall (acc : Dict.dict string) kid,
    Dict.get (fold_left (fun acc kid => Dict.set acc kid initials) ids acc) kid
    = if existsb (String.eqb kid) ids then Some initials
      else Dict.get acc kid.
Proof.
  induction ids as [|k rest IH]; intros acc kid; simpl; [reflexivity|].
  rewrite IH, get_set. rewrite (String.eqb_sym kid k).
  destruct (existsb _ rest); [now rewrite orb_true_r|].
  rewrite orb_false_r. reflexivity.
Qed.

Lemma key_to_person_get (items : list (string * person_info)) :
  forall (acc : Dict.dict string) kid,
    let out :=
      fold_left
        (fun acc item =>
           fold_left (fun acc kid => Dict.set acc kid (fst item))
                     (key_ids (snd item)) acc)
        items acc in
    (Dict.get out kid = Dict.get acc kid
     /\ forall item, In item items -> ~ In kid (key_ids (snd item)))
    \/ (exists item, In item items /\ In kid (key_ids (snd item))
                     /\ Dict.get out kid = Some (fst item)).
Proof.
  induction items as [|it rest IH]; intros acc kid; simpl.
  - left. split; [reflexivity | tauto].
  - destruct (IH (fold_left (fun acc kid => Dict.set acc kid (fst it))
                            (key_ids (snd it)) acc) kid)
      as [[E Hno] | (item & Hin & Hk & E)].
    + rewrite key_ids_step in E.
      destruct (existsb (String.eqb kid) (key_ids (snd it))) eqn:Ex.
      * right. exists it. split; [now left|]. split; [|exact E].
        apply existsb_exists in Ex as (z & Hz & Ez).
        apply String.eqb_eq in Ez. now subst.
      * left. split; [exact E|]. intros item [<- | Hin]; [|now apply Hno].
        intros Hk. assert (existsb (String.eqb kid) (key_ids (snd it)) = true).
        { apply existsb_exists. exists kid. split; [exact Hk|].
          apply String.eqb_refl. }
        congruence.
    + right. exists item. split; [now right|]. tauto.
Qed.

(** X13.  Round trip through the two tables: a key id of the key list (its ids
    being distinct) is mapped back to the initials of its own label. *)
Theorem key_to_person_of_people :
  forall key_map prs_data key_id name,
    NoDup (Dict.keys key_map) ->
    In (key_id, name) key_map ->
    Dict.get (build_key_to_person (Some (map_keys_to_people key_map prs_data)))
             key_id
    = Some (extract_user_from_keyname name).
Proof.
  intros key_map prs_data kid name Hnd Hin.
  set (people := map_keys_to_people key_map prs_data).
  assert (Hpn : NoDup (Dict.keys people)).
  { unfold people, map_keys_to_people. cbv zeta.
    apply (fold_set_nodup (person_of (build_email_map prs_data))).
    constructor. }
  assert (Hown : forall item, In item people -> In kid (key_ids (snd item)) ->
                              fst item = extract_user_from_keyname name).
  { intros [i info] Hitem Hk. cbn [fst snd] in *.
    apply (in_get _ _ _ Hpn) in Hitem.
    destruct (proj1 (people_partition_aux key_map prs_data i kid))
      as (name' & Hin' & <-); [eauto|].
    f_equal. apply (in_get _ _ _ Hnd) in Hin, Hin'. congruence. }
  unfold build_key_to_person, people_items, field_or. fold people.
  destruct (key_to_person_get people [] kid) as [[_ Hno] | (item & Hi & Hk & E)].
  - exfalso.
    destruct (proj2 (people_partition_aux key_map prs_data
                       (extract_user_from_keyname name) kid))
      as (info & Eg & Hk); [eauto|].
    apply get_in in Eg. apply (Hno _ Eg Hk).
  - cbv zeta in E. rewrite E. f_equal. now apply Hown.
Qed.

Lemma key_to_person_of_people_witness :
  Dict.get (build_key_to_person
              (Some (map_keys_to_people demo_key_map demo_authors))) "k3"
  = Some (extract_user_from_keyname "Alice-laptop").
Proof.
  apply key_to_person_of_people.
  - repeat constructor; simpl; intuition discriminate.
  - right. right. now left.
Defined.

Lemma build_email_map_mapped prs_data :
  email_mapped prs_data (build_email_map prs_data).
Proof.
  unfold build_email_map.
  assert (H : forall seen acc,
    email_mapped seen acc ->
    email_mapped (seen ++ prs_data)
      (fold_left
         (fun email_map pr =>
            let email := field_or (creator_email pr) "" in
            let name := field_or (creator_name pr) "" in
            if negb (String.eqb email "")
            then Dict.set email_map (email_prefix email) (email, name)
            else email_map) prs_data acc)).
  { induction prs_data as [|pr rest IH]; intros seen acc Hacc; simpl.
    - now rewrite app_nil_r.
    - replace (seen ++ pr :: rest) with ((seen ++ [pr]) ++ rest)
        by (rewrite <- app_assoc; reflexivity).
      apply IH. intros prefix. specialize (Hacc prefix).
      destruct (String.eqb_spec (field_or (creator_email pr) "") "")
        as [Ee|Ee]; simpl.
      + destruct (Dict.get acc prefix) as [[e n]|].
        * destruct Hacc as (H1 & H2 & pr' & H3 & H4).
          split; [exact H1|]. split; [exact H2|]. exists pr'.
          split; [apply in_or_app; now left | exact H4].
        * intros pr' e Hin He Hne. apply in_app_or in Hin as [Hin | [<- | []]].
          -- now apply (Hacc pr' e).
          -- rewrite He in Ee. simpl in Ee. contradiction.
      + rewrite get_set.
        destruct (String.eqb_spec
                    (email_prefix (field_or (creator_email pr) "")) prefix)
          as [Ep|Ep].
        * split; [exact Ee|]. split; [exact Ep|]. exists pr.
          split; [apply in_or_app; right; now left|].
          split; [|reflexivity].
          destruct (creator_email pr); [reflexivity|].
          simpl in Ee. contradiction.
        * destruct (Dict.get acc prefix) as [[e n]|].
          -- destruct Hacc as (H1 & H2 & pr' & H3 & H4).
             split; [exact H1|]. split; [exact H2|]. exists pr'.
             split; [apply in_or_app; now left | exact H4].
          -- intros pr' e Hin He Hne.
             apply in_app_or in Hin as [Hin | [<- | []]].
             ++ now apply (Hacc pr' e).
             ++ rewrite He in Ep. exact Ep. }
  apply (H [] []). intros prefix. simpl. intros pr e [].
Qed.

(** X14.  A person whose initials equal the lower-cased local part of a PR
    author's e-mail takes that e-mail and the author's name; a person with
    no such author has no e-mail and is shown under the upper-cased
    initials. *)
Theorem map_keys_to_people_identity :
  forall key_map prs_data initials info,
    Dict.get (map_keys_to_people key_map prs_data) initials = Some info ->
    match email info with
    | Some e =>
        e <> "" /\ email_prefix e = initials
        /\ exists pr, In pr prs_data /\ creator_email pr = Some e
                      /\ display_name info = field_or (creator_name pr) ""
    | None =>
        display_name info = to_string (upper (of_string initials))
        /\ forall pr e, In pr prs_data -> creator_email pr = Some e ->
                        e <> "" -> email_prefix e <> initials
    end.
Proof.
  intros key_map prs_data initials info. rewrite people_get.
  destruct (Dict.get (group_keys key_map) initials) as [ids|]; [|discriminate].
  intros H. injection H as <-.
  pose proof (build_email_map_mapped prs_data initials) as Hm.
  unfold person_of. cbn [fst snd].
  destruct (Dict.get (build_email_map prs_data) initials) as [[e n]|]; simpl.
  - destruct Hm as (H1 & H2 & pr & H3 & H4 & H5). repeat split; auto.
    exists pr. repeat split; auto.
  - split; [reflexivity | exact Hm].
Qed.

Lemma map_keys_to_people_identity_witness :
  match Dict.get (map_keys_to_people demo_key_map demo_authors) "alice" with
  | Some info =>
      match email info with
      | Some e => email_prefix e = "alice"
      | None => True
      end
  | None => True
  end.
Proof.
  destruct (Dict.get (map_keys_to_people demo_key_map demo_authors) "alice")
    as [info|] eqn:E; [|exact I].
  pose proof (map_keys_to_people_identity demo_key_map demo_authors
                "alice" info E) as H.
  destruct (email info); [tauto | exact I].
Defined.

(** ** The PR timeline *)

Import PrReport.
Import Timeline.

Lemma bump_known counts st :
  known_status st = true ->
  exists counts', bump counts st = Returns counts'
                  /\ total counts' = total counts + 1.
Proof.
  unfold known_status, bump, total.
  destruct (String.eqb st "completed"); [eexists; split; [reflexivity|simpl; lia]|].
  destruct (String.eqb st "active"); [eexists; split; [reflexivity|simpl; lia]|].
  destruct (String.eqb st "abandoned"); [eexists; split; [reflexivity|simpl; lia]|].
  discriminate.
Qed.

Lemma bump_unknown counts st :
  known_status st = false -> bump counts st = KeyError.
Proof.
  unfold known_status, bump.
  destruct (String.eqb st "completed"); [discriminate|].
  destruct (String.eqb st "active"); [discriminate|].
  destruct (String.eqb st "abandoned"); [discriminate|]. reflexivity.
Qed.

Lemma bucket_spec prs_data : forall daily,
  match bucket prs_data daily with
  | KeyError => existsb offending prs_data = true
  | Returns out =>
      existsb offending prs_data = false
      /\ forall d,
           total (Dict.get_or out d no_counts)
           = total (Dict.get_or daily d no_counts)
             + Z.of_nat (List.length (created_on d prs_data))
  end.
Proof.
  induction prs_data as [|pr rest IH]; intros daily; simpl.
  - split; [reflexivity|]. intros d. lia.
  - destruct (created_day pr) as [dt|] eqn:Ec.
    + destruct (known_status (status pr)) eqn:Ek.
      * replace (offending pr) with false
          by (unfold offending; now rewrite Ec, Ek).
        destruct (bump_known (Dict.get_or daily (Calendar.strftime_ymd dt)
                                          no_counts) (status pr) Ek)
          as (counts' & Eb & Et).
        rewrite Eb. cbn [orb].
        specialize (IH (Dict.set daily (Calendar.strftime_ymd dt) counts')).
        destruct (bucket rest _) as [out|]; [|exact IH].
        destruct IH as [H1 H2]. split; [exact H1|].
        intros d. rewrite H2, get_or_set.
        destruct (String.eqb_spec (Calendar.strftime_ymd dt) d) as [<-|_].
        -- rewrite Et. cbn [List.length]. lia.
        -- lia.
      * replace (offending pr) with true
          by (unfold offending; now rewrite Ec, Ek).
        rewrite bump_unknown by exact Ek. reflexivity.
    + replace (offending pr) with false
        by (unfold offending; now rewrite Ec).
      cbn [orb]. apply IH.
Qed.

(** X15.  The timeline has a counter for three statuses only.  It fails with a
    [KeyError] exactly when some PR with a readable creation date has
    another status.  Otherwise the three series have one entry per date,
    and on each date they add up to the number of PRs created that day. *)
Theorem timeline_counts_or_fails :
  forall today (prs_data : list pr_dict) (days : Z),
    match build_timeline_chart today prs_data days with
    | KeyError => existsb offending prs_data = true
    | Returns None => prs_data = []
    | Returns (Some s) =>
        existsb offending prs_data = false
        /\ dates s = chart_dates today days
        /\ List.length (completed_data s) = List.length (dates s)
        /\ List.length (active_data s) = List.length (dates s)
        /\ List.length (abandoned_data s) = List.length (dates s)
        /\ forall i d,
             nth_error (dates s) i = Some d ->
             nth i (completed_data s) 0 + nth i (active_data s) 0
             + nth i (abandoned_data s) 0
             = Z.of_nat (List.length (created_on d prs_data))
    end.
Proof.
  intros today prs_data days. unfold build_timeline_chart.
  destruct prs_data as [|pr rest]; [reflexivity|].
  pose proof (bucket_spec (pr :: rest) []) as H.
  destruct (bucket (pr :: rest) []) as [daily|]; [|exact H].
  destruct H as [H1 H2]. cbv zeta. simpl dates.
  cbn [completed_data active_data abandoned_data].
  rewrite !length_map. repeat split; try assumption.
  intros i d Hd.
  assert (Hi : (i < List.length (chart_dates today days))%nat)
    by (apply nth_error_Some; congruence).
  rewrite (nth_indep _ 0 (completed (Dict.get_or daily "" no_counts)))
    by now rewrite length_map.
  rewrite (nth_indep _ 0 (active (Dict.get_or daily "" no_counts)))
    by now rewrite length_map.
  rewrite (nth_indep _ 0 (abandoned (Dict.get_or daily "" no_counts)))
    by now rewrite length_map.
  rewrite (map_nth (fun d => completed (Dict.get_or daily d no_counts))),
          (map_nth (fun d => active (Dict.get_or daily d no_counts))),
          (map_nth (fun d => abandoned (Dict.get_or daily d no_counts))).
  rewrite (nth_error_nth _ _ "" Hd).
  specialize (H2 d). unfold total in H2.
  change (Dict.get_or (@nil (string * day_counts)) d no_counts) with no_counts
    in H2.
  cbn [completed active abandoned no_counts] in H2. lia.
Qed.

Lemma timeline_counts_or_fails_witness :
  match build_timeline_chart demo_today demo_prs 1 with
  | Returns (Some s) =>
      nth 1 (completed_data s) 0 + nth 1 (active_data s) 0
      + nth 1 (abandoned_data s) 0 = 2
  | _ => False
  end.
Proof.
  pose proof (timeline_counts_or_fails demo_today demo_prs 1) as H.
  destruct (build_timeline_chart demo_today demo_prs 1) as [[s|]|] eqn:E;
    [|vm_compute in E; discriminate..].
  destruct H as (_ & Hd & _ & _ & _ & Hs).
  rewrite (Hs 1%nat "2026-02-04"); [reflexivity|].
  rewrite Hd. reflexivity.
Defined.


(** ** The comparison of authors *)

Import PrReport.
Import People.
Import Users.

Lemma sumZ_app (l l' : list Z) : sumZ (l ++ l') = sumZ l + sumZ l'.
Proof.
  induction l as [|x l IH]; [reflexivity|].
  cbn [app]. rewrite !sumZ_cons, IH. lia.
Qed.

Lemma prs_of_snoc email seen pr :
  prs_of email (seen ++ [pr])
  = prs_of email seen
    ++ (if String.eqb (email_of pr) email then [pr] else []).
Proof. unfold prs_of. now rewrite filter_app. Qed.

Lemma tally_snoc email key seen pr :
  tally email key (seen ++ [pr])
  = tally email key seen
    + (if String.eqb (email_of pr) email then adds key pr else 0).
Proof.
  unfold tally. rewrite prs_of_snoc, map_app, sumZ_app.
  destruct (String.eqb (email_of pr) email); cbn [map];
    [rewrite sumZ_cons|]; unfold sumZ; cbn; lia.
Qed.

Lemma counts_add u k n key :
  Dict.get_or (counts (add u k n)) key 0
  = Dict.get_or (counts u) key 0 + (if String.eqb k key then n else 0).
Proof.
  unfold add. cbn [counts]. rewrite get_or_set.
  destruct (String.eqb_spec k key) as [->|_]; lia.
Qed.

Lemma new_user_counts nm key : Dict.get_or (counts (new_user nm)) key 0 = 0.
Proof.
  unfold new_user, Dict.get_or. cbn [counts Dict.get].
  repeat match goal with
         | |- context [String.eqb ?a key] => destruct (String.eqb a key)
         end; reflexivity.
Qed.

Lemma prs_of_absent email seen :
  ~ In email (map email_of seen) -> prs_of email seen = [].
Proof.
  unfold prs_of. induction seen as [|pr seen IH]; intros Hn; [reflexivity|].
  cbn [filter]. destruct (String.eqb_spec (email_of pr) email) as [E|_].
  - exfalso. apply Hn. left. exact E.
  - apply IH. intros Hin. apply Hn. now right.
Qed.

Lemma prs_of_in email seen pr :
  In pr (prs_of email seen) <-> In pr seen /\ email_of pr = email.
Proof. unfold prs_of. rewrite filter_In, String.eqb_eq. tauto. Qed.

Lemma tallied_nil : tallied [] [].
Proof.
  split; [constructor|]. split; [cbn; tauto|]. intros email u H.
  discriminate.
Qed.

Lemma count_pr_tallied seen users pr :
  tallied seen users ->
  match count_pr users pr with
  | Returns users' => countable pr = true /\ tallied (seen ++ [pr]) users'
  | KeyError => status pr = None
  | TypeError => exists st, status pr = Some st /\ not_a_count st = true
  | _ => False
  end.
Proof.
  intros (Hk & Hkeys & Hu). unfold count_pr, countable.
  destruct (status pr) as [st|] eqn:Est; [|reflexivity].
  destruct (not_a_count st) eqn:Enc; [now exists st|].
  split; [reflexivity|].
  set (email := email_of pr).
  set (u0 := match Dict.get users email with
             | Some u => u
             | None => new_user (name_of pr)
             end).
  assert (Hc0 : forall key,
             Dict.get_or (counts u0) key 0 = tally email key seen).
  { intros key. subst u0. destruct (Dict.get users email) as [u|] eqn:G.
    - apply (Hu email u G).
    - rewrite new_user_counts. unfold tally.
      rewrite prs_of_absent; [reflexivity|].
      rewrite <- Hkeys. intros Hin.
      apply get_of_key in Hin as (v & Hv). congruence. }
  split; [now apply keys_set_nodup|].
  split.
  { intros e. rewrite keys_set, map_app, in_app_iff, Hkeys. cbn.
    fold email. intuition congruence. }
  intros e u. rewrite get_set.
  destruct (String.eqb_spec email e) as [<-|Hne].
  - intros H. injection H as <-. cbn [counts name projects repos add].
    split.
    { intros key. rewrite tally_snoc. fold email.
      rewrite String.eqb_refl.
      change (Dict.set _ "files" _)
        with (counts (add (add (add u0 "total" 1) st 1) "files"
                (Z.of_nat (List.length (field_or (files pr) []))))).
      rewrite !counts_add, Hc0. unfold adds. rewrite Est. cbn [field_or].
      rewrite (String.eqb_sym key "total"), (String.eqb_sym key st),
        (String.eqb_sym key "files").
      lia. }
    assert (Hfirst : prs_of email seen = []
                     /\ Dict.get users email = None
                     \/ exists u, Dict.get users email = Some u).
    { destruct (Dict.get users email) as [u|] eqn:G; [right; eauto|].
      left. split; [|reflexivity]. apply prs_of_absent.
      rewrite <- Hkeys. intros Hin.
      apply get_of_key in Hin as (v & Hv). congruence. }
    rewrite prs_of_snoc. fold email. rewrite String.eqb_refl.
    destruct Hfirst as [[E G] | [u G]].
    + subst u0. rewrite G, E. cbn [app new_user name projects repos map].
      split; [now exists pr, []|].
      split; [apply set_add_nodup; constructor|].
      split; [apply set_add_nodup; constructor|].
      split; intros x; rewrite set_add_in; cbn; intuition congruence.
    + subst u0. rewrite G.
      destruct (Hu email u G) as (_ & (pr0 & rest & E & En) & Hp & Hr
                                  & Hpi & Hri).
      split; [exists pr0, (rest ++ [pr]); split;
              [rewrite E; reflexivity | exact En]|].
      split; [now apply set_add_nodup|].
      split; [now apply set_add_nodup|].
      split; intros x; rewrite set_add_in, map_app, in_app_iff;
        [rewrite Hpi | rewrite Hri]; cbn; intuition congruence.
  - intros G. rewrite prs_of_snoc. fold email.
    destruct (String.eqb_spec email e) as [E|_]; [contradiction|].
    rewrite app_nil_r.
    destruct (Hu e u G) as (Hc & Hrest). split; [|exact Hrest].
    intros key. rewrite tally_snoc. fold email.
    destruct (String.eqb_spec email e) as [E|_]; [contradiction|].
    rewrite (Hc key). lia.
Qed.

Lemma count_prs_tallied prs : forall seen users,
  tallied seen users ->
  match count_prs prs users with
  | Returns users' =>
      forallb countable prs = true /\ tallied (seen ++ prs) users'
  | KeyError => exists pr, In pr prs /\ status pr = None
  | TypeError =>
      exists pr st, In pr prs /\ status pr = Some st
                    /\ not_a_count st = true
  | _ => False
  end.
Proof.
  induction prs as [|pr rest IH]; intros seen users Ht.
  - cbn. rewrite app_nil_r. now split.
  - cbn [count_prs forallb].
    pose proof (count_pr_tallied seen users pr Ht) as Hs.
    destruct (count_pr users pr) as [users'| | | |]; try contradiction.
    + destruct Hs as (Hc & Ht'). specialize (IH _ _ Ht').
      rewrite <- app_assoc in IH. cbn [app] in IH. rewrite Hc. cbn [andb].
      destruct (count_prs rest users') as [users''| | | |];
        try contradiction.
      * exact IH.
      * destruct IH as (pr' & Hin & E). exists pr'. split; [now right|].
        exact E.
      * destruct IH as (pr' & st & Hin & E). exists pr', st.
        split; [now right | exact E].
    + exists pr. split; [now left | exact Hs].
    + destruct Hs as (st & E). exists pr, st. split; [now left | exact E].
Qed.

Lemma rows_from_shows m items : forall i,
  match rows_from m i items with
  | Returns rows => Forall2 (shows m) items rows
  | IndexError =>
      exists item, In item items /\ label_ok (name (snd item)) = false
  | ZeroDivisionError => m = 0 /\ items <> []
  | _ => False
  end.
Proof.
  induction items as [|item rest IH]; intros i; cbn [rows_from].
  - constructor.
  - unfold row_of.
    destruct (Qeq_bool (inject_Z m) 0) eqn:Eq.
    + apply Qeq_bool_eq in Eq. split; [|discriminate].
      unfold Qeq in Eq. cbn in Eq. lia.
    + destruct (bar_label (name (snd item))) as [label| | | |] eqn:El.
      * specialize (IH (S i)).
        destruct (rows_from m (S i) rest) as [rows| | | |];
          try contradiction.
        -- constructor; [|exact IH]. unfold shows. cbn.
           rewrite El. repeat split; reflexivity.
        -- destruct IH as (it & Hin & E). exists it. split; [now right|].
           exact E.
        -- destruct IH as (Hm & _). split; [exact Hm | discriminate].
      * unfold bar_label in El.
        destruct (existsb _ _); [destruct (lstrip _)|]; discriminate.
      * unfold bar_label in El.
        destruct (existsb _ _); [destruct (lstrip _)|]; discriminate.
      * exists item. split; [now left|]. unfold label_ok. now rewrite El.
      * unfold bar_label in El.
        destruct (existsb _ _); [destruct (lstrip _)|]; discriminate.
Qed.

Lemma max_total_of_spec item rest :
  (forall it, In it (item :: rest) ->
              total (snd it) <= max_total_of (item :: rest))
  /\ exists it, In it (item :: rest)
                /\ max_total_of (item :: rest) = total (snd it).
Proof.
  unfold max_total_of.
  assert (H : forall l m,
             (m <= fold_left (fun m it => Z.max m (total (snd it))) l m)
             /\ (forall it : string * user, In it l ->
                   total (snd it)
                   <= fold_left (fun m it => Z.max m (total (snd it))) l m)
             /\ (fold_left (fun m it => Z.max m (total (snd it))) l m = m
                 \/ exists it : string * user, In it l
                      /\ fold_left (fun m it => Z.max m (total (snd it))) l m
                         = total (snd it))).
  { induction l as [|x l IH]; intros m; cbn [fold_left].
    - split; [lia|]. split; [intros it []|]. now left.
    - destruct (IH (Z.max m (total (snd x)))) as (H1 & H2 & H3).
      split; [lia|]. split.
      + intros it [<- | Hin]; [lia | now apply H2].
      + destruct H3 as [E | (it & Hin & E)].
        * destruct (Z.max_spec m (total (snd x))) as [[_ Em] | [_ Em]].
          -- right. exists x. split; [now left | congruence].
          -- left. congruence.
        * right. exists it. split; [now right | exact E]. }
  destruct (H rest (total (snd item))) as (H1 & H2 & H3).
  split.
  - intros it [<- | Hin]; [exact H1 | now apply H2].
  - destruct H3 as [E | (it & Hin & E)].
    + exists item. split; [now left | exact E].
    + exists it. split; [now right | exact E].
Qed.

Lemma sorted_shows m (items : list (string * user)) : forall rows,
  Forall2 (shows m) items rows ->
  Sorted (in_order (fun y x => total (snd x) <? total (snd y))) items ->
  Sorted (fun a b => row_total b <= row_total a) rows.
Proof.
  induction items as [|item rest IH]; intros rows HF Hs;
    inversion HF as [|? r ? rs Hr Hrest]; subst; [constructor|].
  inversion Hs as [|? ? Hs' Hhd]; subst.
  constructor; [now apply IH|].
  inversion Hrest as [|item' r' ? ? Hr' _]; subst; [constructor|].
  constructor. inversion Hhd as [|? ? Ho]; subst.
  unfold in_order in Ho. apply Z.ltb_ge in Ho.
  destruct Hr as (_ & _ & -> & _). destruct Hr' as (_ & _ & -> & _).
  exact Ho.
Qed.

Lemma shows_emails m (items : list (string * user)) rows :
  Forall2 (shows m) items rows -> map row_email rows = map fst items.
Proof.
  induction 1 as [|item r items rows Hr _ IH]; [reflexivity|].
  cbn [map]. destruct Hr as (-> & _). now rewrite IH.
Qed.

Lemma shows_in m (items : list (string * user)) rows r :
  Forall2 (shows m) items rows -> In r rows ->
  exists item, In item items /\ shows m item r.
Proof.
  induction 1 as [|item r' items rows Hr _ IH]; [intros []|].
  intros [<- | Hin].
  - exists item. split; [now left | exact Hr].
  - destruct (IH Hin) as (it & Hit & Hs). exists it.
    split; [now right | exact Hs].
Qed.

Lemma tally_counts key (l : list pr_dict) :
  key <> "" ->
  sumZ (map (adds key) l)
  = (if String.eqb key "total" then Z.of_nat (List.length l) else 0)
    + count_status key l
    + (if String.eqb key "files" then sumZ (map file_count l) else 0).
Proof.
  intros Hkey. unfold count_status.
  induction l as [|pr l IH].
  - cbn. now destruct (String.eqb key "total"), (String.eqb key "files").
  - cbn [map filter List.length]. rewrite !sumZ_cons, IH.
    unfold adds at 1. fold (file_count pr).
    assert (E : String.eqb key (field_or (status pr) "")
                = has_status key pr).
    { unfold has_status. destruct (status pr) as [st|]; cbn [field_or].
      - apply String.eqb_sym.
      - now apply String.eqb_neq. }
    rewrite E.
    destruct (has_status key pr), (String.eqb key "total"),
      (String.eqb key "files"); cbn [List.length]; lia.
Qed.

Lemma count_prs_users prs users :
  count_prs prs [] = Returns users ->
  forallb countable prs = true /\ tallied prs users.
Proof.
  intros E. pose proof (count_prs_tallied prs [] [] tallied_nil) as H.
  rewrite E in H. exact H.
Qed.

Lemma tallied_total prs users email u :
  tallied prs users -> In (email, u) users ->
  total u = Z.of_nat (List.length (prs_of email prs))
            + count_status "total" (prs_of email prs)
  /\ 1 <= total u.
Proof.
  intros (Hk & _ & Hu) Hin. apply in_get in Hin; [|exact Hk].
  destruct (Hu email u Hin) as (Hc & (pr & rest & E & _) & _).
  assert (Ht : total u
               = Z.of_nat (List.length (prs_of email prs))
                 + count_status "total" (prs_of email prs)).
  { unfold total. rewrite Hc. unfold tally.
    rewrite tally_counts by discriminate. cbn. lia. }
  split; [exact Ht|]. rewrite Ht, E. unfold count_status.
  cbn [List.length]. lia.
Qed.

(** X16.  The rows of the comparison: one per distinct author e-mail, in
    descending order of the totals.  A row's total is the number of the
    author's PRs (plus those whose status is the text "total"), its
    completed and active counts are the numbers of PRs with these statuses,
    its file count adds up the PRs' files, its name is that of the author's
    first PR, and it counts the distinct projects and repositories. *)
Theorem user_comparison_rows :
  forall (prs_data : list pr_dict) (rows : list row),
    build_user_comparison prs_data = Returns (Some rows) ->
    NoDup (map row_email rows)
    /\ (forall email, In email (map row_email rows)
                      <-> In email (map email_of prs_data))
    /\ Sorted (fun a b => row_total b <= row_total a) rows
    /\ forall r, In r rows ->
         let mine := prs_of (row_email r) prs_data in
         row_total r = Z.of_nat (List.length mine) + count_status "total" mine
         /\ row_completed r = count_status "completed" mine
         /\ row_active r = count_status "active" mine
         /\ row_files r = sumZ (map file_count mine)
                          + count_status "files" mine
         /\ (exists pr rest, mine = pr :: rest /\ row_name r = name_of pr)
         /\ row_projects r = distinct project_name mine
         /\ row_repos r = distinct repo_name mine.
Proof.
  intros prs rows. unfold build_user_comparison.
  destruct (count_prs prs []) as [users| | | |] eqn:Ec; try discriminate.
  destruct (List.length users <? 2)%nat; [discriminate|].
  set (sorted := sort_by_total_desc users).
  pose proof (rows_from_shows (max_total_of sorted) sorted O) as Hrows.
  destruct (rows_from (max_total_of sorted) O sorted) as [rs| | | |];
    try discriminate.
  intros E. injection E as ->.
  apply count_prs_users in Ec as (_ & Ht).
  assert (Hperm : Permutation sorted users) by apply sort_stable_perm.
  pose proof Ht as (Hk & Hkeys & Hu).
  rewrite (shows_emails _ _ _ Hrows).
  split.
  { eapply Permutation_NoDup; [|exact Hk].
    apply Permutation_map. now symmetry. }
  split.
  { intros email. rewrite <- Hkeys. unfold Dict.keys.
    split; apply Permutation_in, Permutation_map;
      [exact Hperm | now symmetry]. }
  split.
  { apply (sorted_shows _ _ _ Hrows). apply sort_stable_sorted.
    intros x y. apply Zltb_asym. }
  intros r Hr. destruct (shows_in _ _ _ _ Hrows Hr) as ([email u] & Hin & Hs).
  apply (Permutation_in _ Hperm) in Hin.
  destruct Hs as (He & Hn & Htot & Hco & Hac & Hfi & Hpr & Hre & _).
  cbn [fst snd] in *. rewrite He. cbv zeta.
  destruct (tallied_total prs users email u Ht Hin) as (Etot & _).
  apply in_get in Hin; [|exact Hk].
  destruct (Hu email u Hin) as (Hc & Hname & Hnp & Hnr & Hpi & Hri).
  split; [congruence|].
  split; [rewrite Hco, Hc; unfold tally;
          rewrite tally_counts by discriminate; cbn; lia|].
  split; [rewrite Hac, Hc; unfold tally;
          rewrite tally_counts by discriminate; cbn; lia|].
  split; [rewrite Hfi, Hc; unfold tally;
          rewrite tally_counts by discriminate; cbn; lia|].
  split; [destruct Hname as (pr & rest & E1 & E2); exists pr, rest;
          split; [exact E1 | congruence]|].
  split.
  - rewrite Hpr. unfold distinct. apply NoDup_same_length;
      [exact Hnp | apply NoDup_nodup|].
    intros p. now rewrite nodup_In, Hpi.
  - rewrite Hre. unfold distinct. apply NoDup_same_length;
      [exact Hnr | apply NoDup_nodup|].
    intros p. now rewrite nodup_In, Hri.
Qed.

Lemma user_comparison_rows_witness :
  build_user_comparison demo_prs = Returns (Some demo_rows)
  /\ map row_total demo_rows = [2; 1]
  /\ Sorted (fun a b => row_total b <= row_total a) demo_rows.
Proof.
  split; [vm_compute; reflexivity|]. split; [reflexivity|].
  apply (user_comparison_rows demo_prs demo_rows).
  vm_compute. reflexivity.
Defined.

Lemma pct_bounds (t m : Z) :
  1 <= t -> t <= m ->
  (0 < inject_Z t / inject_Z m * 100
   /\ inject_Z t / inject_Z m * 100 <= 100)%Q.
Proof.
  intros Ht Hm.
  assert (Hm0 : (0 < inject_Z m)%Q)
    by (change 0%Q with (inject_Z 0); rewrite <- Zlt_Qlt; lia).
  assert (Ht0 : (0 < inject_Z t)%Q)
    by (change 0%Q with (inject_Z 0); rewrite <- Zlt_Qlt; lia).
  assert (Htm : (inject_Z t <= inject_Z m)%Q) by (rewrite <- Zle_Qle; lia).
  assert (Hq0 : (0 < inject_Z t / inject_Z m)%Q).
  { apply Qlt_shift_div_l; [exact Hm0|]. now rewrite Qmult_0_l. }
  assert (Hq1 : (inject_Z t / inject_Z m <= 1)%Q).
  { apply Qle_shift_div_r; [exact Hm0|]. now rewrite Qmult_1_l. }
  split; [lra | lra].
Qed.

Lemma pct_full (t : Z) :
  1 <= t -> (inject_Z t / inject_Z t * 100 == 100)%Q.
Proof.
  intros Ht.
  assert (Ht0 : ~ (inject_Z t == 0)%Q).
  { intros E. unfold Qeq in E. cbn in E. lia. }
  field. exact Ht0.
Qed.

Lemma sorted_head_max (item : string * user) rest :
  Sorted (in_order (fun y x => total (snd x) <? total (snd y)))
         (item :: rest) ->
  forall it, In it (item :: rest) -> total (snd it) <= total (snd item).
Proof.
  intros Hs. apply Sorted_StronglySorted in Hs.
  - inversion Hs as [|? ? _ Hall]; subst. intros it [<- | Hin]; [lia|].
    rewrite Forall_forall in Hall. specialize (Hall it Hin).
    unfold in_order in Hall. now apply Z.ltb_ge in Hall.
  - intros a b c Hab Hbc. unfold in_order in *.
    apply Z.ltb_ge in Hab, Hbc. apply Z.ltb_ge. lia.
Qed.

(** X17.  How the comparison ends.  It is left out (the empty string) exactly
    when all the PRs have the same author e-mail; otherwise there are at
    least two rows, every bar is wider than 0 and at most 100 per cent,
    and the first bar is full.  A PR without a status ends it with a
    [KeyError], a status named "name", "projects" or "repos" with a
    [TypeError], and an author name of blanks with an [IndexError]; the
    division by the largest total never fails. *)
Theorem user_comparison_outcome :
  forall prs_data : list pr_dict,
    match build_user_comparison prs_data with
    | Returns None =>
        forallb countable prs_data = true
        /\ forall pr pr', In pr prs_data -> In pr' prs_data ->
                          email_of pr = email_of pr'
    | Returns (Some rows) =>
        forallb countable prs_data = true
        /\ (2 <= List.length rows)%nat
        /\ (exists pr pr', In pr prs_data /\ In pr' prs_data
                           /\ email_of pr <> email_of pr')
        /\ Forall (fun r => (0 < row_pct r /\ row_pct r <= 100)%Q) rows
        /\ (forall r rest, rows = r :: rest -> (row_pct r == 100)%Q)
    | KeyError => exists pr, In pr prs_data /\ status pr = None
    | TypeError =>
        exists pr st, In pr prs_data /\ status pr = Some st
                      /\ not_a_count st = true
    | IndexError =>
        forallb countable prs_data = true
        /\ exists pr, In pr prs_data /\ label_ok (name_of pr) = false
    | ZeroDivisionError => False
    end.
Proof.
  intros prs. unfold build_user_comparison.
  pose proof (count_prs_tallied prs [] [] tallied_nil) as Hc.
  destruct (count_prs prs []) as [users| | | |]; try exact Hc;
    try contradiction.
  cbn [app] in Hc. destruct Hc as (Hcount & Ht).
  pose proof Ht as (Hk & Hkeys & Hu).
  destruct (Nat.ltb_spec (List.length users) 2) as [Hlen | Hlen].
  { split; [exact Hcount|]. intros pr pr' Hin Hin'.
    assert (H1 : In (email_of pr) (Dict.keys users))
      by (apply Hkeys; now apply in_map).
    assert (H2 : In (email_of pr') (Dict.keys users))
      by (apply Hkeys; now apply in_map).
    unfold Dict.keys in *.
    destruct users as [|[e1 u1] [|[e2 u2] rest]]; cbn in *;
      [contradiction | intuition congruence | lia]. }
  set (sorted := sort_by_total_desc users).
  assert (Hperm : Permutation sorted users) by apply sort_stable_perm.
  assert (Hs : Sorted (in_order (fun y x => total (snd x) <? total (snd y)))
                      sorted)
    by (apply sort_stable_sorted; intros x y; apply Zltb_asym).
  assert (Hpos : forall it, In it sorted -> 1 <= total (snd it)).
  { intros [e u] Hin. apply (Permutation_in _ Hperm) in Hin.
    apply (tallied_total prs users e u Ht Hin). }
  assert (Hmax : forall item rest, sorted = item :: rest ->
             max_total_of sorted = total (snd item)
             /\ forall it, In it sorted ->
                  total (snd it) <= max_total_of sorted).
  { intros item rest E. rewrite E in Hs |- *.
    destruct (max_total_of_spec item rest) as (Hge & it & Hin & Em).
    pose proof (sorted_head_max item rest Hs it Hin) as Hle.
    pose proof (Hge item (or_introl eq_refl)) as Hge'.
    split; [lia | exact Hge]. }
  pose proof (rows_from_shows (max_total_of sorted) sorted O) as Hrows.
  destruct (rows_from (max_total_of sorted) O sorted) as [rows| | | |];
    try contradiction.
  - split; [exact Hcount|].
    assert (Hl : List.length rows = List.length users).
    { rewrite <- (Forall2_length Hrows). now apply Permutation_length. }
    split; [lia|]. split.
    { unfold Dict.keys in *.
      destruct users as [|[e1 u1] [|[e2 u2] rest]]; cbn in Hlen; try lia.
      assert (Hx : In e1 (map email_of prs))
        by (apply Hkeys; now left).
      assert (Hy : In e2 (map email_of prs))
        by (apply Hkeys; right; now left).
      apply in_map_iff in Hx as (pr & E1 & Hin1).
      apply in_map_iff in Hy as (pr' & E2 & Hin2).
      exists pr, pr'. split; [exact Hin1|]. split; [exact Hin2|].
      intros E. cbn [map fst] in Hk.
      inversion Hk as [|? ? Hn _]; subst. apply Hn. left.
      congruence. }
    split.
    { apply Forall_forall. intros r Hr.
      destruct (shows_in _ _ _ _ Hrows Hr) as (it & Hin & Hsh).
      destruct Hsh as (_ & _ & _ & _ & _ & _ & _ & _ & Hp & _).
      rewrite Hp. destruct sorted as [|item rest] eqn:Es; [contradiction|].
      destruct (Hmax item rest eq_refl) as (_ & Hle).
      apply pct_bounds; [now apply Hpos | now apply Hle]. }
    intros r rest ->.
    inversion Hrows as [|item ? items ? Hsh _ Es]; subst.
    destruct Hsh as (_ & _ & _ & _ & _ & _ & _ & _ & Hp & _).
    rewrite Hp. symmetry in Es.
    destruct (Hmax item items Es) as (Em & _). rewrite Es in Em.
    rewrite Em. apply pct_full, Hpos. rewrite Es. now left.
  - split; [exact Hcount|].
    destruct Hrows as ([e u] & Hin & Hl).
    apply (Permutation_in _ Hperm) in Hin.
    apply in_get in Hin; [|exact Hk].
    destruct (Hu e u Hin) as (_ & (pr & rest & E & En) & _).
    exists pr. split; [|cbn [snd] in Hl; congruence].
    assert (Hpr : In pr (prs_of e prs)) by (rewrite E; now left).
    now apply prs_of_in in Hpr.
  - destruct Hrows as (Hm & Hne).
    destruct sorted as [|item rest] eqn:Es; [congruence|].
    destruct (Hmax item rest eq_refl) as (Em & _).
    specialize (Hpos item (or_introl eq_refl)). lia.
Qed.

Lemma user_comparison_outcome_witness :
  Forall (fun r => (0 < row_pct r /\ row_pct r <= 100)%Q) demo_rows.
Proof.
  pose proof (user_comparison_outcome demo_prs) as H.
  change (build_user_comparison demo_prs)
    with (Returns (Some demo_rows)) in H.
  exact (proj1 (proj2 (proj2 (proj2 H)))).
Defined.

(** ** More on the time report *)

Import Calendar.
Import TimeReport.

Lemma merge_items_get (items : daily_t) : forall (merged : daily_t) k,
  Dict.get_or
    (fold_left
       (fun merged item =>
          Dict.set merged (fst item)
                   (Dict.get_or merged (fst item) [] ++ snd item))
       items merged) k []
  = Dict.get_or merged k []
    ++ flat_map snd (filter (fun item => String.eqb (fst item) k) items).
Proof.
  induction items as [|[k0 v0] rest IH]; intros merged k; simpl.
  - now rewrite app_nil_r.
  - rewrite IH, get_or_set.
    destruct (String.eqb_spec k0 k) as [->|Hk]; simpl.
    + now rewrite <- app_assoc.
    + reflexivity.
Qed.

Lemma merge_items_keys (items : daily_t) : forall (merged : daily_t) k,
  In k (Dict.keys
          (fold_left
             (fun merged item =>
                Dict.set merged (fst item)
                         (Dict.get_or merged (fst item) [] ++ snd item))
             items merged))
  <-> In k (Dict.keys merged) \/ In k (Dict.keys items).
Proof.
  induction items as [|[k0 v0] rest IH]; intros merged k; simpl.
  - tauto.
  - rewrite IH, keys_set. simpl. intuition congruence.
Qed.

Lemma merge_sources_get (sources : list daily_t) (k : string) :
  forall merged : daily_t,
    let out :=
      fold_left
        (fun merged source =>
           fold_left
             (fun merged item =>
                Dict.set merged (fst item)
                         (Dict.get_or merged (fst item) [] ++ snd item))
             source merged) sources merged in
    Dict.get_or out k []
    = Dict.get_or merged k []
      ++ flat_map snd (filter (fun item => String.eqb (fst item) k)
                              (List.concat sources))
    /\ (In k (Dict.keys out)
        <-> In k (Dict.keys merged)
            \/ exists source, In source sources /\ In k (Dict.keys source)).
Proof.
  induction sources as [|s rest IH]; intros merged; simpl.
  - split; [now rewrite app_nil_r|]. split; [tauto|].
    intros [H | (s & [] & _)]. exact H.
  - destruct (IH (fold_left
                    (fun merged item =>
                       Dict.set merged (fst item)
                                (Dict.get_or merged (fst item) [] ++ snd item))
                    s merged)) as [H1 H2].
    split.
    + rewrite H1, merge_items_get, filter_app, flat_map_app.
      now rewrite app_assoc.
    + rewrite H2, merge_items_keys. split.
      * intros [[H | H] | (s' & Hs & Hk)].
        -- now left.
        -- right. exists s. split; [now left | exact H].
        -- right. exists s'. split; [now right | exact Hk].
      * intros [H | (s' & [<- | Hs] & Hk)].
        -- left. now left.
        -- left. now right.
        -- right. exists s'. tauto.
Qed.

(** X18.  Merging loses nothing and keeps the order: the bucket of a day is the
    concatenation of the sources' items for that day, source after source,
    and a day has a bucket exactly when some source has one. *)
Theorem merge_daily_concatenates :
  forall (sources : list daily_t) (k : string),
    Dict.get_or (merge_daily sources) k [] = items_of_day sources k
    /\ (In k (Dict.keys (merge_daily sources))
        <-> exists source, In source sources /\ In k (Dict.keys source)).
Proof.
  intros sources k. unfold merge_daily, items_of_day.
  destruct (merge_sources_get sources k []) as [H1 H2].
  split; [exact H1|]. rewrite H2. simpl. tauto.
Qed.

(** *** PR events of the whole activity *)

(** X19.  Processing a PR record whose timestamps have a zone adds a
    [pr_created] item exactly when its creation timestamp lies in the
    requested range; the item is filed under the creation day as the
    timestamp has it written, in its own zone, and carries the PR's status
    and its target branch without the "refs/heads/" prefix.  A record adds
    at most two items.  With a timestamp that has no zone the comparison
    with the range raises [TypeError] and the record adds nothing. *)
Theorem pr_created_in_range :
  forall (project : string) (start finish : datetime)
         (daily : daily_t) (pr : pr_record),
    match pr_step project start finish daily pr with
    | Done out =>
        zoneless pr = false
        /\ count_items is_pr_created out
           = (count_items is_pr_created daily
              + b2n (creates start finish pr))%nat
        /\ (forall created_dt,
              creationDate pr = Some created_dt ->
              creates start finish pr = true ->
              In (pr_created project
                    (field_or (repository_name pr) "?")
                    (pullRequestId pr)
                    (field_or (title pr) "Untitled")
                    (field_or (status pr) "?")
                    (branch_of (targetRefName pr)))
                 (Dict.get_or out (day_key created_dt) []))
        /\ (count_items (fun _ => true) out
            <= count_items (fun _ => true) daily + 2)%nat
    | Raised e => e = TypeError /\ zoneless pr = true
    end
    /\ (forall local utcoffset,
          day_key (Aware local utcoffset) = strftime_ymd (dt_date local)
          /\ (creationDate pr = Some (Aware local utcoffset) ->
              (creates start finish pr = true
               <-> instant start <= instant local - utcoffset
                   <= instant finish)))
    /\ pr_step "Core" feb01 feb15_end [] pr_43
       = Done [("2026-02-03",
                [pr_created "Core" "api" 43 "Fix import" "active"
                            "release"])]
    /\ pr_step "Core" feb01 feb15_end [] pr_44 = Raised TypeError.
Proof.
  intros project start finish daily pr.
  split; [|split; [|split; reflexivity]].
  - pose proof (pr_step_cases project start finish daily pr) as H.
    destruct (pr_step project start finish daily pr) as [out|e];
      [|exact H].
    destruct H as (H1 & H2 & _ & H4 & H5 & _).
    split; [exact H1|]. split; [|split; [exact H5 | exact H4]].
    rewrite H2. now destruct (creates start finish pr).
  - intros local utcoffset. split; [reflexivity|].
    intros Hc. unfold creates. rewrite Hc. unfold within, utc_instant.
    rewrite andb_true_iff, !Z.leb_le. tauto.
Qed.

Lemma pr_created_in_range_witness :
  match pr_step "Core" feb01 feb15_end [] pr_42 with
  | Done out =>
      In (pr_created "Core" "api" 42 "Add export" "completed" "main")
         (Dict.get_or out "2026-02-03" [])
  | Raised _ => False
  end.
Proof.
  destruct (pr_created_in_range "Core" feb01 feb15_end [] pr_42)
    as (H & _).
  destruct (pr_step "Core" feb01 feb15_end [] pr_42) as [out|e].
  - destruct H as (_ & _ & H & _).
    exact (H (utc (mk_datetime 2026 2 3 10 15)) eq_refl eq_refl).
  - destruct H as (_ & H). discriminate H.
Defined.

Lemma pr_steps_cases project start finish prs : forall daily,
  match fold_run (pr_step project start finish) prs daily with
  | Done out =>
      (forall pr, In pr prs -> zoneless pr = false)
      /\ count_items is_pr_created out
         = (count_items is_pr_created daily
            + List.length (filter (creates start finish) prs))%nat
      /\ count_items is_pr_completed out
         = (count_items is_pr_completed daily
            + List.length (filter (completes start finish) prs))%nat
  | Raised e =>
      e = TypeError /\ exists pr, In pr prs /\ zoneless pr = true
  end.
Proof.
  induction prs as [|pr rest IH]; intros daily; cbn [fold_run].
  - cbn. split; [intros pr []|]. split; lia.
  - pose proof (pr_step_cases project start finish daily pr) as H.
    destruct (pr_step project start finish daily pr) as [out|e].
    + destruct H as (Hz & H1 & H2 & _).
      specialize (IH out).
      destruct (fold_run (pr_step project start finish) rest out)
        as [out'|e].
      * destruct IH as (Hall & E1 & E2). split.
        { intros q [<- | Hq]; [exact Hz | now apply Hall]. }
        rewrite E1, E2, H1, H2. cbn [filter].
        destruct (creates start finish pr);
          destruct (completes start finish pr); cbn [List.length];
          split; lia.
      * destruct IH as (-> & q & Hq & Hz'). split; [reflexivity|].
        exists q. split; [now right | exact Hz'].
    + destruct H as (-> & Hz). split; [reflexivity|].
      exists pr. split; [now left | exact Hz].
Qed.

Section Queries.

Variable fetch : string -> string -> run (list pr_record).
Variables start finish : datetime.

Lemma status_loop_cases project sts : forall daily,
  match
    fold_run
      (fun daily st =>
         match fetch project st with
         | Done prs => fold_run (pr_step project start finish) prs daily
         | Raised e => Raised e
         end) sts daily
  with
  | Done out =>
      (forall st, In st sts -> exists prs, fetch project st = Done prs)
      /\ (forall pr, In pr (flat_map (returned fetch project) sts) ->
                     zoneless pr = false)
      /\ count_items is_pr_created out
         = (count_items is_pr_created daily
            + List.length (filter (creates start finish)
                             (flat_map (returned fetch project) sts)))%nat
      /\ count_items is_pr_completed out
         = (count_items is_pr_completed daily
            + List.length (filter (completes start finish)
                             (flat_map (returned fetch project) sts)))%nat
  | Raised e =>
      (exists st, In st sts /\ fetch project st = Raised e)
      \/ (e = TypeError
          /\ exists pr, In pr (flat_map (returned fetch project) sts)
                        /\ zoneless pr = true)
  end.
Proof.
  induction sts as [|st rest IH]; intros daily; cbn [fold_run flat_map].
  - cbn. split; [intros st []|]. split; [intros pr []|]. split; lia.
  - destruct (fetch project st) as [prs|e] eqn:Ef.
    + assert (Er : returned fetch project st = prs)
        by (unfold returned; now rewrite Ef).
      rewrite Er.
      pose proof (pr_steps_cases project start finish prs daily) as H.
      destruct (fold_run (pr_step project start finish) prs daily)
        as [out|e].
      * destruct H as (Hz & H1 & H2). specialize (IH out).
        destruct (fold_run _ rest out) as [out'|e].
        -- destruct IH as (Hq & Hall & E1 & E2). split.
           { intros st' [<- | Hs]; [eauto | now apply Hq]. }
           split.
           { intros pr Hpr. apply in_app_or in Hpr as [Hpr | Hpr];
               [now apply Hz | now apply Hall]. }
           rewrite E1, E2, H1, H2, !filter_app, !length_app. split; lia.
        -- destruct IH as [(st' & Hs & Es) | (-> & pr & Hpr & Hz')].
           ++ left. exists st'. split; [now right | exact Es].
           ++ right. split; [reflexivity|]. exists pr.
              split; [apply in_or_app; now right | exact Hz'].
      * destruct H as (-> & pr & Hpr & Hz). right. split; [reflexivity|].
        exists pr. split; [apply in_or_app; now left | exact Hz].
    + left. exists st. split; [now left | exact Ef].
Qed.

Lemma project_loop_cases projects : forall daily,
  match
    fold_run
      (fun daily project =>
         fold_run
           (fun daily st =>
              match fetch project st with
              | Done prs => fold_run (pr_step project start finish) prs daily
              | Raised e => Raised e
              end) statuses daily) projects daily
  with
  | Done out =>
      (forall q, In q (queries projects) ->
                 exists prs, fetch (fst q) (snd q) = Done prs)
      /\ (forall pr, In pr (fetched fetch projects) -> zoneless pr = false)
      /\ count_items is_pr_created out
         = (count_items is_pr_created daily
            + List.length (filter (creates start finish)
                             (fetched fetch projects)))%nat
      /\ count_items is_pr_completed out
         = (count_items is_pr_completed daily
            + List.length (filter (completes start finish)
                             (fetched fetch projects)))%nat
  | Raised e =>
      (exists q, In q (queries projects) /\ fetch (fst q) (snd q) = Raised e)
      \/ (e = TypeError
          /\ exists pr, In pr (fetched fetch projects) /\ zoneless pr = true)
  end.
Proof.
  induction projects as [|p rest IH]; intros daily;
    cbn [fold_run fetched queries flat_map].
  - cbn. split; [intros q []|]. split; [intros pr []|]. split; lia.
  - fold (fetched fetch rest). fold (queries rest).
    pose proof (status_loop_cases p statuses daily) as H.
    destruct (fold_run _ statuses daily) as [out|e].
    + destruct H as (Hq & Hz & H1 & H2). specialize (IH out).
      destruct (fold_run _ rest out) as [out'|e].
      * destruct IH as (Hq' & Hz' & E1 & E2). split.
        { intros q Hin. apply in_app_or in Hin as [Hin | Hin];
            [|now apply Hq'].
          apply in_map_iff in Hin as (st & <- & Hst). now apply Hq. }
        split.
        { intros pr Hpr. apply in_app_or in Hpr as [Hpr | Hpr];
            [now apply Hz | now apply Hz']. }
        rewrite E1, E2, H1, H2, !filter_app, !length_app. split; lia.
      * destruct IH as [(q & Hin & Eq) | (-> & pr & Hpr & Hz')].
        -- left. exists q. split; [apply in_or_app; now right | exact Eq].
        -- right. split; [reflexivity|]. exists pr.
           split; [apply in_or_app; now right | exact Hz'].
    + destruct H as [(st & Hst & Es) | (-> & pr & Hpr & Hz)].
      * left. exists (p, st). split; [|exact Es].
        apply in_or_app. left. now apply in_map.
      * right. split; [reflexivity|]. exists pr.
        split; [apply in_or_app; now left | exact Hz].
Qed.

End Queries.

(** X20.  Nothing is de-duplicated in the time report.  When
    [get_devops_activity] returns, every status query of every project
    has returned, every returned record has its timestamps with a zone,
    and every record gives its own items: the numbers of [pr_created] and
    of [pr_completed] items are the numbers of returned records that
    satisfy the respective condition.  It raises what a status query
    raises (a time-out of the [az] call, which [fetch_devops_prs] does
    not catch), or [TypeError] at a returned record with a timestamp
    without a zone; nothing is returned then. *)
Theorem devops_activity_counts :
  forall fetch (projects : list string) (start finish : datetime),
    match get_devops_activity fetch projects start finish with
    | Done daily =>
        (forall q, In q (queries projects) ->
                   exists prs, fetch (fst q) (snd q) = Done prs)
        /\ (forall pr, In pr (fetched fetch projects) ->
                       zoneless pr = false)
        /\ count_items is_pr_created daily
           = List.length (filter (creates start finish)
                                 (fetched fetch projects))
        /\ count_items is_pr_completed daily
           = List.length (filter (completes start finish)
                                 (fetched fetch projects))
    | Raised e =>
        (exists q, In q (queries projects)
                   /\ fetch (fst q) (snd q) = Raised e)
        \/ (e = TypeError
            /\ exists pr, In pr (fetched fetch projects)
                          /\ zoneless pr = true)
    end
    /\ get_devops_activity fetch_slow ["Core"] feb01 feb15_end
       = Raised TimeoutExpired
    /\ get_devops_activity (fun _ _ => Done [pr_42; pr_44; pr_42]) ["Core"]
                           feb01 feb15_end
       = Raised TypeError.
Proof.
  intros fetch projects start finish.
  split; [|split; reflexivity].
  unfold get_devops_activity.
  pose proof (project_loop_cases fetch start finish projects []) as H.
  cbv beta in H.
  match type of H with
  | match ?x with _ => _ end => destruct x as [out|e]
  end; exact H.
Qed.

Lemma devops_activity_counts_witness :
  match get_devops_activity (fun _ _ => Done [pr_42]) ["Core"]
                            feb01 feb15_end with
  | Done daily => count_items is_pr_created daily = 3%nat
  | Raised _ => False
  end.
Proof.
  destruct (devops_activity_counts (fun _ _ => Done [pr_42]) ["Core"]
              feb01 feb15_end) as (H & _).
  destruct (get_devops_activity (fun _ _ => Done [pr_42]) ["Core"]
                                feb01 feb15_end) as [daily|e].
  - destruct H as (_ & _ & H & _). rewrite H. reflexivity.
  - destruct H as [(q & Hq & E) | (_ & pr & Hpr & Hz)].
    + discriminate E.
    + cbn in Hpr. destruct Hpr as [<- | [<- | [<- | []]]]; discriminate Hz.
Defined.

(** *** The lines of a day *)

Lemma weekday_bounds (d : date) : 0 <= weekday d < 7.
Proof. unfold weekday. apply Z.mod_pos_bound. lia. Qed.

Lemma claude_projects_in (items : list event) project :
  In project (claude_projects items)
  <-> exists n, In (claude_session project n) items.
Proof.
  unfold claude_projects. rewrite in_flat_map. split.
  - intros (e & He & Hp). destruct e; simpl in Hp; try contradiction.
    destruct Hp as [<- | []]. eauto.
  - intros (n & Hn). exists (claude_session project n). split; [exact Hn|].
    now left.
Qed.

Lemma sorted_by_count_in (l : list event) e :
  In e (sorted_by_count_desc l) <-> In e l.
Proof.
  unfold sorted_by_count_desc. split; apply Permutation_in.
  - apply sort_stable_perm.
  - symmetry. apply sort_stable_perm.
Qed.

Lemma git_lines_in (items : list event) repo n :
  In (GitLine repo n) (git_lines items)
  <-> In (git_commit repo n) items /\ ~ In repo (claude_projects items).
Proof.
  unfold git_lines. rewrite in_flat_map. split.
  - intros (e & He & Hl). apply sorted_by_count_in, filter_In in He as [He _].
    destruct e; simpl in Hl; try contradiction.
    destruct (existsb _ _) eqn:Ex; [contradiction|].
    destruct Hl as [Hl | []]. injection Hl as <- <-. split; [exact He|].
    intros Hin. assert (existsb (String.eqb repo0) (claude_projects items)
                        = true).
    { apply existsb_exists. exists repo0. split; [exact Hin|].
      apply String.eqb_refl. }
    congruence.
  - intros [He Hn]. exists (git_commit repo n). split.
    + apply sorted_by_count_in, filter_In. now split.
    + simpl. destruct (existsb _ _) eqn:Ex; [|now left].
      apply existsb_exists in Ex as (x & Hx & Ex).
      apply String.eqb_eq in Ex. subst x. contradiction.
Qed.

Lemma code_lines_in (items : list event) project n :
  In (CodeLine project n) (code_lines items)
  <-> In (claude_session project n) items.
Proof.
  unfold code_lines. rewrite in_flat_map. split.
  - intros (e & He & Hl). apply sorted_by_count_in, filter_In in He as [He _].
    destruct e; simpl in Hl; try contradiction.
    destruct Hl as [Hl | []]. now injection Hl as <- <-.
  - intros He. exists (claude_session project n). split; [|now left].
    apply sorted_by_count_in, filter_In. now split.
Qed.

Lemma other_lines_no_git (items : list event) repo n :
  ~ In (GitLine repo n)
       (cal_lines items ++ created_lines items ++ merged_lines items
        ++ code_lines items).
Proof.
  unfold cal_lines, created_lines, merged_lines, code_lines.
  rewrite !in_app_iff, !in_flat_map.
  intros [H | [H | [H | H]]]; destruct H as (e & _ & Hl);
    destruct e; simpl in Hl; intuition discriminate.
Qed.

Lemma other_lines_no_code (items : list event) project n :
  ~ In (CodeLine project n)
       (cal_lines items ++ created_lines items ++ merged_lines items)
  /\ ~ In (CodeLine project n) (git_lines items).
Proof.
  unfold cal_lines, created_lines, merged_lines, git_lines.
  rewrite !in_app_iff, !in_flat_map. split.
  - intros [H | [H | H]]; destruct H as (e & _ & Hl);
      destruct e; simpl in Hl; intuition discriminate.
  - intros (e & _ & Hl). destruct e; simpl in Hl; try contradiction.
    destruct (existsb _ _); simpl in Hl; intuition discriminate.
Qed.

(** X21.  In the text report a day without items is one "--" line.  On a day
    with items, every Claude Code session entry is shown, while the
    commits of a repository are shown only if no session entry of that day
    has the repository's name as its project; the day name is always one
    of the seven. *)
Theorem format_day_git_suppressed :
  forall (daily : daily_t) (d : date),
    let items := Dict.get_or daily (strftime_ymd d) [] in
    In (nth (Z.to_nat (weekday d)) WEEKDAYS "") WEEKDAYS
    /\ (items = [] ->
        format_day daily d
        = [EmptyDay (strftime_ymd d) (nth (Z.to_nat (weekday d)) WEEKDAYS "")])
    /\ (items <> [] ->
        (forall repo n,
            In (GitLine repo n) (format_day daily d)
            <-> In (git_commit repo n) items
                /\ ~ In repo (claude_projects items))
        /\ (forall project n,
               In (CodeLine project n) (format_day daily d)
               <-> In (claude_session project n) items)).
Proof.
  intros daily d items. split; [|split].
  - apply nth_In. pose proof (weekday_bounds d). simpl. lia.
  - intros E. unfold format_day. cbv zeta. fold items. now rewrite E.
  - intros Hne. unfold format_day. cbv zeta. fold items.
    destruct items as [|e0 rest] eqn:Ei; [congruence|]. rewrite <- Ei. split.
    + intros repo n. rewrite <- git_lines_in. split.
      * intros [H | H]; [discriminate|].
        rewrite !app_assoc in H. apply in_app_or in H as [H | H]; [|exact H].
        rewrite <- !app_assoc in H. now apply other_lines_no_git in H.
      * intros H. right. do 4 (apply in_or_app; right). exact H.
    + intros project n. rewrite <- code_lines_in.
      pose proof (other_lines_no_code items project n) as [N1 N2]. split.
      * intros [H | H]; [discriminate|].
        apply in_app_or in H as [H | H];
          [exfalso; apply N1; apply in_or_app; now left|].
        apply in_app_or in H as [H | H];
          [exfalso; apply N1; apply in_or_app; right;
           apply in_or_app; now left|].
        apply in_app_or in H as [H | H];
          [exfalso; apply N1; apply in_or_app; right;
           apply in_or_app; now right|].
        apply in_app_or in H as [H | H]; [exact H | contradiction].
      * intros H. right. do 3 (apply in_or_app; right).
        apply in_or_app. now left.
Qed.

Lemma format_day_git_suppressed_witness :
  In (GitLine "web" 1) (format_day demo_daily demo_day)
  /\ ~ In (GitLine "api" 3) (format_day demo_daily demo_day).
Proof.
  destruct (format_day_git_suppressed demo_daily demo_day) as (_ & _ & H).
  destruct H as (Hg & _); [vm_compute; discriminate|].
  split.
  - apply Hg. split; [vm_compute; tauto|].
    vm_compute. intros [E | []]. discriminate.
  - intros Hin. apply Hg in Hin as (_ & Hn). apply Hn.
    vm_compute. now left.
Defined.

Lemma day_range_single (d : date) : day_range d d = [d].
Proof.
  rewrite day_range_spec.
  replace (Z.to_nat (d - d + 1)) with 1%nat by (unfold date in *; lia).
  simpl. now rewrite Z.add_0_r.
Qed.

(** X22.  Which days the text report shows.  An option given with an empty
    text counts as not given.  [--date D] gives the one day D; [--from A
    --to B] the days from A to B; without [--date] and [--from], and
    [--days n] with [n >= 0], the [n + 1] days that end today, as long as
    the first of them is a date that Python has.  This holds for ranges
    that end before 9999-12-31: at that day the day loop raises
    [OverflowError].  A date option that is read and does not parse ends
    the run with [ValueError], and a [--days] that leads before
    0001-01-01 with [OverflowError], before anything is gathered. *)
Theorem report_days :
  forall strptime (args : args_t) (w : world) (now : datetime)
         (daily : daily_t),
    (forall o, given o = None <-> o = None \/ o = Some "")
    /\ (forall s d,
          given (date_opt args) = Some s -> strptime s = Some d ->
          date_range strptime args now
          = Done (midnight d, replace_end_of_day (midnight d))
          /\ (0 <= d < max_ordinal ->
              day_blocks daily (midnight d) (replace_end_of_day (midnight d))
              = Done [(d, format_day daily d)])
          /\ (d = max_ordinal ->
              day_blocks daily (midnight d) (replace_end_of_day (midnight d))
              = Raised OverflowError))
    /\ (forall s t a b,
          given (date_opt args) = None ->
          given (from_date args) = Some s -> given (to_date args) = Some t ->
          strptime s = Some a -> strptime t = Some b ->
          date_range strptime args now
          = Done (midnight a, replace_end_of_day (midnight b))
          /\ (0 <= a -> b < max_ordinal ->
              exists blocks,
                day_blocks daily (midnight a)
                           (replace_end_of_day (midnight b)) = Done blocks
                /\ map fst blocks = day_range a b))
    /\ (given (date_opt args) = None -> given (from_date args) = None ->
        0 <= days args ->
        (1 <= dt_date now - days args -> dt_date now < max_ordinal ->
         exists start blocks,
           date_range strptime args now = Done (start, now)
           /\ day_blocks daily start now = Done blocks
           /\ List.length blocks = Z.to_nat (days args + 1)
           /\ last (map fst blocks) 0 = dt_date now)
        /\ (dt_date now - days args < 1 ->
            main strptime args w now = Fatal OverflowError))
    /\ (forall s,
          given (date_opt args) = Some s
          \/ (given (date_opt args) = None
              /\ given (from_date args) = Some s) ->
          strptime s = None ->
          main strptime args w now = Fatal ValueError)
    /\ (forall s t a,
          given (date_opt args) = None ->
          given (from_date args) = Some s -> strptime s = Some a ->
          given (to_date args) = Some t -> strptime t = None ->
          main strptime args w now = Fatal ValueError).
Proof.
  intros strptime args w now daily.
  split; [|split; [|split; [|split; [|split]]]].
  - intros [[|c s]|]; cbn; split; try tauto; try discriminate.
    + intros [H | H]; discriminate.
  - intros s d Hs Hd. unfold date_range, parse_day. rewrite Hs, Hd.
    split; [reflexivity|]. split.
    + intros Hv. rewrite day_blocks_done by (cbn; lia).
      cbn [dt_date midnight replace_end_of_day].
      now rewrite day_range_single.
    + intros ->. unfold day_blocks. cbv zeta.
      apply text_loop_overflow; cbn; unfold max_ordinal; lia.
  - intros s t a b Hd Hs Ht Ha Hb. unfold date_range, parse_day.
    rewrite Hd, Hs, Ha, Ht, Hb. split; [reflexivity|].
    intros H0 Hmax. eexists. split; [apply day_blocks_done; cbn; lia|].
    apply day_blocks_axis.
  - intros Hd Hf Hn. unfold main, date_range. rewrite Hd, Hf.
    unfold sub_days, add_days_checked. cbv zeta. split.
    + intros H1 Hmax.
      replace ((1 <=? dt_date now + - days args)
               && (dt_date now + - days args <=? max_ordinal)) with true
        by (symmetry; apply andb_true_intro; unfold max_ordinal in *;
            split; apply Z.leb_le; lia).
      eexists. eexists. split; [reflexivity|].
      split; [apply day_blocks_done; cbn; lia|].
      cbn [dt_date]. rewrite length_map, map_map. cbn [fst]. rewrite map_id.
      rewrite day_range_spec.
      replace (dt_date now - (dt_date now + - days args) + 1)
        with (days args + 1) by lia.
      rewrite length_map, length_seq. split; [reflexivity|].
      replace (Z.to_nat (days args + 1)) with (S (Z.to_nat (days args)))
        by lia.
      rewrite seq_S, map_app. cbn [map]. rewrite last_last. lia.
    + intros H1.
      replace ((1 <=? dt_date now + - days args)
               && (dt_date now + - days args <=? max_ordinal)) with false
        by (symmetry; apply andb_false_intro1, Z.leb_gt; lia).
      reflexivity.
  - intros s [Hs | [Hd Hs]] Hp; unfold main, date_range, parse_day.
    + now rewrite Hs, Hp.
    + now rewrite Hd, Hs, Hp.
  - intros s t a Hd Hs Ha Ht Hp. unfold main, date_range, parse_day.
    now rewrite Hd, Hs, Ha, Ht, Hp.
Qed.

Lemma report_days_witness :
  day_blocks [] (midnight demo_day) (replace_end_of_day (midnight demo_day))
  = Done [(demo_day, format_day [] demo_day)].
Proof.
  destruct (report_days demo_strptime single_day_args quiet_world some_now [])
    as (_ & H & _).
  destruct (H "2026-02-03" demo_day eq_refl eq_refl) as (_ & H1 & _).
  apply H1. vm_compute. split; [discriminate | reflexivity].
Defined.

(** *** Calendar events *)

Import Graph.

Lemma calendar_steps events : forall (daily : daily_t),
  let out :=
    fold_left
      (fun daily ev =>
         if field_or (isCancelled ev) false then daily
         else if String.eqb (field_or (showAs ev) "busy") "free" then daily
         else append_item daily (date_key ev) (calendar_item ev))
      events daily in
  count_items (fun _ => true) out
  = (count_items (fun _ => true) daily
     + List.length (filter kept events))%nat
  /\ count_items is_calendar out
     = (count_items is_calendar daily + List.length (filter kept events))%nat
  /\ (forall k e, In e (Dict.get_or daily k []) -> In e (Dict.get_or out k []))
  /\ (forall ev, In ev events -> kept ev = true ->
                 In (calendar_item ev) (Dict.get_or out (date_key ev) [])).
Proof.
  induction events as [|ev rest IH]; intros daily; cbv zeta;
    cbn [fold_left filter].
  - cbn [List.length]. split; [lia|]. split; [lia|]. split; [tauto|].
    intros ev [].
  - specialize IH; cbv zeta in IH.
    replace (if field_or (isCancelled ev) false then daily
             else if String.eqb (field_or (showAs ev) "busy") "free" then daily
             else append_item daily (date_key ev) (calendar_item ev))
      with (if kept ev
            then append_item daily (date_key ev) (calendar_item ev)
            else daily)
      by (unfold kept; destruct (field_or (isCancelled ev) false);
          [reflexivity|];
          destruct (String.eqb (field_or (showAs ev) "busy") "free");
          reflexivity).
    destruct (kept ev) eqn:Ek.
    + destruct (IH (append_item daily (date_key ev) (calendar_item ev)))
        as (H1 & H2 & H3 & H4).
      rewrite H1, H2, !count_items_append. cbn [List.length].
      split; [lia|]. split; [unfold calendar_item; cbn; lia|].
      split.
      * intros k e He. apply H3. now apply append_item_keeps.
      * intros ev' [<- | Hin] Hk; [|now apply H4].
        apply H3, append_item_in.
    + destruct (IH daily) as (H1 & H2 & H3 & H4).
      split; [exact H1|]. split; [exact H2|]. split; [exact H3|].
      intros ev' [<- | Hin] Hk; [|now apply H4].
      rewrite Ek in Hk. discriminate.
Qed.

(** X23.  Cancelled events and events shown as free never reach the report;
    every other event gives exactly one calendar item, filed under the
    first ten characters of its start time.  An all-day event is printed
    as "all-day" without an end time.  A query that fails with one of the
    two exceptions that [get_calendar_activity] catches gives no item;
    any other exception, the time-out of the [az] call for one, leaves
    the function, and [main], which calls it outside any [try], ends
    with that exception once the calendar is reached. *)
Theorem calendar_activity_kept :
  forall events : list cal_event,
    let out := get_calendar_activity (Some events) in
    count_items (fun _ => true) out = List.length (filter kept events)
    /\ count_items is_calendar out = List.length (filter kept events)
    /\ (forall ev, In ev events -> kept ev = true ->
                   In (calendar_item ev) (Dict.get_or out (date_key ev) []))
    /\ (forall ev, isAllDay ev = Some true ->
                   cal_lines [calendar_item ev]
                   = [CalLine "all-day" (field_or (subject ev) "(no subject)")])
    /\ calendar_call (Answered events) = Done out
    /\ calendar_call Refused = Done []
    /\ (forall e, calendar_call (Failed e) = Raised e)
    /\ (forall strptime args w now start finish e,
          date_range strptime args now = Done (start, finish) ->
          with_calendar args = true ->
          (no_claude args = true
           \/ exists source, claude_activity w start finish = Done source) ->
          calendar_activity w start finish = calendar_call (Failed e) ->
          exists started,
            main strptime args w now = Crashed started e
            /\ In (Calendar365, start, finish) started).
Proof.
  intros events out. subst out. unfold get_calendar_activity.
  destruct (calendar_steps events []) as (H1 & H2 & _ & H4).
  split; [exact H1|]. split; [exact H2|]. split; [exact H4|].
  split.
  { intros ev Ha. unfold calendar_item. rewrite Ha. reflexivity. }
  split; [reflexivity|]. split; [reflexivity|]. split; [reflexivity|].
  intros strptime args w now start finish e Hr Hc Hclaude Hcal.
  unfold main. rewrite Hr.
  set (p0 := devops_block args w start finish _).
  assert (E1 : exists p1,
             bare_block (negb (no_claude args)) Claude (claude_activity w)
                        start finish p0 = inl p1).
  { unfold bare_block. destruct Hclaude as [-> | (source & ->)].
    - cbn. eauto.
    - destruct (negb (no_claude args)); eauto. }
  destruct E1 as (p1 & ->).
  unfold bare_block at 1. rewrite Hc, Hcal. cbn [calendar_call].
  eexists. split; [reflexivity|]. apply in_or_app. right. now left.
Qed.

Lemma calendar_activity_kept_witness :
  In (calendar "Standup" "09:00" "09:15" "Ann Lee")
     (Dict.get_or (get_calendar_activity (Some [lunch; standup]))
                  "2026-02-03" []).
Proof.
  destruct (calendar_activity_kept [lunch; standup]) as (_ & _ & H & _).
  exact (H standup (or_intror (or_introl eq_refl)) eq_refl).
Defined.

(** *** The summary of the text report *)

Lemma merge_daily_nodup (sources : list daily_t) :
  NoDup (Dict.keys (merge_daily sources)).
Proof.
  unfold merge_daily.
  assert (H : forall merged : daily_t,
             NoDup (Dict.keys merged) ->
             NoDup (Dict.keys
                      (fold_left
                         (fun merged source =>
                            fold_left
                              (fun merged item =>
                                 Dict.set merged (fst item)
                                   (Dict.get_or merged (fst item) []
                                    ++ snd item))
                              source merged) sources merged))).
  { induction sources as [|s rest IH]; intros merged Hm; cbn [fold_left];
      [exact Hm|].
    apply IH. revert merged Hm.
    induction s as [|item s IHs]; intros merged Hm; cbn [fold_left];
      [exact Hm|].
    apply IHs. now apply keys_set_nodup. }
  apply H. constructor.
Qed.

Lemma merge_daily_items (sources : list daily_t) k :
  Dict.get_or (merge_daily sources) k [] <> []
  <-> exists source items,
        In source sources /\ In (k, items) source /\ items <> [].
Proof.
  unfold merge_daily.
  destruct (merge_sources_get sources k []) as [E _]. cbv zeta in E.
  rewrite E. clear E.
  change (Dict.get_or (@nil (string * list event)) k []) with (@nil event).
  cbn [app]. split.
  - intros Hne.
    destruct (flat_map snd _) as [|e rest] eqn:Ef; [congruence|].
    assert (Hin : In e (flat_map snd
                          (filter (fun item => String.eqb (fst item) k)
                                  (List.concat sources))))
      by (rewrite Ef; now left).
    apply in_flat_map in Hin as ([k' items] & Hin & He).
    apply filter_In in Hin as (Hin & Ek). cbn [fst snd] in *.
    apply String.eqb_eq in Ek. subst k'.
    apply in_concat in Hin as (source & Hs & Hin).
    exists source, items. split; [exact Hs|]. split; [exact Hin|].
    intros ->. contradiction.
  - intros (source & items & Hs & Hin & Hne) Ef.
    destruct items as [|e rest]; [congruence|].
    assert (He : In e (flat_map snd
                         (filter (fun item => String.eqb (fst item) k)
                                 (List.concat sources)))).
    { apply in_flat_map. exists (k, e :: rest). split; [|now left].
      apply filter_In. split; [|apply String.eqb_refl].
      apply in_concat. exists source. split; [exact Hs | exact Hin]. }
    rewrite Ef in He. contradiction.
Qed.

Lemma working_days_fold strptime (daily : daily_t) : forall acc,
  match
    fold_left
      (fun acc item =>
         match acc with
         | None => None
         | Some n =>
             match snd item with
             | [] => Some n
             | _ :: _ =>
                 match strptime (fst item) with
                 | Some d => Some (if weekday d <? 5 then n + 1 else n)
                 | None => None
                 end
             end
         end)
      daily acc
  with
  | None =>
      acc = None
      \/ exists k items, In (k, items) daily /\ items <> []
                         /\ strptime k = None
  | Some n =>
      exists m, acc = Some m
                /\ (forall k items, In (k, items) daily -> items <> [] ->
                                    strptime k <> None)
                /\ m <= n <= m + Z.of_nat (List.length daily)
  end.
Proof.
  induction daily as [|[k items] rest IH]; intros acc; cbn [fold_left].
  - destruct acc as [m|]; [|now left].
    exists m. split; [reflexivity|]. split; [intros ? ? []|].
    cbn [List.length]. lia.
  - cbn [fst snd].
    specialize (IH match acc with
                   | None => None
                   | Some n =>
                       match items with
                       | [] => Some n
                       | _ :: _ =>
                           match strptime k with
                           | Some d =>
                               Some (if weekday d <? 5 then n + 1 else n)
                           | None => None
                           end
                       end
                   end).
    destruct (fold_left _ rest _) as [n|].
    + destruct IH as (m & Em & Hall & Hn).
      destruct acc as [m0|]; [|discriminate]. exists m0.
      split; [reflexivity|].
      destruct items as [|e items'].
      * injection Em as <-. split.
        -- intros k' its [E | Hin] Hne; [|now apply (Hall k' its)].
           injection E as <- <-. congruence.
        -- cbn [List.length]. lia.
      * destruct (strptime k) as [d|] eqn:Ep; [|discriminate].
        injection Em as <-. split.
        -- intros k' its [E | Hin] Hne; [|now apply (Hall k' its)].
           injection E as <- <-. congruence.
        -- cbn [List.length]. destruct (weekday d <? 5); lia.
    + destruct IH as [Em | (k' & its & Hin & Hne & Ep)].
      * destruct acc as [m0|]; [|now left]. right.
        destruct items as [|e items']; [discriminate|].
        destruct (strptime k) as [d|] eqn:Ep; [discriminate|].
        exists k, (e :: items'). split; [now left|].
        split; [discriminate | exact Ep].
      * right. exists k', its. split; [now right|]. now split.
Qed.

(** X27.  The summary of the text report parses every key of the merged
    activity that has items.  It raises [ValueError] exactly when some
    source files items under a key that [strptime] rejects; a calendar
    event that is kept and whose start text gives such a key (an event
    without a start time, for one, with the empty key) is enough.
    Otherwise the number of working days is at most the number of keys. *)
Theorem summary_needs_dated_keys :
  forall (strptime : string -> option date) (sources : list daily_t),
    match working_days strptime (merge_daily sources) with
    | None =>
        exists source k items,
          In source sources /\ In (k, items) source /\ items <> []
          /\ strptime k = None
    | Some n =>
        (forall source k items,
            In source sources -> In (k, items) source -> items <> [] ->
            strptime k <> None)
        /\ 0 <= n <= Z.of_nat (List.length (merge_daily sources))
    end
    /\ forall events ev,
         In (get_calendar_activity (Some events)) sources ->
         In ev events -> kept ev = true ->
         strptime (date_key ev) = None ->
         working_days strptime (merge_daily sources) = None.
Proof.
  intros strptime sources.
  assert (Hmain :
    match working_days strptime (merge_daily sources) with
    | None =>
        exists source k items,
          In source sources /\ In (k, items) source /\ items <> []
          /\ strptime k = None
    | Some n =>
        (forall source k items,
            In source sources -> In (k, items) source -> items <> [] ->
            strptime k <> None)
        /\ 0 <= n <= Z.of_nat (List.length (merge_daily sources))
    end).
  { unfold working_days.
    pose proof (working_days_fold strptime (merge_daily sources) (Some 0))
      as H.
    destruct (fold_left _ (merge_daily sources) (Some 0)) as [n|].
    - destruct H as (m & Em & Hall & Hn). injection Em as <-.
      split; [|lia]. intros source k items Hs Hin Hne.
      assert (Hg : Dict.get_or (merge_daily sources) k [] <> [])
        by (apply merge_daily_items; exists source, items; tauto).
      unfold Dict.get_or in Hg.
      destruct (Dict.get (merge_daily sources) k) as [its|] eqn:G;
        [|congruence].
      apply get_in in G. now apply (Hall k its).
    - destruct H as [E | (k & its & Hin & Hne & Ep)]; [discriminate|].
      apply in_get in Hin; [|apply merge_daily_nodup].
      assert (Hg : Dict.get_or (merge_daily sources) k [] <> [])
        by (unfold Dict.get_or; now rewrite Hin).
      apply merge_daily_items in Hg as (source & items & Hs & Hi & Hn).
      exists source, k, items. tauto. }
  split; [exact Hmain|].
  intros events ev Hsrc Hev Hk Ep.
  destruct (working_days strptime (merge_daily sources)) as [n|];
    [|reflexivity].
  exfalso. destruct Hmain as (Hall & _).
  destruct (calendar_steps events []) as (_ & _ & _ & Hin).
  specialize (Hin ev Hev Hk). fold (get_calendar_activity (Some events)) in Hin.
  unfold Dict.get_or in Hin.
  destruct (Dict.get (get_calendar_activity (Some events)) (date_key ev))
    as [its|] eqn:G; [|contradiction].
  apply get_in in G.
  apply (Hall _ _ _ Hsrc G); [|exact Ep].
  intros ->. contradiction.
Qed.

Lemma summary_needs_dated_keys_witness :
  working_days demo_strptime
    (merge_daily [demo_daily; get_calendar_activity (Some [standup; undated])])
  = None.
Proof.
  destruct (summary_needs_dated_keys demo_strptime
              [demo_daily; get_calendar_activity (Some [standup; undated])])
    as (_ & H).
  apply (H [standup; undated] undated).
  - right. now left.
  - right. now left.
  - reflexivity.
  - reflexivity.
Defined.

(** ** The day axis *)

Import Calendar.
Import TimeReport.

Lemma json_args_run :
  main demo_strptime json_args quiet_world some_now
  = Finished
      [(Claude, midnight demo_day, replace_end_of_day (midnight demo_day));
       (Git, midnight demo_day, replace_end_of_day (midnight demo_day))]
      (Json []).
Proof. reflexivity. Qed.

(** With [--date 2026-02-03 --json] and nothing to report, the ["days"]
    object that is printed is empty: the day has no entry. *)
Lemma every_day_reported_fails :
  ~ every_day_reported demo_strptime json_args quiet_world some_now.
Proof.
  intros H.
  specialize (H (midnight demo_day) (replace_end_of_day (midnight demo_day))
                _ _ eq_refl (Z.le_refl _) json_args_run).
  vm_compute in H. discriminate H.
Qed.

(** C9 (amended).  For a range of dates that Python has (ordinals from 1
    on), whose first day is not after its last day and that ends before
    9999-12-31, the day loop of the text report
    gives (last - first).days + 1 blocks, the i-th being that of the first
    day plus i days: consecutive days, none missing, none twice (also as
    printed, "YYYY-MM-DD"), whatever the events are; a day without events
    has an (empty) block of its own.  This is the day axis of every text
    report that [main] prints, and for the ranges that [main] builds the
    count is [(end - start).days + 1] on the two timestamps.  The chart
    of the PR report, when there is usage to draw it from and its window
    starts at a date that Python has, has [days + 1] consecutive dates
    ending today. *)
Theorem day_axis_dense :
  forall (daily : daily_t) (start finish : datetime),
    1 <= dt_date start ->
    dt_date start <= dt_date finish ->
    dt_date finish < max_ordinal ->
    (exists blocks,
        day_blocks daily start finish = Done blocks
        /\ let axis := map fst blocks in
           List.length axis
           = Z.to_nat (days_between (dt_date start) (dt_date finish) + 1)
           /\ (forall i, (i < List.length axis)%nat ->
                         nth i axis 0 = add_days (dt_date start) (Z.of_nat i))
           /\ NoDup axis
           /\ NoDup (map strftime_ymd axis)
           /\ (forall d, In d axis <-> dt_date start <= d <= dt_date finish)
           /\ (forall d, In d axis -> In (d, format_day daily d) blocks)
           /\ (forall d, Dict.get_or daily (strftime_ymd d) [] = [] ->
                         exists day_name,
                           format_day daily d
                           = [EmptyDay (strftime_ymd d) day_name])
           /\ (forall strptime args w now started report,
                 date_range strptime args now = Done (start, finish) ->
                 main strptime args w now = Finished started (Text report) ->
                 day_axis report = axis)
           /\ (forall strptime args now,
                 valid_time now ->
                 date_range strptime args now = Done (start, finish) ->
                 List.length axis
                 = Z.to_nat (timedelta_days start finish + 1)))
    /\ (forall today prs_data usage_buckets days people ch,
          0 <= days -> 1 <= today - days -> today < max_ordinal ->
          PrReport.build_consumption_chart today prs_data usage_buckets
                                           days people
          = PrReport.Ok (Some ch) ->
          PrReport.dates ch
          = map strftime_ymd (day_range (today - days) today)
          /\ List.length (PrReport.dates ch) = Z.to_nat (days + 1)
          /\ NoDup (PrReport.dates ch)).
Proof.
  intros daily start finish H1 Hle Hmax. split.
  - eexists. split; [apply day_blocks_done; lia|].
    cbv zeta. rewrite day_blocks_axis.
    split; [now apply day_range_length|].
    split; [apply day_range_nth|].
    split; [apply day_range_nodup|].
    split.
    { apply Finite.Injective_map_NoDup_in; [|apply day_range_nodup].
      intros x y Hx Hy. apply day_range_in in Hx, Hy.
      apply strftime_ymd_inj; unfold valid_date, max_ordinal in *; lia. }
    split; [apply day_range_in|].
    split.
    { intros d Hd. apply in_map_iff. exists d. split; [reflexivity|].
      exact Hd. }
    split.
    { intros d Hd. unfold format_day. cbv zeta. rewrite Hd. eauto. }
    split.
    { intros strptime args w now started report Hr E.
      eapply main_text_axis; [exact Hr | lia | exact E]. }
    intros strptime args now Hnow Hr.
    destruct (date_range_times _ _ _ _ _ Hnow Hr) as [T1 T2].
    rewrite timedelta_days_dates by assumption.
    now apply day_range_length.
  - intros today prs_data usage_buckets days people ch Hd Hs Ht E.
    apply build_consumption_chart_fields in E. cbv zeta in E.
    destruct E as (-> & _).
    unfold PrReport.chart_dates, PrReport.chart_days, add_days. cbv zeta.
    replace (today + - days) with (today - days) by lia.
    split; [reflexivity|]. split.
    + rewrite length_map, day_range_length by lia.
      unfold days_between. f_equal. lia.
    + apply Finite.Injective_map_NoDup_in; [|apply day_range_nodup].
      intros x y Hx Hy. apply day_range_in in Hx, Hy.
      apply strftime_ymd_inj; unfold valid_date, max_ordinal in *; lia.
Qed.

Lemma day_axis_dense_witness :
  exists blocks,
    day_blocks [] feb01 feb15_end = Done blocks
    /\ List.length (map fst blocks) = 15%nat.
Proof.
  destruct (day_axis_dense [] feb01 feb15_end) as ((blocks & E & H & _) & _).
  - vm_compute. discriminate.
  - vm_compute. discriminate.
  - vm_compute. reflexivity.
  - exists blocks. split; [exact E | exact H].
Defined.


(** ** Session history *)

Import Calendar.
Import TimeReport.
Import History.

Lemma scan_entry_counted start_ms end_ms (by_day : sessions_t) entry :
  scan_entry start_ms end_ms by_day entry
  = match counted start_ms end_ms (Entry entry) with
    | Some (d, p, x) => add_session by_day d p x
    | None => by_day
    end.
Proof.
  unfold scan_entry, counted. destruct (timestamp entry) as [ts|];
    [|reflexivity].
  destruct (Z.ltb_spec ts start_ms), (Z.gtb_spec ts end_ms),
    (Z.leb_spec start_ms ts), (Z.leb_spec ts end_ms); try lia;
    cbn [orb andb]; try reflexivity.
  destruct (String.eqb (field_or (project entry) "") ""); reflexivity.
Qed.

Lemma tracks_nil : tracks [] [].
Proof.
  unfold tracks, projects_on, ids_of. cbn.
  split; [constructor|]. split; [tauto|]. split; [constructor|].
  split; [tauto|]. split; [constructor|]. tauto.
Qed.

Lemma add_session_tracks cs (by_day : sessions_t) d p x :
  tracks cs by_day -> tracks (cs ++ [(d, p, x)]) (add_session by_day d p x).
Proof.
  intros (Hk & Hd & Hpk & Hp & Hik & Hi). unfold add_session.
  split; [now apply keys_set_nodup|].
  split.
  { intros day. rewrite keys_set, map_app, in_app_iff, Hd. cbn.
    intuition congruence. }
  split.
  { intros day. rewrite get_or_set.
    destruct (String.eqb d day); [|apply Hpk].
    apply keys_set_nodup, Hpk. }
  split.
  { intros day q. unfold projects_on.
    rewrite get_or_set, filter_app, map_app, in_app_iff.
    cbn [filter fst snd].
    destruct (String.eqb_spec d day) as [->|Hne]; cbn [map fst snd In].
    - rewrite keys_set, (Hp day q). unfold projects_on.
      intuition congruence.
    - rewrite (Hp day q). unfold projects_on. tauto. }
  split.
  { intros day q. rewrite get_or_set.
    destruct (String.eqb d day); [|apply Hik].
    rewrite get_or_set.
    destruct (String.eqb p q); [|apply Hik].
    apply set_add_nodup, Hik. }
  intros day q y. unfold ids_of.
  rewrite get_or_set, filter_app, map_app, in_app_iff. cbn [filter fst snd].
  destruct (String.eqb_spec d day) as [->|Hne]; cbn [andb].
  - rewrite get_or_set.
    destruct (String.eqb_spec p q) as [->|Hne]; cbn [map snd In].
    + rewrite set_add_in, (Hi day q y). unfold ids_of.
      intuition congruence.
    + rewrite (Hi day q y). unfold ids_of. tauto.
  - cbn [map In]. rewrite (Hi day q y). unfold ids_of. tauto.
Qed.

Lemma scan_tracks start_ms end_ms lines :
  forall cs (by_day : sessions_t),
    tracks cs by_day ->
    match scan start_ms end_ms lines by_day with
    | None => existsb is_scalar lines = true
    | Some by_day' =>
        existsb is_scalar lines = false
        /\ tracks (cs ++ contributions start_ms end_ms lines) by_day'
    end.
Proof.
  induction lines as [|l rest IH]; intros cs by_day Ht.
  - cbn. rewrite app_nil_r. now split.
  - destruct l as [| |entry]; cbn [scan existsb is_scalar orb].
    + apply (IH cs by_day Ht).
    + reflexivity.
    + rewrite scan_entry_counted.
      unfold contributions. cbn [flat_map].
      destruct (counted start_ms end_ms (Entry entry)) as [[[d p] x]|].
      * specialize (IH (cs ++ [(d, p, x)]) (add_session by_day d p x)
                       (add_session_tracks cs by_day d p x Ht)).
        rewrite <- app_assoc in IH. exact IH.
      * apply (IH cs by_day Ht).
Qed.

Lemma inner_fold_get {V} (mk : string * V -> event) (k : string)
      (items : list (string * V)) :
  forall (daily : daily_t) day,
    Dict.get_or
      (fold_left (fun daily item => append_item daily k (mk item))
                 items daily) day []
    = Dict.get_or daily day []
      ++ (if String.eqb k day then map mk items else []).
Proof.
  induction items as [|item rest IH]; intros daily day; cbn [fold_left map].
  - destruct (String.eqb k day); now rewrite app_nil_r.
  - rewrite IH. unfold append_item. rewrite get_or_set.
    destruct (String.eqb_spec k day) as [->|Hne].
    + now rewrite <- app_assoc.
    + reflexivity.
Qed.

Lemma summarise_fold_get {V} (mk : string * V -> event)
      (by_day : Dict.dict (Dict.dict V)) :
  forall (daily : daily_t) day,
    NoDup (Dict.keys by_day) ->
    Dict.get_or
      (fold_left
         (fun daily d =>
            fold_left (fun daily item => append_item daily (fst d) (mk item))
                      (snd d) daily)
         by_day daily) day []
    = Dict.get_or daily day [] ++ map mk (Dict.get_or by_day day []).
Proof.
  induction by_day as [|[k items] rest IH]; intros daily day Hnd.
  - cbn. now rewrite app_nil_r.
  - cbn [fold_left fst snd]. inversion Hnd as [|? ? Hn Hd]; subst.
    rewrite (IH _ day Hd), inner_fold_get.
    assert (E : Dict.get_or ((k, items) :: rest) day []
                = if String.eqb k day then items
                  else Dict.get_or rest day [])
      by (unfold Dict.get_or; cbn [Dict.get];
          now destruct (String.eqb k day)).
    rewrite E.
    destruct (String.eqb_spec k day) as [->|Hne].
    + assert (G : Dict.get_or rest day [] = []).
      { unfold Dict.get_or. destruct (Dict.get rest day) eqn:G;
          [|reflexivity].
        apply key_of_get in G. contradiction. }
      rewrite G. cbn [map]. now rewrite app_nil_r.
    + now rewrite app_nil_r.
Qed.

(** X24.  The scan of the session history gives, for every day, one item per
    project name seen on that day among the lines that count (a timestamp
    within the bounds and a project that is not empty), and the item's
    session count is the number of distinct session ids of these lines.
    Lines that are not JSON are skipped; a JSON line that is not an object
    makes the scan fail; without a history file there is no item. *)
Theorem claude_activity_sessions :
  forall start_ms end_ms (lines : list history_line),
    match get_claude_activity start_ms end_ms (Some lines) with
    | AttributeError => existsb is_scalar lines = true
    | Returns daily =>
        let cs := contributions start_ms end_ms lines in
        existsb is_scalar lines = false
        /\ forall day, exists projects,
             Dict.get_or daily day []
             = map (fun p => claude_session p (distinct_ids day p cs))
                   projects
             /\ NoDup projects
             /\ forall p, In p projects <-> In p (projects_on day cs)
    end
    /\ get_claude_activity start_ms end_ms None = Returns [].
Proof.
  intros start_ms end_ms lines. split; [|reflexivity].
  unfold get_claude_activity.
  pose proof (scan_tracks start_ms end_ms lines [] [] tracks_nil) as H.
  destruct (scan start_ms end_ms lines []) as [by_day|]; [|exact H].
  cbn [app] in H. destruct H as (Hs & Hk & _ & Hpk & Hp & Hik & Hi).
  cbv zeta. split; [exact Hs|].
  intros day. exists (Dict.keys (Dict.get_or by_day day [])).
  split; [|split; [apply Hpk | apply Hp]].
  unfold summarise. rewrite (summarise_fold_get session_item) by exact Hk.
  change (Dict.get_or (@nil (string * list event)) day []) with (@nil event).
  cbn [app]. unfold Dict.keys. rewrite map_map.
  apply map_ext_in. intros [p ids] Hin. unfold session_item. cbn [fst snd].
  f_equal. unfold distinct_ids. f_equal.
  apply in_get in Hin; [|apply Hpk].
  assert (E : ids = Dict.get_or (Dict.get_or by_day day []) p [])
    by (unfold Dict.get_or at 1; now rewrite Hin).
  apply NoDup_same_length.
  - rewrite E. apply Hik.
  - apply NoDup_nodup.
  - intros x. rewrite nodup_In, E. apply Hi.
Qed.


(** ** Commits *)

Import GitLog.

Lemma git_tracks_nil : tracks [] [].
Proof.
  unfold tracks, repos_on, commits_of. cbn.
  split; [constructor|]. split; [constructor|]. split; [tauto|].
  reflexivity.
Qed.

Lemma add_commit_tracks cs (by_day : commits_t) d r :
  tracks cs by_day -> tracks (cs ++ [(d, r)]) (add_commit by_day d r).
Proof.
  intros (Hk & Hrk & Hr & Hc). unfold add_commit.
  split; [now apply keys_set_nodup|].
  split.
  { intros day. rewrite get_or_set.
    destruct (String.eqb d day); [|apply Hrk].
    apply keys_set_nodup, Hrk. }
  split.
  { intros day q. unfold repos_on.
    rewrite get_or_set, filter_app, map_app, in_app_iff.
    cbn [filter fst snd].
    destruct (String.eqb_spec d day) as [->|Hne]; cbn [map fst snd In].
    - rewrite keys_set, (Hr day q). unfold repos_on.
      intuition congruence.
    - rewrite (Hr day q). unfold repos_on. tauto. }
  intros day q. unfold commits_of.
  rewrite get_or_set, filter_app, length_app. cbn [filter fst snd].
  destruct (String.eqb_spec d day) as [->|Hne]; cbn [andb].
  - rewrite get_or_set.
    destruct (String.eqb_spec r q) as [->|_]; rewrite (Hc day q);
      unfold commits_of; cbn [List.length]; lia.
  - rewrite (Hc day q). unfold commits_of. cbn [List.length]. lia.
Qed.

Lemma scan_log_tracks repo_name lines : forall cs (by_day : commits_t),
  tracks cs by_day ->
  tracks (cs ++ map (fun line => (date_key line, repo_name))
                    (filter has_bar lines))
         (scan_log repo_name lines by_day).
Proof.
  unfold scan_log.
  induction lines as [|line rest IH]; intros cs by_day Ht;
    cbn [fold_left filter].
  - cbn [map]. now rewrite app_nil_r.
  - destruct (has_bar line).
    + cbn [map].
      specialize (IH _ _ (add_commit_tracks cs by_day (date_key line)
                                            repo_name Ht)).
      now rewrite <- app_assoc in IH.
    + now apply IH.
Qed.

Lemma scan_repos_tracks repo_paths : forall cs (by_day : commits_t),
  tracks cs by_day ->
  tracks (cs ++ commits_read repo_paths)
         (fold_left
            (fun by_day repo =>
               match snd repo with
               | Some lines => scan_log (fst repo) lines by_day
               | None => by_day
               end)
            repo_paths by_day).
Proof.
  induction repo_paths as [|[name log] rest IH]; intros cs by_day Ht;
    unfold commits_read; cbn [fold_left flat_map fst snd].
  - now rewrite app_nil_r.
  - destruct log as [lines|].
    + rewrite app_assoc. apply IH. now apply scan_log_tracks.
    + cbn [app]. now apply IH.
Qed.

(** X25.  The commit items of a day: one per repository name with a commit read
    for that day, carrying the number of log lines (with a ["|"]) whose
    first ten characters are that day, over all the repositories of that
    name whose log could be read; the count is at least one. *)
Theorem git_activity_commits :
  forall (repo_paths : list (string * option (list string))) (day : string),
    let cs := commits_read repo_paths in
    exists repos,
      Dict.get_or (get_git_activity repo_paths) day []
      = map (fun r => git_commit r (commits_of day r cs)) repos
      /\ NoDup repos
      /\ (forall r, In r repos <-> In r (repos_on day cs))
      /\ (forall r, In r repos -> 1 <= commits_of day r cs).
Proof.
  intros repo_paths day cs.
  pose proof (scan_repos_tracks repo_paths [] [] git_tracks_nil) as Ht.
  cbn [app] in Ht. fold (scan_repos repo_paths) in Ht. fold cs in Ht.
  destruct Ht as (Hk & Hrk & Hr & Hc).
  exists (Dict.keys (Dict.get_or (scan_repos repo_paths) day [])).
  split; [|split; [apply Hrk | split; [apply Hr|]]].
  - unfold get_git_activity, summarise.
    rewrite (summarise_fold_get commit_item) by exact Hk.
    change (Dict.get_or (@nil (string * list event)) day []) with (@nil event).
    cbn [app]. unfold Dict.keys. rewrite map_map.
    apply map_ext_in. intros [r n] Hin. unfold commit_item. cbn [fst snd].
    f_equal. rewrite <- Hc. apply in_get in Hin; [|apply Hrk].
    unfold Dict.get_or at 1. now rewrite Hin.
  - intros r Hin. apply Hr in Hin. unfold repos_on in Hin.
    apply in_map_iff in Hin as ([d q] & E & Hin). cbn [snd] in E. subst q.
    unfold commits_of.
    assert (Hin' : In (d, r)
                      (filter (fun c => String.eqb (fst c) day
                                        && String.eqb (snd c) r) cs)).
    { apply filter_In in Hin as (Hin & Ed). apply filter_In.
      split; [exact Hin|]. cbn [fst snd] in *.
      now rewrite Ed, String.eqb_refl. }
    apply in_split in Hin' as (l1 & l2 & E).
    rewrite E, length_app. cbn [List.length]. lia.
Qed.


(** ** Branch names *)

Lemma of_string_app (a b : string) :
  of_string (a ++ b)%string = of_string a ++ of_string b.
Proof.
  unfold of_string. induction a as [|c a IH]; cbn; [reflexivity|].
  now rewrite IH.
Qed.

Lemma remove_all_skip (old l s : text) :
  remove_all old (List.length l) (l ++ s) = remove_all old O s.
Proof.
  induction l as [|c l IH]; cbn [List.length app remove_all];
    [reflexivity | exact IH].
Qed.

Lemma strip_prefix_self (p s : text) : strip_prefix p (p ++ s) = Some s.
Proof.
  induction p as [|a p IH]; cbn; [now destruct s|].
  unfold ascii_eqb. now rewrite Ascii.eqb_refl.
Qed.

Lemma remove_all_prefix (old s : text) :
  old <> [] -> remove_all old O (old ++ s) = remove_all old O s.
Proof.
  destruct old as [|c o]; [congruence|]. intros _.
  change ((c :: o) ++ s) with (c :: (o ++ s)).
  cbn [remove_all].
  change (c :: o ++ s) with ((c :: o) ++ s).
  unfold startswith. rewrite strip_prefix_self.
  replace (List.length (c :: o) - 1)%nat with (List.length o)
    by (cbn [List.length]; lia).
  apply remove_all_skip.
Qed.

Lemma remove_all_absent (old s : text) :
  ~ is_infix old s -> remove_all old O s = s.
Proof.
  induction s as [|c rest IH]; intros Hn; [reflexivity|].
  assert (Hrest : ~ is_infix old rest).
  { intros (pre & post & E). apply Hn. exists (c :: pre), post.
    now rewrite E. }
  cbn [remove_all]. destruct old as [|a o].
  - exfalso. apply Hn. now exists [], (c :: rest).
  - destruct (startswith (c :: rest) (a :: o)) eqn:Es.
    + exfalso. apply Hn. apply startswith_app in Es as (post & E).
      exists [], post. exact E.
    + f_equal. now apply IH.
Qed.

(** X26.  The branch of a ref: a leading ["refs/heads/"] is dropped, and a ref in
    which ["refs/heads/"] does not occur is left as it is; a PR without a
    ref has the empty branch. *)
Theorem branch_of_ref :
  forall b : string,
    branch_of (Some ("refs/heads/" ++ b)%string) = branch_of (Some b)
    /\ (~ is_infix (of_string "refs/heads/") (of_string b) ->
        branch_of (Some b) = b)
    /\ branch_of None = "".
Proof.
  intros b. unfold branch_of, field_or. split; [|split].
  - rewrite of_string_app, remove_all_prefix; [reflexivity|].
    cbn. discriminate.
  - intros Hn. rewrite remove_all_absent by exact Hn. apply to_of_string.
  - reflexivity.
Qed.

Lemma branch_of_ref_witness : branch_of (Some "refs/heads/main") = "main".
Proof.
  destruct (branch_of_ref "main") as (H1 & H2 & _).
  change "refs/heads/main" with ("refs/heads/" ++ "main")%string.
  rewrite H1. apply H2. intros (pre & post & E).
  apply (f_equal (@List.length ascii)) in E.
  rewrite !length_app in E. cbn in E. lia.
Defined.

